(** * Rumee: the automatic data-linking engine

    A shallow embedding of [backend/src/services/DataLinkingService.ts],
    [AIService.ts] and [SummaryService.ts], together with the Mongoose
    models they read and write.

    - A Mongo collection is a list of documents in query order.
    - A string is the sequence of its UTF-8 bytes.
    - An [ObjectId] is its hexadecimal string; Mongo compares ids by value.
    - Every [async] method is a computation in the monad [M]: it threads a
      [World] (the database, the logger output, the remote calls issued so
      far) and either returns or throws.
    - The remote language model, the validity test of the ObjectId
      constructor, the outcome of a write, the clock, the time zone and the
      case folding of the JavaScript runtime are not code of the repository:
      they are the fields of [Env]. *)

From Stdlib Require Import List String Ascii Bool Arith ZArith QArith Lia.
From Stdlib Require Import DecimalString.
Import ListNotations.
Local Close Scope Q_scope.
Local Open Scope string_scope.
Local Open Scope list_scope.

(** ** Documents *)

Module Model.

Definition ObjectId := string.
(** A JavaScript [Date], as milliseconds since the epoch. *)
Definition Date := Z.

(** [INote] of models/Note.ts. *)
Record Note := mkNote {
  n_id : ObjectId;
  n_userId : ObjectId;
  n_title : string;
  n_content : string;
  n_linkedEntities : list ObjectId;
  n_createdAt : Date
}.

(** [IPerson] of models/Person.ts. *)
Record Person := mkPerson {
  p_id : ObjectId;
  p_userId : ObjectId;
  p_name : string;
  p_linkedNotes : list ObjectId;
  p_meetings : list ObjectId
}.

(** [IMeeting] of models/Meeting.ts; [description] and [notes] are optional. *)
Record Meeting := mkMeeting {
  m_id : ObjectId;
  m_userId : ObjectId;
  m_title : string;
  m_description : option string;
  m_notes : option string;
  m_date : Date;
  m_actionItems : list string;
  m_linkedNotes : list ObjectId
}.

Inductive ReminderType := task | followup | meeting_prep | custom.
Inductive Priority := low | medium | high.
Inductive EntityType := NoteEntity | PersonEntity | MeetingEntity.

(** [IReminder] of models/Reminder.ts; [completed] defaults to [false]. *)
Record Reminder := mkReminder {
  r_userId : ObjectId;
  r_title : string;
  r_dueDate : Date;
  r_type : ReminderType;
  r_priority : Priority;
  r_linkedEntity : ObjectId;
  r_linkedEntityType : EntityType;
  r_completed : bool
}.

(** The four collections. *)
Record Store := mkStore {
  notes : list Note;
  people : list Person;
  meetings : list Meeting;
  reminders : list Reminder
}.

(** A document on its way to the database. *)
Inductive Doc :=
| DNote (n : Note)
| DPerson (p : Person)
| DMeeting (m : Meeting)
| DReminder (r : Reminder).

(** What [JSON.parse] yields for an entity-extraction reply, as far as the
    linking code reads it: the [people] property, absent or a list. *)
Record Entities := mkEntities { e_people : option (list string) }.

(** One element of a similarity reply.  [index] is used as an array index;
    every value that is not an index of the candidate array (negative,
    fractional, too large) reads [undefined] and is represented by an
    out-of-range number.  [score] is the value of the parsed double. *)
Record Connection := mkConnection { c_index : nat; c_score : Q }.

End Model.
Import Model.

(** ** Dates of the JavaScript runtime *)

Module JsDate.

(** The time zone of the host, as the operation LocalTZA(t, isUTC) of
    ECMAScript: the offset of local time from UTC, in milliseconds, at the
    UTC instant [t] ([tza_utc]) and at the local time [t] ([tza_local]). *)
Record Zone := mkZone {
  tza_utc : Date -> Z;
  tza_local : Z -> Z
}.

Definition msPerDay : Z := 86400000.
Definition msPerHour : Z := 3600000.
Definition msPerMinute : Z := 60000.

(** LocalTime(t) and UTC(t) of ECMAScript. *)
Definition LocalTime (z : Zone) (t : Date) : Z := (t + tza_utc z t)%Z.
Definition UTC (z : Zone) (t : Z) : Date := (t - tza_local z t)%Z.

(** Day(t): the number of the day that holds [t]. *)
Definition Day (t : Z) : Z := (t / msPerDay)%Z.

(** [d.setHours(h, m, s, ms)]: the local day of [d] at the given time of
    day. *)
Definition setHours (z : Zone) (d : Date) (h m s ms : Z) : Date :=
  UTC z (Day (LocalTime z d) * msPerDay
         + (h * msPerHour + m * msPerMinute + s * 1000 + ms))%Z.

(** [d.setDate(d.getDate() + n)]: the same local time of day, [n] local
    days away. *)
Definition addToDate (z : Zone) (d : Date) (n : Z) : Date :=
  UTC z (LocalTime z d + n * msPerDay)%Z.

(** [d.getHours()] and [d.getMinutes()]. *)
Definition getHours (z : Zone) (d : Date) : Z :=
  ((LocalTime z d / msPerHour) mod 24)%Z.
Definition getMinutes (z : Zone) (d : Date) : Z :=
  ((LocalTime z d / msPerMinute) mod 60)%Z.

End JsDate.

(** ** Exceptions, the world and the effect monad *)

Inductive Exn :=
| RemoteError      (* axios rejects, or JSON.parse throws *)
| BSONError        (* new ObjectId(s) on a string that is no id *)
| CastError        (* Mongoose cannot cast a query value to ObjectId *)
| TypeError        (* property read on undefined *)
| PersistError.    (* document.save() rejects *)

Inductive Result (A : Type) :=
| Ok (a : A)
| Throw (e : Exn).
Arguments Ok {A} a.
Arguments Throw {A} e.

Inductive LogEntry :=
| LogInfo (msg : string)
| LogError (msg : string) (e : Exn).

Inductive RemoteCall :=
| CallExtract (text : string)
| CallSummarize (content : string)
| CallRank (sourceText : string) (targetTexts : list string)
| CallActions (meetingNotes : string).

Record World := mkWorld {
  store : Store;
  log : list LogEntry;
  calls : list RemoteCall
}.

(** The collaborators outside the repository. *)
Record Env := mkEnv {
  (** chat completion + [JSON.parse] for each AIService prompt;
      [None] when the request or the parse throws *)
  remote_extract : string -> option Entities;
  remote_summarize : string -> option string;
  remote_rank : string -> list string -> option (list Connection);
  remote_actions : string -> option (list string);
  (** does the string denote an ObjectId *)
  oid_valid : string -> bool;
  (** does writing this document succeed (validation and transport) *)
  persist_ok : Doc -> bool;
  (** the reading of [new Date()] in the state the run has reached: time
      is not part of the world, the host tells it *)
  clock : World -> Date;
  (** the time zone of the host *)
  zone : JsDate.Zone;
  (** [s.toLowerCase()] of the runtime, which maps the empty string to
      itself *)
  lower_case : string -> string;
  lower_case_empty : lower_case EmptyString = EmptyString
}.

Definition M (A : Type) : Type := World -> Result A * World.

Definition ret {A} (a : A) : M A := fun w => (Ok a, w).

Definition bind {A B} (m : M A) (f : A -> M B) : M B :=
  fun w =>
    match m w with
    | (Ok a, w') => f a w'
    | (Throw e, w') => (Throw e, w')
    end.

Definition throw {A} (e : Exn) : M A := fun w => (Throw e, w).

(** [try { m } catch (error) { h error }] *)
Definition try_catch {A} (m : M A) (h : Exn -> M A) : M A :=
  fun w =>
    match m w with
    | (Ok a, w') => (Ok a, w')
    | (Throw e, w') => h e w'
    end.

Declare Scope monad_scope.
Delimit Scope monad_scope with monad.
Notation "x <- m ;; k" := (bind m (fun x => k))
  (at level 61, m at next level, right associativity) : monad_scope.
Notation "m ;; k" := (bind m (fun _ => k))
  (at level 61, right associativity) : monad_scope.
Local Open Scope monad_scope.

(** [for (const x of xs) { await body(x) }] *)
Fixpoint forEach {A} (xs : list A) (body : A -> M unit) : M unit :=
  match xs with
  | [] => ret tt
  | x :: xs' => body x ;; forEach xs' body
  end.

Definition get_store : M Store := fun w => (Ok (store w), w).

Definition put_store (s : Store) : M unit :=
  fun w => (Ok tt, mkWorld s (log w) (calls w)).

Definition record_call (c : RemoteCall) : M unit :=
  fun w => (Ok tt, mkWorld (store w) (log w) (calls w ++ [c])).

Definition of_reply {A} (r : option A) : M A :=
  match r with
  | Some a => ret a
  | None => throw RemoteError
  end.

(** [new Date()] *)
Definition new_Date (env : Env) : M Date := fun w => (Ok (clock env w), w).

Module logger.

Definition info (msg : string) : M unit :=
  fun w => (Ok tt, mkWorld (store w) (log w ++ [LogInfo msg]) (calls w)).

Definition error (msg : string) (e : Exn) : M unit :=
  fun w => (Ok tt, mkWorld (store w) (log w ++ [LogError msg e]) (calls w)).

End logger.

(** ** String helpers of the JavaScript runtime *)

Definition nl : string := String (ascii_of_nat 10) EmptyString.

Definition lower_ascii (c : ascii) : ascii :=
  let n := nat_of_ascii c in
  if (65 <=? n)%nat && (n <=? 90)%nat then ascii_of_nat (n + 32) else c.

(** The case folding of the scenarios below: A-Z to a-z, which is what
    [toLowerCase] does to a text of ASCII characters.  The services fold
    with [lower_case] of the environment. *)
Fixpoint ascii_lower_case (s : string) : string :=
  match s with
  | EmptyString => EmptyString
  | String c s' => String (lower_ascii c) (ascii_lower_case s')
  end.

(** [s.includes(pat)] on strings: [pat] occurs in [s]. *)
Fixpoint includes (s pat : string) : bool :=
  String.prefix pat s ||
  match s with
  | EmptyString => false
  | String _ s' => includes s' pat
  end.

(** [arr.includes(id)] on a Mongoose array of ObjectIds (by value). *)
Definition id_includes (arr : list ObjectId) (id : ObjectId) : bool :=
  existsb (String.eqb id) arr.

(** ** The database *)

Module Db.
Section WithEnv.
Variable env : Env.

(** [new mongoose.Types.ObjectId(s)] *)
Definition newObjectId (s : string) : M ObjectId :=
  if oid_valid env s then ret s else throw BSONError.

(** The cast Mongoose applies to an [_id] given as a string in a query. *)
Definition castObjectId (s : string) : M ObjectId :=
  if oid_valid env s then ret s else throw CastError.

(** [Person.find({ userId, name: { $in: names } })] *)
Definition Person_find_named (userId : ObjectId) (names : list string)
  : M (list Person) :=
  s <- get_store ;;
  ret (filter (fun p => String.eqb (p_userId p) userId
                        && existsb (String.eqb (p_name p)) names)
              (people s)).

(** [Person.findById(id)] *)
Definition Person_findById (id : string) : M (option Person) :=
  oid <- castObjectId id ;;
  s <- get_store ;;
  ret (find (fun p => String.eqb (p_id p) oid) (people s)).

(** [Note.find({ userId, _id: { $ne: id } }).limit(n)] *)
Definition Note_find_others (userId : ObjectId) (id : string) (n : nat)
  : M (list Note) :=
  oid <- castObjectId id ;;
  s <- get_store ;;
  ret (firstn n (filter (fun x => String.eqb (n_userId x) userId
                                  && negb (String.eqb (n_id x) oid))
                        (notes s))).

(** [Note.find({ userId }).limit(n)] *)
Definition Note_find (userId : ObjectId) (n : nat) : M (list Note) :=
  s <- get_store ;;
  ret (firstn n (filter (fun x => String.eqb (n_userId x) userId) (notes s))).

(** [Note.find({ userId, createdAt: { $gte: from, $lte: to } })] *)
Definition Note_find_between (userId : ObjectId) (from to : Date)
  : M (list Note) :=
  s <- get_store ;;
  ret (filter (fun x => String.eqb (n_userId x) userId
                        && (from <=? n_createdAt x)%Z
                        && (n_createdAt x <=? to)%Z)
              (notes s)).

(** [Note.findById(id)] *)
Definition Note_findById (id : string) : M (option Note) :=
  oid <- castObjectId id ;;
  s <- get_store ;;
  ret (find (fun x => String.eqb (n_id x) oid) (notes s)).

(** [Meeting.find({ userId }).limit(n)] *)
Definition Meeting_find (userId : ObjectId) (n : nat) : M (list Meeting) :=
  s <- get_store ;;
  ret (firstn n (filter (fun x => String.eqb (m_userId x) userId)
                        (meetings s))).

(** [Meeting.find({ userId, date: { $gte: from, $lte: to } })] *)
Definition Meeting_find_between (userId : ObjectId) (from to : Date)
  : M (list Meeting) :=
  s <- get_store ;;
  ret (filter (fun x => String.eqb (m_userId x) userId
                        && (from <=? m_date x)%Z
                        && (m_date x <=? to)%Z)
              (meetings s)).

(** [Meeting.findById(id)] *)
Definition Meeting_findById (id : string) : M (option Meeting) :=
  oid <- castObjectId id ;;
  s <- get_store ;;
  ret (find (fun x => String.eqb (m_id x) oid) (meetings s)).

(** Writing a loaded document back: the stored document with its [_id]
    takes the fields of the in-memory one. *)
Definition replace_by {A} (key : A -> ObjectId) (d : A) (l : list A) : list A :=
  map (fun x => if String.eqb (key x) (key d) then d else x) l.

(** [person.save()] *)
Definition Person_save (p : Person) : M unit :=
  if persist_ok env (DPerson p) then
    s <- get_store ;;
    put_store (mkStore (notes s) (replace_by p_id p (people s))
                       (meetings s) (reminders s))
  else throw PersistError.

(** [note.save()] *)
Definition Note_save (n : Note) : M unit :=
  if persist_ok env (DNote n) then
    s <- get_store ;;
    put_store (mkStore (replace_by n_id n (notes s)) (people s)
                       (meetings s) (reminders s))
  else throw PersistError.

(** [meeting.save()] *)
Definition Meeting_save (m : Meeting) : M unit :=
  if persist_ok env (DMeeting m) then
    s <- get_store ;;
    put_store (mkStore (notes s) (people s)
                       (replace_by m_id m (meetings s)) (reminders s))
  else throw PersistError.

(** [new Reminder({...}).save()]: a new document is inserted. *)
Definition Reminder_save (r : Reminder) : M unit :=
  if persist_ok env (DReminder r) then
    s <- get_store ;;
    put_store (mkStore (notes s) (people s) (meetings s)
                       (reminders s ++ [r]))
  else throw PersistError.

End WithEnv.
End Db.

(** ** AIService.ts *)

Module AIService.
Section WithEnv.
Variable env : Env.

(** [extractEntities(text)]: post the prompt, parse the reply; on any
    failure log and rethrow. *)
Definition extractEntities (text : string) : M Entities :=
  try_catch
    (record_call (CallExtract text) ;;
     of_reply (remote_extract env text))
    (fun e => logger.error "Error extracting entities:" e ;; throw e).

(** [generateDailySummary(content)] *)
Definition generateDailySummary (content : string) : M string :=
  try_catch
    (record_call (CallSummarize content) ;;
     of_reply (remote_summarize env content))
    (fun e => logger.error "Error generating summary:" e ;; throw e).

(** [findConnections(sourceText, targetTexts)]: the parsed reply is
    returned as it is. *)
Definition findConnections (sourceText : string) (targetTexts : list string)
  : M (list Connection) :=
  try_catch
    (record_call (CallRank sourceText targetTexts) ;;
     of_reply (remote_rank env sourceText targetTexts))
    (fun e => logger.error "Error finding connections:" e ;; throw e).

(** [generateActionItems(meetingNotes)] *)
Definition generateActionItems (meetingNotes : string) : M (list string) :=
  try_catch
    (record_call (CallActions meetingNotes) ;;
     of_reply (remote_actions env meetingNotes))
    (fun e => logger.error "Error generating action items:" e ;; throw e).

End WithEnv.
End AIService.

(** ** DataLinkingService.ts *)

Module DataLinkingService.

(** [connection.score > 0.6].  The double nearest to 0.6 lies below it and
    no double lies between the two, so on doubles the test agrees with the
    comparison of the values against 6/10. *)
Definition above_link_threshold (score : Q) : bool :=
  negb (Qle_bool score (6 # 10)%Q).

(** [person.linkedNotes.push(id)] *)
Definition person_push_linkedNotes (p : Person) (id : ObjectId) : Person :=
  mkPerson (p_id p) (p_userId p) (p_name p) (p_linkedNotes p ++ [id])
           (p_meetings p).

(** [person.meetings.push(id)] *)
Definition person_push_meetings (p : Person) (id : ObjectId) : Person :=
  mkPerson (p_id p) (p_userId p) (p_name p) (p_linkedNotes p)
           (p_meetings p ++ [id]).

(** [note.linkedEntities.push(id)] *)
Definition note_push_linkedEntities (n : Note) (id : ObjectId) : Note :=
  mkNote (n_id n) (n_userId n) (n_title n) (n_content n)
         (n_linkedEntities n ++ [id]) (n_createdAt n).

(** [meeting.linkedNotes.push(id)] *)
Definition meeting_push_linkedNotes (m : Meeting) (id : ObjectId) : Meeting :=
  mkMeeting (m_id m) (m_userId m) (m_title m) (m_description m) (m_notes m)
            (m_date m) (m_actionItems m) (m_linkedNotes m ++ [id]).

(** [meeting.actionItems = items] *)
Definition meeting_set_actionItems (m : Meeting) (items : list string)
  : Meeting :=
  mkMeeting (m_id m) (m_userId m) (m_title m) (m_description m) (m_notes m)
            (m_date m) items (m_linkedNotes m).

(** The loop of linkNoteToEntities over the connections: the in-memory
    note gains the id of [allNotes[connection.index]] when the score passes;
    reading [_id] of a missing candidate throws. *)
Fixpoint push_related_notes (allNotes : list Note)
  (connections : list Connection) (currentNote : Note) : M Note :=
  match connections with
  | [] => ret currentNote
  | connection :: rest =>
      if above_link_threshold (c_score connection) then
        match nth_error allNotes (c_index connection) with
        | Some relatedNote =>
            push_related_notes allNotes rest
              (note_push_linkedEntities currentNote (n_id relatedNote))
        | None => throw TypeError
        end
      else push_related_notes allNotes rest currentNote
  end.

(** The same loop in linkMeetingToData. *)
Fixpoint push_meeting_notes (allNotes : list Note)
  (connections : list Connection) (meeting : Meeting) : M Meeting :=
  match connections with
  | [] => ret meeting
  | connection :: rest =>
      if above_link_threshold (c_score connection) then
        match nth_error allNotes (c_index connection) with
        | Some relatedNote =>
            push_meeting_notes allNotes rest
              (meeting_push_linkedNotes meeting (n_id relatedNote))
        | None => throw TypeError
        end
      else push_meeting_notes allNotes rest meeting
  end.

(** The first loop of linkPersonToRelevantData: notes mentioning the name. *)
Definition mention_notes (env : Env) (personName : string)
  (allNotes : list Note) (person : Person) : Person :=
  fold_left
    (fun person note =>
       if includes (lower_case env (n_content note))
                   (lower_case env personName)
       then if negb (id_includes (p_linkedNotes person) (n_id note))
            then person_push_linkedNotes person (n_id note)
            else person
       else person)
    allNotes person.

(** The second loop: meetings whose title mentions the name. *)
Definition mention_meetings (env : Env) (personName : string)
  (allMeetings : list Meeting) (person : Person) : Person :=
  fold_left
    (fun person meeting =>
       if includes (lower_case env (m_title meeting))
                   (lower_case env personName)
       then if negb (id_includes (p_meetings person) (m_id meeting))
            then person_push_meetings person (m_id meeting)
            else person
       else person)
    allMeetings person.

Section WithEnv.
Variable env : Env.

(** linkNoteToEntities, lines 23-34: the people named in the note. *)
Definition link_named_people (userId noteId : string) (entities : Entities)
  : M unit :=
  match e_people entities with
  | Some (name :: names) =>
      uid <- Db.newObjectId env userId ;;
      relatedPeople <- Db.Person_find_named uid (name :: names) ;;
      forEach relatedPeople (fun person =>
        nid <- Db.newObjectId env noteId ;;
        Db.Person_save env (person_push_linkedNotes person nid))
  | _ => ret tt
  end.

(** linkNoteToEntities, lines 37-58: the notes related by similarity. *)
Definition link_related_notes (userId noteId noteContent : string) : M unit :=
  uid <- Db.newObjectId env userId ;;
  allNotes <- Db.Note_find_others env uid noteId 50 ;;
  match allNotes with
  | _ :: _ =>
      connections <- AIService.findConnections env noteContent
                       (map n_content allNotes) ;;
      currentNote <- Db.Note_findById env noteId ;;
      match currentNote with
      | Some currentNote =>
          linked <- push_related_notes allNotes connections currentNote ;;
          Db.Note_save env linked
      | None => ret tt
      end
  | [] => ret tt
  end.

Definition linkNoteToEntities (userId noteId noteContent : string) : M unit :=
  try_catch
    (entities <- AIService.extractEntities env noteContent ;;
     link_named_people userId noteId entities ;;
     link_related_notes userId noteId noteContent ;;
     logger.info ("Linked note " ++ noteId ++ " to related entities"))
    (fun e => logger.error "Error linking note to entities:" e).

Definition linkPersonToRelevantData (userId personId personName : string)
  : M unit :=
  try_catch
    (uid <- Db.newObjectId env userId ;;
     allNotes <- Db.Note_find uid 100 ;;
     uid' <- Db.newObjectId env userId ;;
     allMeetings <- Db.Meeting_find uid' 100 ;;
     person <- Db.Person_findById env personId ;;
     match person with
     | None => ret tt
     | Some person =>
         let person := mention_notes env personName allNotes person in
         let person := mention_meetings env personName allMeetings person in
         Db.Person_save env person ;;
         logger.info ("Linked person " ++ personId ++ " to relevant data")
     end)
    (fun e => logger.error "Error linking person to relevant data:" e).

Definition linkMeetingToData (userId meetingId meetingNotes : string)
  : M unit :=
  try_catch
    (actionItems <- AIService.generateActionItems env meetingNotes ;;
     meeting <- Db.Meeting_findById env meetingId ;;
     meeting <- match meeting with
                | Some meeting =>
                    let meeting := meeting_set_actionItems meeting actionItems in
                    Db.Meeting_save env meeting ;;
                    ret (Some meeting)
                | None => ret None
                end ;;
     uid <- Db.newObjectId env userId ;;
     allNotes <- Db.Note_find uid 50 ;;
     match allNotes with
     | _ :: _ =>
         connections <- AIService.findConnections env meetingNotes
                          (map n_content allNotes) ;;
         match meeting with
         | Some meeting =>
             linked <- push_meeting_notes allNotes connections meeting ;;
             Db.Meeting_save env linked
         | None => ret tt
         end
     | [] => ret tt
     end ;;
     logger.info ("Linked meeting " ++ meetingId ++ " to related data"))
    (fun e => logger.error "Error linking meeting to data:" e).

(** The document built by [new Reminder({...})] for one action item. *)
Definition action_reminder (uid : ObjectId) (meetingId : string)
  (dueDate : Date) (actionItem : string) : Reminder :=
  mkReminder uid actionItem dueDate task high meetingId MeetingEntity false.

Definition createRemindersFromActionItems (userId meetingId : string)
  : M unit :=
  try_catch
    (meeting <- Db.Meeting_findById env meetingId ;;
     match meeting with
     | None => ret tt
     | Some meeting =>
         if (List.length (m_actionItems meeting) =? 0)%nat then ret tt
         else
           threeDaysFromNow <- new_Date env ;;
           let threeDaysFromNow :=
             JsDate.addToDate (zone env) threeDaysFromNow 3 in
           forEach (m_actionItems meeting) (fun actionItem =>
             uid <- Db.newObjectId env userId ;;
             Db.Reminder_save env
               (action_reminder uid meetingId threeDaysFromNow actionItem)) ;;
           logger.info ("Created reminders from meeting " ++ meetingId)
     end)
    (fun e => logger.error "Error creating reminders from action items:" e).

End WithEnv.
End DataLinkingService.

(** ** SummaryService.ts *)

Module SummaryService.

Definition digit (n : Z) : ascii := ascii_of_nat (48 + Z.to_nat n).
Definition two_digits (n : Z) : string :=
  String (digit (n / 10)) (String (digit (n mod 10)) EmptyString).

(** date-fns [format(d, 'HH:mm')]: the local hours and minutes, two
    digits each. *)
Definition format_HHmm (z : JsDate.Zone) (d : Date) : string :=
  two_digits (JsDate.getHours z d) ++ ":" ++ two_digits (JsDate.getMinutes z d).

(** [`${m.notes || m.description}`]: the empty string is falsy and an
    absent description prints as [undefined]. *)
Definition notes_or_description (m : Meeting) : string :=
  let description :=
    match m_description m with Some d => d | None => "undefined" end in
  match m_notes m with
  | Some EmptyString => description
  | Some s => s
  | None => description
  end.

Definition note_line (n : Note) : string :=
  "- " ++ n_title n ++ ": " ++ n_content n.

Definition meeting_line (z : JsDate.Zone) (m : Meeting) : string :=
  "- " ++ m_title m ++ " at " ++ format_HHmm z (m_date m) ++ ": "
  ++ notes_or_description m.

(** The outline built from the two query results. *)
Definition compile (z : JsDate.Zone) (notes : list Note)
  (meetings : list Meeting) : string :=
  let compiledContent : string := "" in
  let compiledContent : string :=
    match notes with
    | _ :: _ =>
        (compiledContent ++ "## Notes from today" ++ nl
         ++ String.concat nl (map note_line notes) ++ nl ++ nl)%string
    | [] => compiledContent
    end in
  match meetings with
  | _ :: _ =>
      (compiledContent ++ "## Meetings" ++ nl
       ++ String.concat nl (map (meeting_line z) meetings) ++ nl ++ nl)%string
  | [] => compiledContent
  end.

Definition no_activity : string := "No activity recorded for today.".

Section WithEnv.
Variable env : Env.

Definition generateDailySummary (userId : string) (date : option Date)
  : M string :=
  try_catch
    (summaryDate <- match date with
                    | Some d => ret d
                    | None => new_Date env
                    end ;;
     let dayStart := JsDate.setHours (zone env) summaryDate 0 0 0 0 in
     let dayEnd := JsDate.setHours (zone env) summaryDate 23 59 59 999 in
     userIdObj <- Db.newObjectId env userId ;;
     notes <- Db.Note_find_between userIdObj dayStart dayEnd ;;
     meetings <- Db.Meeting_find_between userIdObj dayStart dayEnd ;;
     let compiledContent := compile (zone env) notes meetings in
     if String.eqb compiledContent "" then ret no_activity
     else
       summary <- AIService.generateDailySummary env compiledContent ;;
       logger.info ("Generated daily summary for user " ++ userId) ;;
       ret summary)
    (fun e => logger.error "Error generating daily summary:" e ;; throw e).

End WithEnv.
(** *** generateWeeklySummary *)

(** [Array.from(new Set(xs))]: each value once, in the order of first
    appearance. *)
Definition Set_from (xs : list string) : list string :=
  fold_left
    (fun seen x =>
       if existsb (String.eqb x) seen then seen else seen ++ [x])
    xs [].

(** [`${n}`] for the length of an array. *)
Definition show_nat (n : nat) : string :=
  NilZero.string_of_uint (Nat.to_uint n).

(** [d.setDate(d.getDate() - 7)] then [d.setHours(0, 0, 0, 0)]. *)
Definition weekStartOf (z : JsDate.Zone) (now : Date) : Date :=
  JsDate.setHours z (JsDate.addToDate z now (-7)) 0 0 0 0.

(** [Note.find({ userId, createdAt: { $gte: from } })] *)
Definition Note_find_since (userId : ObjectId) (from : Date)
  : M (list Note) :=
  s <- get_store ;;
  ret (filter (fun x => String.eqb (n_userId x) userId
                        && (from <=? n_createdAt x)%Z)
              (notes s)).

(** [Meeting.find({ userId, date: { $gte: from } })] *)
Definition Meeting_find_since (userId : ObjectId) (from : Date)
  : M (list Meeting) :=
  s <- get_store ;;
  ret (filter (fun x => String.eqb (m_userId x) userId
                        && (from <=? m_date x)%Z)
              (meetings s)).

Section Weekly.
Variable env : Env.
(** [INote.tags], the field of a stored note that the record leaves out. *)
Variable n_tags : Note -> list string.
(** date-fns [format(d, 'MMM dd')] *)
Variable format_MMMdd : Date -> string.

(** The outline of the week. *)
Definition compile_week (weekStart : Date) (notes : list Note)
  (meetings : list Meeting) : string :=
  let compiledContent : string := "" in
  let compiledContent : string :=
    (compiledContent ++ "## Week of " ++ format_MMMdd weekStart ++ nl)%string in
  let compiledContent : string :=
    (compiledContent ++ nl ++ "Notes created: "
     ++ show_nat (List.length notes) ++ nl)%string in
  let compiledContent : string :=
    (compiledContent ++ "Meetings: " ++ show_nat (List.length meetings)
     ++ nl ++ nl)%string in
  match notes with
  | _ :: _ =>
      (compiledContent ++ "### Key Topics" ++ nl
       ++ String.concat nl
            (map (fun tag => "- " ++ tag)
                 (Set_from (flat_map n_tags notes))))%string
  | [] => compiledContent
  end.

Definition generateWeeklySummary (userId : string) : M string :=
  try_catch
    (userIdObj <- Db.newObjectId env userId ;;
     weekStart <- new_Date env ;;
     let weekStart := weekStartOf (zone env) weekStart in
     notes <- Note_find_since userIdObj weekStart ;;
     meetings <- Meeting_find_since userIdObj weekStart ;;
     let compiledContent := compile_week weekStart notes meetings in
     summary <- AIService.generateDailySummary env compiledContent ;;
     logger.info ("Generated weekly summary for user " ++ userId) ;;
     ret summary)
    (fun e => logger.error "Error generating weekly summary:" e ;; throw e).

End Weekly.

End SummaryService.

(** ** A concrete scenario

    One owner with three notes, one person and one meeting, and a family of
    environments: the test double of the remote model and of the driver. *)

Module Scenario.

Definition is_hex (c : ascii) : bool :=
  let n := nat_of_ascii c in
  ((48 <=? n) && (n <=? 57) || (97 <=? n) && (n <=? 102)
   || (65 <=? n) && (n <=? 70))%nat.

(** The strings the ObjectId constructor accepts: 24 hexadecimal digits. *)
Definition hex24 (s : string) : bool :=
  (String.length s =? 24)%nat && forallb is_hex (list_ascii_of_string s).

Definition owner : ObjectId := "64b0000000000000000000aa".
Definition note1_id : ObjectId := "64b000000000000000000001".
Definition note2_id : ObjectId := "64b000000000000000000002".
Definition note3_id : ObjectId := "64b000000000000000000003".
Definition john_id : ObjectId := "64b0000000000000000000c1".
Definition meeting1_id : ObjectId := "64b0000000000000000000d1".

Definition note1_text : string := "Met with John about budget".
Definition meeting1_text : string :=
  "Send the proposal by Friday. Review budget.".

Definition note1 : Note := mkNote note1_id owner "Sync" note1_text [] 1000%Z.
Definition note2 : Note :=
  mkNote note2_id owner "Budget" "Budget review with john" [] 2000%Z.
Definition note3 : Note := mkNote note3_id owner "Shopping" "Buy milk" [] 3000%Z.
Definition john : Person := mkPerson john_id owner "John" [] [].
Definition meeting1 : Meeting :=
  mkMeeting meeting1_id owner "Budget sync with John" None
            (Some meeting1_text) 34200000%Z [] [].

Definition store0 : Store := mkStore [note1; note2; note3] [john] [meeting1] [].
Definition world0 : World := mkWorld store0 [] [].

(** The similarity reply over the candidates [note2; note3]: the weaker
    connection comes first. *)
Definition reply_rank : list Connection :=
  [mkConnection 1 (2 # 10)%Q; mkConnection 0 (9 # 10)%Q].

Definition action_items : list string :=
  ["Send the proposal by Friday"; "Review budget"].

(** The host keeps UTC. *)
Definition utc : JsDate.Zone := JsDate.mkZone (fun _ => 0%Z) (fun _ => 0%Z).

(** Every collaborator answers. *)
Definition env0 : Env :=
  mkEnv (fun _ => Some (mkEntities (Some ["John"])))
        (fun _ => Some "A quiet day.")
        (fun _ _ => Some reply_rank)
        (fun _ => Some action_items)
        hex24
        (fun _ => true)
        (fun _ => 86400000%Z)
        utc
        ascii_lower_case
        eq_refl.

(** The extraction capability is down. *)
Definition env_extract_down : Env :=
  mkEnv (fun _ => None) (remote_summarize env0) (remote_rank env0)
        (remote_actions env0) hex24 (fun _ => true) (clock env0) (zone env0)
        (lower_case env0) (lower_case_empty env0).

(** The extraction spells the name in lower case. *)
Definition env_lowercase : Env :=
  mkEnv (fun _ => Some (mkEntities (Some ["john"])))
        (remote_summarize env0) (remote_rank env0)
        (remote_actions env0) hex24 (fun _ => true) (clock env0) (zone env0)
        (lower_case env0) (lower_case_empty env0).

(** Writes of Person documents are rejected. *)
Definition env_person_readonly : Env :=
  mkEnv (remote_extract env0) (remote_summarize env0) (remote_rank env0)
        (remote_actions env0) hex24
        (fun d => match d with DPerson _ => false | _ => true end)
        (clock env0) (zone env0)
        (lower_case env0) (lower_case_empty env0).

(** Both capabilities answer with empty results. *)
Definition env_silent : Env :=
  mkEnv (fun _ => Some (mkEntities (Some [])))
        (remote_summarize env0) (fun _ _ => Some [])
        (fun _ => Some []) hex24 (fun _ => true) (clock env0) (zone env0)
        (lower_case env0) (lower_case_empty env0).

End Scenario.

(** * Vocabulary of the properties *)

Import DataLinkingService.

(** A call raises when it ends in a throw. *)
Definition raises {A} (r : Result A * World) : Prop :=
  exists e, fst r = Throw e.

(** The owner or the record identifier is missing. *)
Definition missing_identifier (userId recordId : string) : Prop :=
  userId = "" \/ recordId = "".

(** Descending score, ties by ascending index: every entry stands in this
    relation to every later one. *)
Definition ranks_before (a b : Connection) : Prop :=
  (c_score b < c_score a)%Q
  \/ ((c_score a == c_score b)%Q /\ c_index a <= c_index b).

Definition ranked (l : list Connection) : Prop :=
  ForallOrdPairs ranks_before l.

(** The ids one connection makes the loop of linkNoteToEntities push. *)
Definition pushed_for (allNotes : list Note) (c : Connection)
  : list ObjectId :=
  if above_link_threshold (c_score c) then
    match nth_error allNotes (c_index c) with
    | Some relatedNote => [n_id relatedNote]
    | None => []
    end
  else [].

(** The ids pushed by the loop over the connections, in the order of the
    connections. *)
Definition linked_ids (allNotes : list Note) (connections : list Connection)
  : list ObjectId :=
  flat_map (pushed_for allNotes) connections.

(** The people a note with these extracted names is linked to. *)
Definition matched_people (s : Store) (userId : ObjectId)
  (names : list string) : list Person :=
  filter (fun p => String.eqb (p_userId p) userId
                   && existsb (String.eqb (p_name p)) names)
         (people s).

(** The note with another list of links. *)
Definition note_with_links (n : Note) (links : list ObjectId) : Note :=
  mkNote (n_id n) (n_userId n) (n_title n) (n_content n) links (n_createdAt n).

(** The candidate window of linkNoteToEntities. *)
Definition candidate_window (s : Store) (userId noteId : ObjectId)
  : list Note :=
  firstn 50 (filter (fun x => String.eqb (n_userId x) userId
                              && negb (String.eqb (n_id x) noteId))
                    (notes s)).

(** What the people loop of linkNoteToEntities leaves in the Person
    collection. *)
Definition save_people (noteId : ObjectId) (related : list Person)
  (stored : list Person) : list Person :=
  fold_left
    (fun l p => Db.replace_by p_id (person_push_linkedNotes p noteId) l)
    related stored.

(** The names the people block works with. *)
Definition extracted_names (entities : Entities) : list string :=
  match e_people entities with
  | Some names => names
  | None => []
  end.

(** A computation is silent when it leaves the world as it found it. *)
Definition silent {A} (m : M A) : Prop := forall w, snd (m w) = w.

(** A computation respects a relation between worlds when every run takes
    a world to a related one. *)
Definition respects (R : World -> World -> Prop) {A} (m : M A) : Prop :=
  forall w, R w (snd (m w)).

Definition same_people (w w' : World) : Prop :=
  people (store w') = people (store w).

(** Equality of names up to the case of the letters. *)
Definition same_name_ignoring_case (a b : string) : bool :=
  String.eqb (ascii_lower_case a) (ascii_lower_case b).

(** The notes and the meetings of one owner within the local day of [day]
    in the zone [z]: from [setHours(0, 0, 0, 0)] to
    [setHours(23, 59, 59, 999)]. *)
Definition notes_of_day (z : JsDate.Zone) (s : Store) (userId : ObjectId)
  (day : Date) : list Note :=
  filter (fun x => String.eqb (n_userId x) userId
                   && (JsDate.setHours z day 0 0 0 0 <=? n_createdAt x)%Z
                   && (n_createdAt x <=? JsDate.setHours z day 23 59 59 999)%Z)
         (notes s).

Definition meetings_of_day (z : JsDate.Zone) (s : Store) (userId : ObjectId)
  (day : Date) : list Meeting :=
  filter (fun x => String.eqb (m_userId x) userId
                   && (JsDate.setHours z day 0 0 0 0 <=? m_date x)%Z
                   && (m_date x <=? JsDate.setHours z day 23 59 59 999)%Z)
         (meetings s).

(** [if (!arr.includes(id)) arr.push(id)] *)
Definition add_absent (arr : list ObjectId) (id : ObjectId) : list ObjectId :=
  if id_includes arr id then arr else arr ++ [id].

Definition add_all (ids arr : list ObjectId) : list ObjectId :=
  fold_left add_absent ids arr.

(** The ids of the notes, and of the meetings, that mention the name. *)
Definition mentioning_notes (env : Env) (personName : string)
  (allNotes : list Note) : list ObjectId :=
  map n_id
      (filter (fun note => includes (lower_case env (n_content note))
                                    (lower_case env personName))
              allNotes).

Definition mentioning_meetings (env : Env) (personName : string)
  (allMeetings : list Meeting) : list ObjectId :=
  map m_id
      (filter (fun meeting => includes (lower_case env (m_title meeting))
                                       (lower_case env personName))
              allMeetings).

(** The person as linkPersonToRelevantData saves it. *)
Definition linked_person (env : Env) (personName : string) (s : Store)
  (userId : ObjectId) (person : Person) : Person :=
  mention_meetings env personName
    (firstn 100 (filter (fun x => String.eqb (m_userId x) userId) (meetings s)))
    (mention_notes env personName
       (firstn 100 (filter (fun x => String.eqb (n_userId x) userId) (notes s)))
       person).

Definition calls_grow (w w' : World) : Prop :=
  exists more, calls w' = calls w ++ more.

(** The meeting with another list of action items and of links. *)
Definition meeting_with (m : Meeting) (items : list string)
  (links : list ObjectId) : Meeting :=
  mkMeeting (m_id m) (m_userId m) (m_title m) (m_description m) (m_notes m)
            (m_date m) items links.

(** [Note.find({ userId }).limit(n)] on a store. *)
Definition owner_notes (s : Store) (userId : ObjectId) (n : nat) : list Note :=
  firstn n (filter (fun x => String.eqb (n_userId x) userId) (notes s)).

(** [Meeting.find({ userId }).limit(n)] on a store. *)
Definition owner_meetings (s : Store) (userId : ObjectId) (n : nat)
  : list Meeting :=
  firstn n (filter (fun x => String.eqb (m_userId x) userId) (meetings s)).

(** Further environments of the scenario. *)
Module Variants.

(** The action-item capability is down. *)
Definition env_actions_down : Env :=
  mkEnv (remote_extract Scenario.env0) (remote_summarize Scenario.env0)
        (remote_rank Scenario.env0) (fun _ => None)
        Scenario.hex24 (fun _ => true) (clock Scenario.env0)
        (zone Scenario.env0) (lower_case Scenario.env0)
        (lower_case_empty Scenario.env0).

(** The similarity capability is down. *)
Definition env_rank_down : Env :=
  mkEnv (remote_extract Scenario.env0) (remote_summarize Scenario.env0)
        (fun _ _ => None) (remote_actions Scenario.env0)
        Scenario.hex24 (fun _ => true) (clock Scenario.env0)
        (zone Scenario.env0) (lower_case Scenario.env0)
        (lower_case_empty Scenario.env0).

(** The similarity reply names a candidate that does not exist. *)
Definition env_wild_index : Env :=
  mkEnv (remote_extract Scenario.env0) (remote_summarize Scenario.env0)
        (fun _ _ => Some [mkConnection 0 (9 # 10)%Q;
                          mkConnection 7 (8 # 10)%Q])
        (remote_actions Scenario.env0)
        Scenario.hex24 (fun _ => true) (clock Scenario.env0)
        (zone Scenario.env0) (lower_case Scenario.env0)
        (lower_case_empty Scenario.env0).

(** The database rejects the reminder titled "Review budget". *)
Definition env_rejects_review : Env :=
  mkEnv (remote_extract Scenario.env0) (remote_summarize Scenario.env0)
        (remote_rank Scenario.env0) (remote_actions Scenario.env0)
        Scenario.hex24
        (fun d => match d with
                  | DReminder r =>
                      negb (String.eqb (r_title r) "Review budget")
                  | _ => true
                  end)
        (fun _ => 0%Z) (zone Scenario.env0) (lower_case Scenario.env0)
        (lower_case_empty Scenario.env0).

(** The meeting of the scenario with three action items, alone in the
    database. *)
Definition meeting_three_items : Meeting :=
  meeting_with Scenario.meeting1
    ["Call John"; "Review budget"; "Book room"] [].

Definition world_three_items : World :=
  mkWorld (mkStore [] [] [meeting_three_items] []) [] [].

(** The meeting of the scenario once its two action items are derived. *)
Definition meeting_two_items : Meeting :=
  meeting_with Scenario.meeting1 Scenario.action_items [].

Definition world_two_items : World :=
  mkWorld (mkStore [] [] [meeting_two_items] []) [] [].

End Variants.

(** A part of the database, read by [part], is the same before and after. *)
Definition untouched {A} (part : Store -> A) (w w' : World) : Prop :=
  part (store w') = part (store w).

(** A collection only gained documents, at its end. *)
Definition appended_to {A} (part : Store -> list A) (w w' : World) : Prop :=
  exists added, part (store w') = part (store w) ++ added.

(** No remote call was issued. *)
Definition same_calls (w w' : World) : Prop := calls w' = calls w.

(** The ids of the notes, of the people and of the meetings. *)
Definition note_ids (s : Store) : list ObjectId := map n_id (notes s).
Definition person_ids (s : Store) : list ObjectId := map p_id (people s).
Definition meeting_ids (s : Store) : list ObjectId := map m_id (meetings s).

(** How linkNoteToEntities may change one stored note [n] into [n']: not at
    all, or, for the note with the given id, by adding links after the
    ones it has; every added link is the id of another note of the owner. *)
Definition gains_links (s : Store) (userId noteId : ObjectId) (n n' : Note)
  : Prop :=
  n' = n
  \/ (n_id n = noteId
      /\ exists added,
           n' = note_with_links n (n_linkedEntities n ++ added)
           /\ Forall (fun id =>
                        id <> noteId
                        /\ exists other, In other (notes s)
                                         /\ n_id other = id
                                         /\ n_userId other = userId)
                     added).

(** The name occurs in the text, once both are folded by the
    [toLowerCase] of the runtime. *)
Definition mentions (env : Env) (text personName : string) : Prop :=
  exists before behind,
    lower_case env text
    = (before ++ lower_case env personName ++ behind)%string.

(** The action items up to the first one whose reminder is rejected by the
    database. *)
Fixpoint accepted_items (env : Env) (build : string -> Reminder)
  (items : list string) : list string :=
  match items with
  | [] => []
  | item :: rest =>
      if persist_ok env (DReminder (build item))
      then item :: accepted_items env build rest
      else []
  end.



(** A heading over its lines, closed by an empty line; nothing at all when
    there are no lines. *)
Definition outline_section (heading : string) (lines : list string)
  : string :=
  match lines with
  | [] => ""
  | _ :: _ => heading ++ nl ++ String.concat nl lines ++ nl ++ nl
  end.

(** Hosts and clocks other than those of the scenario. *)
Module Hosts.

(** A host five and a half hours ahead of UTC, all year. *)
Definition kolkata : JsDate.Zone :=
  JsDate.mkZone (fun _ => 19800000%Z) (fun _ => 19800000%Z).

Definition env_kolkata : Env :=
  mkEnv (remote_extract Scenario.env0) (remote_summarize Scenario.env0)
        (remote_rank Scenario.env0) (remote_actions Scenario.env0)
        Scenario.hex24 (fun _ => true) (clock Scenario.env0)
        kolkata (lower_case Scenario.env0)
        (lower_case_empty Scenario.env0).



(** A clock that has moved on by a second for every reminder stored. *)
Definition env_ticking : Env :=
  mkEnv (remote_extract Scenario.env0) (remote_summarize Scenario.env0)
        (remote_rank Scenario.env0) (remote_actions Scenario.env0)
        Scenario.hex24 (fun _ => true)
        (fun w => (86400000
                   + 1000 * Z.of_nat (List.length (reminders (store w))))%Z)
        (zone Scenario.env0) (lower_case Scenario.env0)
        (lower_case_empty Scenario.env0).

(** Tags for the notes of the scenario: the shopping list is tagged "home"
    and "budget", the others "budget". *)
Definition scenario_tags (n : Note) : list string :=
  if String.eqb (n_title n) "Shopping" then ["home"; "budget"]
  else ["budget"].

End Hosts.

(** A computation that cannot return: every run ends in an exception. *)
Definition throws {A} (m : M A) : Prop :=
  forall w, exists e, fst (m w) = Throw e.

(** The log only grows. *)
Definition log_grows (w w' : World) : Prop :=
  exists more, log w' = log w ++ more.

(** Databases that reject some writes. *)
Module Rejecting.

(** Writes of Note documents are rejected. *)
Definition env_note_readonly : Env :=
  mkEnv (remote_extract Scenario.env0) (remote_summarize Scenario.env0)
        (remote_rank Scenario.env0) (remote_actions Scenario.env0)
        Scenario.hex24
        (fun d => match d with DNote _ => false | _ => true end)
        (clock Scenario.env0) (zone Scenario.env0)
        (lower_case Scenario.env0) (lower_case_empty Scenario.env0).

(** Writes of Meeting documents are rejected. *)
Definition env_meeting_readonly : Env :=
  mkEnv (remote_extract Scenario.env0) (remote_summarize Scenario.env0)
        (remote_rank Scenario.env0) (remote_actions Scenario.env0)
        Scenario.hex24
        (fun d => match d with DMeeting _ => false | _ => true end)
        (clock Scenario.env0) (zone Scenario.env0)
        (lower_case Scenario.env0) (lower_case_empty Scenario.env0).

(** A meeting is rejected once it holds a link. *)
Definition env_meeting_links_readonly : Env :=
  mkEnv (remote_extract Scenario.env0) (remote_summarize Scenario.env0)
        (remote_rank Scenario.env0) (remote_actions Scenario.env0)
        Scenario.hex24
        (fun d => match d with
                  | DMeeting m =>
                      match m_linkedNotes m with [] => true | _ => false end
                  | _ => true
                  end)
        (clock Scenario.env0) (zone Scenario.env0)
        (lower_case Scenario.env0) (lower_case_empty Scenario.env0).

End Rejecting.

(** * Properties *)


(** ** The handler around every entry point *)

(** A [try] whose handler only logs returns normally, whatever the body
    did. *)
Lemma try_catch_log_returns (m : M unit) (msg : string) (w : World) :
  fst (try_catch m (fun e => logger.error msg e) w) = Ok tt.
Proof.
  unfold try_catch.
  destruct (m w) as [[[] | e] w']; reflexivity.
Qed.

Lemma linkNoteToEntities_returns
  (env : Env) (userId noteId noteContent : string) (w : World) :
  fst (linkNoteToEntities env userId noteId noteContent w) = Ok tt.
Proof. apply try_catch_log_returns. Qed.

(** C3, as stated, fails: with the owner identifier missing the note entry
    point still returns normally. *)
Lemma linkNote_missing_owner_returns :
  ~ (raises (linkNoteToEntities Scenario.env0 "" Scenario.note1_id
               Scenario.note1_text Scenario.world0)
     <-> missing_identifier "" Scenario.note1_id).
Proof.
  intros [_ H].
  destruct H as [e He]; [left; reflexivity |].
  rewrite linkNoteToEntities_returns in He. discriminate He.
Qed.

(** ** The order of the similarity reply *)

(** C6, as stated, fails: the matcher hands back the reply of the remote
    model, here with the weaker connection first. *)
Lemma findConnections_unranked_reply :
  fst (AIService.findConnections Scenario.env0 Scenario.note1_text
         ["Budget review with john"; "Buy milk"] Scenario.world0)
  = Ok Scenario.reply_rank
  /\ ~ ranked Scenario.reply_rank.
Proof.
  split; [reflexivity |].
  intro H. inversion H as [| a l Hall _]; subst.
  inversion Hall as [| b l' Hab _]; subst.
  destruct Hab as [Hlt | [Heq _]].
  - vm_compute in Hlt. discriminate Hlt.
  - vm_compute in Heq. discriminate Heq.
Qed.

(** C6, amended: findConnections returns the parsed reply of the remote
    model unchanged and in the order received (and rethrows its failure
    after logging it); the linking loop visits the connections in that same
    order: over a reply in two parts it is the loop over the first part
    followed by the loop over the second. *)
Theorem findConnections_returns_reply_verbatim
  (env : Env) (sourceText : string) (targetTexts : list string) (w : World) :
  AIService.findConnections env sourceText targetTexts w
  = match remote_rank env sourceText targetTexts with
    | Some reply =>
        (Ok reply,
         mkWorld (store w) (log w)
                 (calls w ++ [CallRank sourceText targetTexts]))
    | None =>
        (Throw RemoteError,
         mkWorld (store w)
                 (log w ++ [LogError "Error finding connections:" RemoteError])
                 (calls w ++ [CallRank sourceText targetTexts]))
    end
  /\ forall allNotes front back currentNote w',
       push_related_notes allNotes (front ++ back) currentNote w'
       = (linked <- push_related_notes allNotes front currentNote ;;
          push_related_notes allNotes back linked) w'.
Proof.
  split.
  - unfold AIService.findConnections, try_catch, bind, record_call, of_reply.
    destruct (remote_rank env sourceText targetTexts); reflexivity.
  - intros allNotes front back.
    induction front as [| c front IH]; intros currentNote w'.
    + reflexivity.
    + cbn [app push_related_notes].
      destruct (above_link_threshold (c_score c)); [| apply IH].
      destruct (nth_error allNotes (c_index c)); [apply IH | reflexivity].
Qed.

(** ** Running the note pipeline twice *)

(** C1 fails on the code: linkNoteToEntities pushes without looking.  After
    one run John holds the note once and the note holds its neighbour once;
    after a second run with the same inputs both ids are there twice. *)
Theorem linkNote_twice_duplicates_links :
  let run := linkNoteToEntities Scenario.env0 Scenario.owner
               Scenario.note1_id Scenario.note1_text in
  let once := snd (run Scenario.world0) in
  let twice := snd (run once) in
  map p_linkedNotes (people (store once)) = [[Scenario.note1_id]]
  /\ map n_linkedEntities (notes (store once)) = [[Scenario.note2_id]; []; []]
  /\ map p_linkedNotes (people (store twice))
     = [[Scenario.note1_id; Scenario.note1_id]]
  /\ map n_linkedEntities (notes (store twice))
     = [[Scenario.note2_id; Scenario.note2_id]; []; []]
  /\ ~ NoDup [Scenario.note1_id; Scenario.note1_id].
Proof.
  repeat split.
  intro H. inversion H as [| x l Hnotin _]; subst.
  apply Hnotin. left. reflexivity.
Qed.

(** ** One handler for the whole pipeline *)

(** C2, as stated, fails: when the extraction capability is down, the
    similarity step that follows it is not run, although the candidate
    window holds two notes. *)
Lemma linkNote_extraction_down_skips_matching :
  ~ (remote_extract Scenario.env_extract_down Scenario.note1_text = None ->
     In (CallRank Scenario.note1_text ["Budget review with john"; "Buy milk"])
        (calls (snd (linkNoteToEntities Scenario.env_extract_down
                       Scenario.owner Scenario.note1_id Scenario.note1_text
                       Scenario.world0)))).
Proof.
  intro H. specialize (H eq_refl).
  vm_compute in H.
  destruct H as [H | []]. discriminate H.
Qed.

(** ** The link threshold *)

Lemma above_link_threshold_spec (score : Q) :
  above_link_threshold score = true <-> (6 # 10 < score)%Q.
Proof.
  unfold above_link_threshold. rewrite negb_true_iff.
  split.
  - intro H. apply Qnot_le_lt. intro Hle.
    apply Qle_bool_iff in Hle. congruence.
  - intro H. destruct (Qle_bool score (6 # 10)) eqn:E; [| reflexivity].
    apply Qle_bool_iff in E. exfalso. exact (Qlt_not_le _ _ H E).
Qed.

Lemma push_related_notes_ok (allNotes : list Note) (cs : list Connection) :
  forall (cur : Note) (w : World),
    (forall c, In c cs -> above_link_threshold (c_score c) = true ->
               c_index c < List.length allNotes) ->
    push_related_notes allNotes cs cur w
    = (Ok (note_with_links cur (n_linkedEntities cur ++ linked_ids allNotes cs)),
       w).
Proof.
  induction cs as [| c cs IH]; intros cur w Hidx.
  - cbn. rewrite app_nil_r. destruct cur; reflexivity.
  - cbn [push_related_notes linked_ids flat_map].
    fold (linked_ids allNotes cs). unfold pushed_for.
    destruct (above_link_threshold (c_score c)) eqn:Eabove.
    + assert (Hlt : c_index c < List.length allNotes)
        by (apply Hidx; [left; reflexivity | exact Eabove]).
      destruct (nth_error allNotes (c_index c)) as [related |] eqn:Enth.
      * rewrite IH by (intros c' Hin; apply Hidx; right; exact Hin).
        unfold note_with_links, note_push_linkedEntities. cbn.
        rewrite <- app_assoc. reflexivity.
      * apply nth_error_None in Enth. lia.
    + rewrite IH by (intros c' Hin; apply Hidx; right; exact Hin).
      reflexivity.
Qed.

Lemma linked_ids_complete (allNotes : list Note) (cs : list Connection)
  (c : Connection) (n : Note) :
  In c cs -> nth_error allNotes (c_index c) = Some n ->
  (6 # 10 < c_score c)%Q ->
  In (n_id n) (linked_ids allNotes cs).
Proof.
  intros Hin Hnth Hscore. unfold linked_ids.
  apply in_flat_map. exists c. split; [exact Hin |].
  apply above_link_threshold_spec in Hscore. unfold pushed_for.
  rewrite Hscore, Hnth. left. reflexivity.
Qed.

Lemma linked_ids_sound (allNotes : list Note) (cs : list Connection)
  (id : ObjectId) :
  In id (linked_ids allNotes cs) ->
  exists c n, In c cs /\ nth_error allNotes (c_index c) = Some n
              /\ n_id n = id /\ (6 # 10 < c_score c)%Q.
Proof.
  unfold linked_ids. intro H. apply in_flat_map in H.
  destruct H as [c [Hin Hc]]. unfold pushed_for in Hc.
  destruct (above_link_threshold (c_score c)) eqn:Eabove; [| destruct Hc].
  destruct (nth_error allNotes (c_index c)) as [n |] eqn:Enth; [| destruct Hc].
  destruct Hc as [Hid | []].
  exists c, n. repeat split; try assumption.
  apply above_link_threshold_spec. exact Eabove.
Qed.

(** ** The steps of the note pipeline, one by one *)

Lemma extractEntities_ok (env : Env) (text : string) (ents : Entities)
  (w : World) :
  remote_extract env text = Some ents ->
  AIService.extractEntities env text w
  = (Ok ents, mkWorld (store w) (log w) (calls w ++ [CallExtract text])).
Proof.
  intro H.
  unfold AIService.extractEntities, try_catch, bind, record_call, of_reply.
  rewrite H. reflexivity.
Qed.

Lemma world_eta (w : World) :
  mkWorld (mkStore (notes (store w)) (people (store w)) (meetings (store w))
                   (reminders (store w)))
          (log w) (calls w) = w.
Proof. destruct w as [[] ? ?]. reflexivity. Qed.

Lemma bind_ok {A B} (m : M A) (f : A -> M B) (w w' : World) (a : A) :
  m w = (Ok a, w') -> bind m f w = f a w'.
Proof. intro H. unfold bind. rewrite H. reflexivity. Qed.

Lemma bind_throw {A B} (m : M A) (f : A -> M B) (w w' : World) (e : Exn) :
  m w = (Throw e, w') -> bind m f w = (Throw e, w').
Proof. intro H. unfold bind. rewrite H. reflexivity. Qed.

Lemma save_pushed_person_ok (env : Env) (noteId : string) (p : Person)
  (w : World) :
  oid_valid env noteId = true ->
  persist_ok env (DPerson (person_push_linkedNotes p noteId)) = true ->
  (nid <- Db.newObjectId env noteId ;;
   Db.Person_save env (person_push_linkedNotes p nid)) w
  = (Ok tt,
     mkWorld (mkStore (notes (store w))
                      (Db.replace_by p_id (person_push_linkedNotes p noteId)
                                     (people (store w)))
                      (meetings (store w)) (reminders (store w)))
             (log w) (calls w)).
Proof.
  intros Hnote Hpersist.
  unfold bind, Db.newObjectId. rewrite Hnote. unfold ret.
  unfold Db.Person_save. rewrite Hpersist. reflexivity.
Qed.

Lemma save_loop_ok (env : Env) (noteId : string) (related : list Person) :
  forall w : World,
    oid_valid env noteId = true ->
    (forall p, In p related ->
       persist_ok env (DPerson (person_push_linkedNotes p noteId)) = true) ->
    forEach related (fun person =>
      nid <- Db.newObjectId env noteId ;;
      Db.Person_save env (person_push_linkedNotes person nid)) w
    = (Ok tt,
       mkWorld (mkStore (notes (store w))
                        (save_people noteId related (people (store w)))
                        (meetings (store w)) (reminders (store w)))
               (log w) (calls w)).
Proof.
  induction related as [| p related IH]; intros w Hnote Hpersist.
  - cbn. unfold ret. rewrite world_eta. reflexivity.
  - cbn [forEach].
    erewrite bind_ok
      by (apply save_pushed_person_ok;
          [exact Hnote | apply Hpersist; left; reflexivity]).
    rewrite IH; [reflexivity | exact Hnote |].
    intros q Hq. apply Hpersist. right. exact Hq.
Qed.

Lemma matched_people_no_names (s : Store) (userId : ObjectId) :
  matched_people s userId [] = [].
Proof.
  unfold matched_people.
  induction (people s) as [| p l IH]; [reflexivity |].
  cbn. rewrite andb_false_r. exact IH.
Qed.

Lemma link_named_people_ok (env : Env) (userId noteId : string)
  (entities : Entities) (w : World) :
  oid_valid env userId = true ->
  oid_valid env noteId = true ->
  (forall p, persist_ok env (DPerson p) = true) ->
  link_named_people env userId noteId entities w
  = (Ok tt,
     mkWorld (mkStore (notes (store w))
                      (save_people noteId
                         (matched_people (store w) userId
                                         (extracted_names entities))
                         (people (store w)))
                      (meetings (store w)) (reminders (store w)))
             (log w) (calls w)).
Proof.
  intros Huser Hnote Hpersist.
  unfold link_named_people, extracted_names.
  destruct (e_people entities) as [[| name names] |].
  - rewrite matched_people_no_names. cbn. unfold ret.
    rewrite world_eta. reflexivity.
  - unfold bind at 1. unfold Db.newObjectId at 1. rewrite Huser.
    unfold ret at 1. unfold bind at 1.
    unfold Db.Person_find_named, bind at 1, get_store, ret.
    apply save_loop_ok; [exact Hnote |].
    intros p _. apply Hpersist.
  - rewrite matched_people_no_names. cbn. unfold ret.
    rewrite world_eta. reflexivity.
Qed.

Lemma find_replace_by {A} (key : A -> ObjectId) (id : ObjectId) (d cur : A)
  (l : list A) :
  find (fun x => String.eqb (key x) id) l = Some cur ->
  key d = id ->
  find (fun x => String.eqb (key x) id) (Db.replace_by key d l) = Some d.
Proof.
  intros Hfind Hkey. induction l as [| x l IH]; [discriminate Hfind |].
  cbn in Hfind |- *. subst id.
  destruct (String.eqb (key x) (key d)) eqn:E.
  - cbn. rewrite String.eqb_refl. reflexivity.
  - cbn. rewrite E. apply IH. exact Hfind.
Qed.

Lemma link_related_notes_ok (env : Env) (userId noteId noteContent : string)
  (cs : list Connection) (cur : Note) (w : World) :
  oid_valid env userId = true ->
  oid_valid env noteId = true ->
  candidate_window (store w) userId noteId <> [] ->
  remote_rank env noteContent
    (map n_content (candidate_window (store w) userId noteId)) = Some cs ->
  find (fun x => String.eqb (n_id x) noteId) (notes (store w)) = Some cur ->
  (forall c, In c cs -> above_link_threshold (c_score c) = true ->
     c_index c < List.length (candidate_window (store w) userId noteId)) ->
  persist_ok env
    (DNote (note_with_links cur
              (n_linkedEntities cur
               ++ linked_ids (candidate_window (store w) userId noteId) cs)))
  = true ->
  link_related_notes env userId noteId noteContent w
  = (Ok tt,
     mkWorld
       (mkStore
          (Db.replace_by n_id
             (note_with_links cur
                (n_linkedEntities cur
                 ++ linked_ids (candidate_window (store w) userId noteId) cs))
             (notes (store w)))
          (people (store w)) (meetings (store w)) (reminders (store w)))
       (log w)
       (calls w ++ [CallRank noteContent
                      (map n_content
                         (candidate_window (store w) userId noteId))])).
Proof.
  intros Huser Hnote Hne Hrank Hfind Hidx Hpersist.
  unfold link_related_notes.
  unfold bind at 1. unfold Db.newObjectId. rewrite Huser. unfold ret at 1.
  unfold bind at 1. unfold Db.Note_find_others, Db.castObjectId.
  rewrite Hnote. unfold bind at 1. unfold ret at 1.
  unfold bind at 1. unfold get_store at 1. unfold ret at 1.
  fold (candidate_window (store w) userId noteId).
  destruct (candidate_window (store w) userId noteId) as [| n0 rest] eqn:Ewin;
    [contradiction Hne; reflexivity |].
  unfold bind at 1.
  unfold AIService.findConnections, try_catch, bind at 1, record_call,
    of_reply.
  rewrite Hrank. unfold ret at 1.
  unfold bind at 1. unfold Db.Note_findById, Db.castObjectId. rewrite Hnote.
  unfold bind at 1. unfold ret at 1. unfold bind at 1, get_store, ret at 1.
  cbn [store notes]. rewrite Hfind.
  erewrite bind_ok by (apply push_related_notes_ok; exact Hidx).
  unfold Db.Note_save. rewrite Hpersist.
  reflexivity.
Qed.

(** A run of linkNoteToEntities in which nothing fails. *)
Lemma linkNoteToEntities_ok (env : Env) (userId noteId noteContent : string)
  (ents : Entities) (cs : list Connection) (cur : Note) (w : World) :
  remote_extract env noteContent = Some ents ->
  oid_valid env userId = true ->
  oid_valid env noteId = true ->
  (forall d, persist_ok env d = true) ->
  candidate_window (store w) userId noteId <> [] ->
  remote_rank env noteContent
    (map n_content (candidate_window (store w) userId noteId)) = Some cs ->
  find (fun x => String.eqb (n_id x) noteId) (notes (store w)) = Some cur ->
  (forall c, In c cs -> above_link_threshold (c_score c) = true ->
     c_index c < List.length (candidate_window (store w) userId noteId)) ->
  linkNoteToEntities env userId noteId noteContent w
  = (Ok tt,
     mkWorld
       (mkStore
          (Db.replace_by n_id
             (note_with_links cur
                (n_linkedEntities cur
                 ++ linked_ids (candidate_window (store w) userId noteId) cs))
             (notes (store w)))
          (save_people noteId
             (matched_people (store w) userId (extracted_names ents))
             (people (store w)))
          (meetings (store w)) (reminders (store w)))
       (log w ++ [LogInfo ("Linked note " ++ noteId ++ " to related entities")])
       (calls w ++ [CallExtract noteContent]
                ++ [CallRank noteContent
                      (map n_content
                         (candidate_window (store w) userId noteId))])).
Proof.
  intros Hext Huser Hnote Hpersist Hne Hrank Hfind Hidx.
  unfold linkNoteToEntities, try_catch.
  erewrite bind_ok by (apply extractEntities_ok; exact Hext).
  erewrite bind_ok
    by (apply link_named_people_ok;
        [exact Huser | exact Hnote | intro p; apply Hpersist]).
  erewrite bind_ok
    by (apply link_related_notes_ok with (cs := cs) (cur := cur);
        [exact Huser | exact Hnote | exact Hne | exact Hrank | exact Hfind
        | exact Hidx | apply Hpersist]).
  unfold logger.info. cbn [store log calls notes people meetings reminders].
  rewrite <- app_assoc. reflexivity.
Qed.

(** C4, as stated, fails: the reply scores the first candidate of the
    window 0.9 and names an eighth candidate that the window does not hold;
    the first candidate is not linked, nor is anything else. *)
Lemma linkNote_passing_candidate_not_linked :
  remote_rank Variants.env_wild_index Scenario.note1_text
    (map n_content
       (candidate_window Scenario.store0 Scenario.owner Scenario.note1_id))
  = Some [mkConnection 0 (9 # 10)%Q; mkConnection 7 (8 # 10)%Q]
  /\ nth_error
       (candidate_window Scenario.store0 Scenario.owner Scenario.note1_id) 0
     = Some Scenario.note2
  /\ (6 # 10 < 9 # 10)%Q
  /\ ~ In Scenario.note2_id
         (flat_map n_linkedEntities
            (notes (store (snd (linkNoteToEntities Variants.env_wild_index
                                  Scenario.owner Scenario.note1_id
                                  Scenario.note1_text Scenario.world0))))).
Proof.
  split; [reflexivity | split; [reflexivity | split; [reflexivity |]]].
  intro H. vm_compute in H. exact H.
Qed.

(** C4, amended: when linkNoteToEntities runs through (the capabilities
    answer, the identifiers are valid, no write is rejected) and every
    connection that passes carries the index of a candidate of the window,
    the new note is stored with its former links followed by what the
    connections contribute, in the order of the reply; and a connection to
    a candidate contributes the candidate's id when its score is strictly
    above 0.6 and nothing when the score is 0.6 or less. *)
Theorem linkNote_links_exactly_above_threshold
  (env : Env) (userId noteId noteContent : string)
  (ents : Entities) (cs : list Connection) (cur : Note) (w : World) :
  remote_extract env noteContent = Some ents ->
  oid_valid env userId = true ->
  oid_valid env noteId = true ->
  (forall d, persist_ok env d = true) ->
  candidate_window (store w) userId noteId <> [] ->
  remote_rank env noteContent
    (map n_content (candidate_window (store w) userId noteId)) = Some cs ->
  find (fun x => String.eqb (n_id x) noteId) (notes (store w)) = Some cur ->
  (forall c, In c cs -> above_link_threshold (c_score c) = true ->
     c_index c < List.length (candidate_window (store w) userId noteId)) ->
  find (fun x => String.eqb (n_id x) noteId)
       (notes (store (snd (linkNoteToEntities env userId noteId noteContent w))))
  = Some (note_with_links cur
            (n_linkedEntities cur
             ++ flat_map (pushed_for (candidate_window (store w) userId noteId))
                         cs))
  /\ forall c n,
       In c cs ->
       nth_error (candidate_window (store w) userId noteId) (c_index c)
       = Some n ->
       ((6 # 10 < c_score c)%Q ->
        pushed_for (candidate_window (store w) userId noteId) c = [n_id n])
       /\ ((c_score c <= 6 # 10)%Q ->
           pushed_for (candidate_window (store w) userId noteId) c = []).
Proof.
  intros Hext Huser Hnote Hpersist Hne Hrank Hfind Hidx.
  split.
  - rewrite (linkNoteToEntities_ok env userId noteId noteContent ents cs cur w)
      by assumption.
    cbn [snd store notes].
    apply find_replace_by with (cur := cur); [exact Hfind |].
    cbn. apply find_some in Hfind. destruct Hfind as [_ Heq].
    apply String.eqb_eq. exact Heq.
  - intros c n _ Hnth. unfold pushed_for. rewrite Hnth. split.
    + intro Hlt. apply above_link_threshold_spec in Hlt. rewrite Hlt.
      reflexivity.
    + intro Hle.
      destruct (above_link_threshold (c_score c)) eqn:E; [| reflexivity].
      apply above_link_threshold_spec in E.
      exfalso. exact (Qlt_not_le _ _ E Hle).
Qed.

(** The theorem in the scenario: of the two candidates of note1, the one
    scored 0.9 is linked and the one scored 0.2 is not. *)
Lemma linkNote_links_exactly_above_threshold_witness :
  find (fun x => String.eqb (n_id x) Scenario.note1_id)
       (notes (store (snd (linkNoteToEntities Scenario.env0 Scenario.owner
                             Scenario.note1_id Scenario.note1_text
                             Scenario.world0))))
  = Some (note_with_links Scenario.note1 [Scenario.note2_id]).
Proof.
  apply (proj1 (linkNote_links_exactly_above_threshold Scenario.env0
                  Scenario.owner Scenario.note1_id Scenario.note1_text
                  (mkEntities (Some ["John"])) Scenario.reply_rank
                  Scenario.note1 Scenario.world0
                  eq_refl eq_refl eq_refl (fun _ => eq_refl)
                  ltac:(discriminate) eq_refl eq_refl
                  ltac:(intros c [Hc | [Hc | []]] _; subst c; vm_compute; lia))).
Defined.

(** ** What the people loop writes *)

Lemma replace_by_absent {A} (key : A -> ObjectId) (d : A) (l : list A) :
  ~ In (key d) (map key l) -> Db.replace_by key d l = l.
Proof.
  intro Hnotin. unfold Db.replace_by.
  induction l as [| x l IH]; [reflexivity |].
  cbn in Hnotin |- *.
  destruct (String.eqb (key x) (key d)) eqn:E.
  - apply String.eqb_eq in E. exfalso. apply Hnotin. left. exact E.
  - f_equal. apply IH. intro H. apply Hnotin. right. exact H.
Qed.

Lemma replace_by_app {A} (key : A -> ObjectId) (d : A) (l1 l2 : list A) :
  Db.replace_by key d (l1 ++ l2)
  = Db.replace_by key d l1 ++ Db.replace_by key d l2.
Proof. unfold Db.replace_by. apply map_app. Qed.

Lemma replace_by_here {A} (key : A -> ObjectId) (d x : A) (l : list A) :
  key x = key d ->
  Db.replace_by key d (x :: l) = d :: Db.replace_by key d l.
Proof.
  intro H. unfold Db.replace_by. cbn. rewrite H, String.eqb_refl. reflexivity.
Qed.

(** With ids unique in the collection, saving the matched people one after
    the other rewrites exactly the matched documents. *)
Lemma save_people_filter (noteId : ObjectId) (f : Person -> bool) :
  forall (l done : list Person),
    NoDup (map p_id (done ++ l)) ->
    save_people noteId (filter f l) (done ++ l)
    = done ++ map (fun p => if f p then person_push_linkedNotes p noteId
                            else p) l.
Proof.
  induction l as [| x l IH]; intros done Hnodup.
  - reflexivity.
  - assert (Hsplit : NoDup (map p_id (done ++ l))
                     /\ ~ In (p_id x) (map p_id (done ++ l))).
    { rewrite map_app in Hnodup. cbn in Hnodup.
      rewrite map_app. split.
      - eapply NoDup_remove_1. exact Hnodup.
      - eapply NoDup_remove_2. exact Hnodup. }
    destruct Hsplit as [Hrest Hfresh].
    rewrite map_app, in_app_iff in Hfresh.
    cbn [filter map].
    destruct (f x) eqn:Ef.
    + unfold save_people. cbn [fold_left].
      fold (save_people noteId (filter f l)
              (Db.replace_by p_id (person_push_linkedNotes x noteId)
                             (done ++ x :: l))).
      rewrite replace_by_app, replace_by_here by reflexivity.
      rewrite (replace_by_absent p_id (person_push_linkedNotes x noteId) done)
        by (cbn; tauto).
      rewrite (replace_by_absent p_id (person_push_linkedNotes x noteId) l)
        by (cbn; tauto).
      change (done ++ person_push_linkedNotes x noteId :: l)
        with (done ++ [person_push_linkedNotes x noteId] ++ l).
      rewrite app_assoc, IH.
      * rewrite <- app_assoc. reflexivity.
      * rewrite <- app_assoc. cbn. rewrite map_app. cbn.
        rewrite map_app in Hnodup. exact Hnodup.
    + change (done ++ x :: l) with (done ++ [x] ++ l).
      rewrite app_assoc, IH.
      * rewrite <- app_assoc. reflexivity.
      * rewrite <- app_assoc. exact Hnodup.
Qed.

(** ** Framing: what a step cannot undo *)

Lemma silent_ret {A} (a : A) : silent (ret a).
Proof. intro w. reflexivity. Qed.

Lemma silent_throw {A} (e : Exn) : silent (@throw A e).
Proof. intro w. reflexivity. Qed.

Lemma silent_get_store : silent get_store.
Proof. intro w. reflexivity. Qed.

Lemma silent_of_reply {A} (r : option A) : silent (of_reply r).
Proof. intro w. destruct r; reflexivity. Qed.

Lemma silent_newObjectId (env : Env) (s : string) :
  silent (Db.newObjectId env s).
Proof.
  intro w. unfold Db.newObjectId. destruct (oid_valid env s); reflexivity.
Qed.

Lemma silent_castObjectId (env : Env) (s : string) :
  silent (Db.castObjectId env s).
Proof.
  intro w. unfold Db.castObjectId. destruct (oid_valid env s); reflexivity.
Qed.

Lemma silent_push_related_notes (allNotes : list Note)
  (cs : list Connection) :
  forall cur, silent (push_related_notes allNotes cs cur).
Proof.
  induction cs as [| c cs IH]; intros cur w; cbn.
  - reflexivity.
  - destruct (above_link_threshold (c_score c)); [| apply IH].
    destruct (nth_error allNotes (c_index c)); [apply IH | reflexivity].
Qed.

Section Frame.

(** A relation between the world before and the world after, closed under
    doing nothing and under sequencing. *)
Variable R : World -> World -> Prop.
Hypothesis R_refl : forall w, R w w.
Hypothesis R_trans : forall w1 w2 w3, R w1 w2 -> R w2 w3 -> R w1 w3.

Lemma respects_silent {A} (m : M A) : silent m -> respects R m.
Proof. intros H w. rewrite H. apply R_refl. Qed.

Lemma respects_bind {A B} (m : M A) (f : A -> M B) :
  respects R m -> (forall a, respects R (f a)) -> respects R (bind m f).
Proof.
  intros Hm Hf w. unfold bind. specialize (Hm w).
  destruct (m w) as [[a | e] w1]; cbn in Hm |- *.
  - eapply R_trans; [exact Hm | apply Hf].
  - exact Hm.
Qed.

Lemma respects_try_catch {A} (m : M A) (h : Exn -> M A) :
  respects R m -> (forall e, respects R (h e)) -> respects R (try_catch m h).
Proof.
  intros Hm Hh w. unfold try_catch. specialize (Hm w).
  destruct (m w) as [[a | e] w1]; cbn in Hm |- *.
  - exact Hm.
  - eapply R_trans; [exact Hm | apply Hh].
Qed.

Lemma respects_forEach {A} (xs : list A) (body : A -> M unit) :
  (forall x, respects R (body x)) -> respects R (forEach xs body).
Proof.
  intro Hbody. induction xs as [| x xs IH]; cbn.
  - apply respects_silent, silent_ret.
  - apply respects_bind; [apply Hbody | intro; exact IH].
Qed.

End Frame.

(** Breaks a computation into its steps; [prim] settles the steps that do
    write. *)
Ltac frame refl trans prim :=
  repeat first
    [ progress intros
    | apply (respects_bind _ trans)
    | apply (respects_try_catch _ trans)
    | apply (respects_forEach _ refl trans)
    | apply (respects_silent _ refl);
        first [ apply silent_ret | apply silent_throw | apply silent_get_store
              | apply silent_of_reply | apply silent_newObjectId
              | apply silent_castObjectId | apply silent_push_related_notes ]
    | match goal with
      | |- respects _ (match ?x with _ => _ end) => destruct x
      end
    | prim ].

(** *** The Person collection *)

Lemma same_people_refl (w : World) : same_people w w.
Proof. reflexivity. Qed.

Lemma same_people_trans (w1 w2 w3 : World) :
  same_people w1 w2 -> same_people w2 w3 -> same_people w1 w3.
Proof. unfold same_people. congruence. Qed.

Lemma same_people_record_call (c : RemoteCall) :
  respects same_people (record_call c).
Proof. intro w. reflexivity. Qed.

Lemma same_people_info (msg : string) : respects same_people (logger.info msg).
Proof. intro w. reflexivity. Qed.

Lemma same_people_error (msg : string) (e : Exn) :
  respects same_people (logger.error msg e).
Proof. intro w. reflexivity. Qed.

Lemma same_people_Note_save (env : Env) (n : Note) :
  respects same_people (Db.Note_save env n).
Proof.
  intro w. unfold Db.Note_save.
  destruct (persist_ok env (DNote n)); reflexivity.
Qed.

Ltac frame_people :=
  frame same_people_refl same_people_trans
        ltac:(first [ apply same_people_record_call | apply same_people_info
                    | apply same_people_error | apply same_people_Note_save ]).

Lemma same_people_link_related_notes (env : Env)
  (userId noteId noteContent : string) :
  respects same_people (link_related_notes env userId noteId noteContent).
Proof.
  unfold link_related_notes, Db.Note_find_others, Db.Note_findById,
    AIService.findConnections.
  frame_people.
Qed.

(** ** Matching the extracted names *)

(** C5 fails on the code: the person is called "John", the extraction says
    "john"; the names are equal up to case, yet John is not linked.
    linkNoteToEntities hands the extracted names to the query as they are,
    where linkPersonToRelevantData puts both sides in lower case before it
    compares. *)
Lemma linkNote_other_case_not_linked :
  ~ ((exists p,
        In p (people (store (snd (linkNoteToEntities Scenario.env_lowercase
                                    Scenario.owner Scenario.note1_id
                                    Scenario.note1_text Scenario.world0))))
        /\ p_name p = "John"
        /\ In Scenario.note1_id (p_linkedNotes p))
     <-> same_name_ignoring_case "John" "john" = true).
Proof.
  intros [_ H]. destruct (H eq_refl) as [p [Hin [_ Hlinked]]].
  vm_compute in Hin. destruct Hin as [Hp | []]. subst p.
  vm_compute in Hlinked. exact Hlinked.
Qed.

Lemma people_after_linkNote (env : Env) (userId noteId noteContent : string)
  (ents : Entities) (w : World) :
  remote_extract env noteContent = Some ents ->
  oid_valid env userId = true ->
  oid_valid env noteId = true ->
  (forall p, persist_ok env (DPerson p) = true) ->
  people (store (snd (linkNoteToEntities env userId noteId noteContent w)))
  = save_people noteId
      (matched_people (store w) userId (extracted_names ents))
      (people (store w)).
Proof.
  intros Hext Huser Hnote Hpersist.
  unfold linkNoteToEntities, try_catch.
  erewrite bind_ok by (apply extractEntities_ok; exact Hext).
  erewrite bind_ok
    by (apply link_named_people_ok; [exact Huser | exact Hnote | exact Hpersist]).
  match goal with
  | |- context [bind ?m ?f ?w1] =>
      assert (Hkeep : respects same_people (bind m f))
        by (apply (respects_bind _ same_people_trans);
            [apply same_people_link_related_notes
            | intro; apply same_people_info]);
      specialize (Hkeep w1); destruct (bind m f w1) as [[a | e] w3]
  end; cbn in Hkeep |- *; exact Hkeep.
Qed.

(** X24.  What the people block of linkNoteToEntities writes.  When the
    extraction answers, the identifiers are valid, no Person write is
    rejected and ids are unique in the Person collection, the note id is
    pushed onto exactly the stored people of that owner whose name is, as a
    string, one of the extracted names, and every other person is left as
    it was; no person is created, and the call returns normally. *)
Theorem linkNote_links_exactly_named_people
  (env : Env) (userId noteId noteContent : string)
  (ents : Entities) (w : World) :
  remote_extract env noteContent = Some ents ->
  oid_valid env userId = true ->
  oid_valid env noteId = true ->
  (forall p, persist_ok env (DPerson p) = true) ->
  NoDup (map p_id (people (store w))) ->
  let after := linkNoteToEntities env userId noteId noteContent w in
  people (store (snd after))
  = map (fun p =>
           if String.eqb (p_userId p) userId
              && existsb (String.eqb (p_name p)) (extracted_names ents)
           then person_push_linkedNotes p noteId
           else p)
        (people (store w))
  /\ (forall p, existsb (String.eqb (p_name p)) (extracted_names ents) = true
                <-> In (p_name p) (extracted_names ents))
  /\ map p_id (people (store (snd after))) = map p_id (people (store w))
  /\ fst after = Ok tt.
Proof.
  intros Hext Huser Hnote Hpersist Hnodup after.
  assert (Hpeople :
    people (store (snd after))
    = map (fun p =>
             if String.eqb (p_userId p) userId
                && existsb (String.eqb (p_name p)) (extracted_names ents)
             then person_push_linkedNotes p noteId
             else p)
          (people (store w))).
  { unfold after.
    rewrite (people_after_linkNote env userId noteId noteContent ents w)
      by assumption.
    unfold matched_people.
    apply (save_people_filter noteId _ (people (store w)) []).
    exact Hnodup. }
  split; [exact Hpeople |]. split; [| split].
  - intro p. rewrite existsb_exists. split.
    + intros [name [Hin Heq]]. apply String.eqb_eq in Heq.
      rewrite Heq. exact Hin.
    + intro Hin. exists (p_name p). split; [exact Hin |].
      apply String.eqb_refl.
  - rewrite Hpeople, map_map. apply map_ext. intro p.
    destruct (String.eqb (p_userId p) userId
              && existsb (String.eqb (p_name p)) (extracted_names ents));
      reflexivity.
  - apply linkNoteToEntities_returns.
Qed.

(** The theorem in the scenario: "John" is extracted and John is linked. *)
Lemma linkNote_links_exactly_named_people_witness :
  people (store (snd (linkNoteToEntities Scenario.env0 Scenario.owner
                        Scenario.note1_id Scenario.note1_text
                        Scenario.world0)))
  = [person_push_linkedNotes Scenario.john Scenario.note1_id].
Proof.
  apply (proj1 (linkNote_links_exactly_named_people Scenario.env0
                  Scenario.owner Scenario.note1_id Scenario.note1_text
                  (mkEntities (Some ["John"])) Scenario.world0
                  eq_refl eq_refl eq_refl (fun _ => eq_refl)
                  ltac:(repeat constructor; intros []))).
Defined.

(** ** Reminders from action items *)

Lemma save_reminders_ok (env : Env) (userId meetingId : string) (due : Date)
  (items : list string) :
  forall w : World,
    oid_valid env userId = true ->
    (forall r, persist_ok env (DReminder r) = true) ->
    forEach items (fun actionItem =>
      uid <- Db.newObjectId env userId ;;
      Db.Reminder_save env (action_reminder uid meetingId due actionItem)) w
    = (Ok tt,
       mkWorld (mkStore (notes (store w)) (people (store w))
                        (meetings (store w))
                        (reminders (store w)
                         ++ map (action_reminder userId meetingId due) items))
               (log w) (calls w)).
Proof.
  induction items as [| item items IH]; intros w Huser Hpersist.
  - cbn. unfold ret. rewrite app_nil_r, world_eta. reflexivity.
  - cbn [forEach map].
    erewrite bind_ok.
    2:{ unfold bind, Db.newObjectId. rewrite Huser. unfold ret.
        unfold Db.Reminder_save. rewrite Hpersist. reflexivity. }
    rewrite IH by assumption.
    cbn [store notes people meetings reminders log calls].
    rewrite <- app_assoc. reflexivity.
Qed.



(** ** The daily digest *)

(** The outline is empty exactly when there is nothing to outline. *)
Lemma compile_empty (z : JsDate.Zone) (ns : list Note) (ms : list Meeting) :
  String.eqb (SummaryService.compile z ns ms) "" = true <-> ns = [] /\ ms = [].
Proof.
  unfold SummaryService.compile.
  destruct ns as [| n ns]; destruct ms as [| m ms]; cbn -[String.concat map];
    split; intro H; try reflexivity; try (split; reflexivity);
    try discriminate H; destruct H as [H1 H2]; discriminate.
Qed.

Lemma string_app_assoc (a b c : string) :
  ((a ++ b) ++ c)%string = (a ++ (b ++ c))%string.
Proof.
  induction a as [| x a IH]; cbn; [reflexivity | rewrite IH; reflexivity].
Qed.

Lemma string_app_nil_r (a : string) : (a ++ "")%string = a.
Proof. induction a as [| c a IH]; cbn; [| rewrite IH]; reflexivity. Qed.

(** C9: the day is the local calendar day of the given date, or of the
    clock when no date is given.  For a valid owner, a day without notes and
    without meetings yields the fixed sentence and leaves the world as it
    was: no call to the summarization capability, no log line.  Otherwise the
    outline is sent to the summarization capability, once; its answer is
    returned as it is, and its failure is rethrown.  The outline is the
    notes of the day, one line each under their heading, then the meetings
    of the day, one line each with the local time of the meeting under
    theirs; a heading without lines is left out. *)
Theorem dailySummary_sentinel_or_forward
  (env : Env) (userId : string) (date : option Date) (w : World) :
  oid_valid env userId = true ->
  let day := match date with Some d => d | None => clock env w end in
  let ns := notes_of_day (zone env) (store w) userId day in
  let ms := meetings_of_day (zone env) (store w) userId day in
  let local_time := fun m => (m_date m + JsDate.tza_utc (zone env) (m_date m))%Z in
  let outline :=
    (outline_section "## Notes from today"
       (map (fun n => "- " ++ n_title n ++ ": " ++ n_content n) ns)
     ++ outline_section "## Meetings"
          (map (fun m =>
                  "- " ++ m_title m ++ " at "
                  ++ SummaryService.two_digits
                       ((local_time m / 3600000) mod 24)%Z
                  ++ ":"
                  ++ SummaryService.two_digits
                       ((local_time m / 60000) mod 60)%Z
                  ++ ": "
                  ++ match m_notes m with
                     | Some (String c s) => String c s
                     | _ => match m_description m with
                            | Some d => d
                            | None => "undefined"
                            end
                     end)
               ms))%string in
  SummaryService.compile (zone env) ns ms = outline
  /\ (ns = [] /\ ms = [] ->
      SummaryService.generateDailySummary env userId date w
      = (Ok "No activity recorded for today.", w))
  /\ (~ (ns = [] /\ ms = []) ->
      SummaryService.generateDailySummary env userId date w
      = match remote_summarize env outline with
        | Some summary =>
            (Ok summary,
             mkWorld (store w)
                     (log w ++ [LogInfo ("Generated daily summary for user "
                                         ++ userId)])
                     (calls w ++ [CallSummarize outline]))
        | None =>
            (Throw RemoteError,
             mkWorld (store w)
                     (log w
                      ++ [LogError "Error generating summary:" RemoteError]
                      ++ [LogError "Error generating daily summary:"
                                   RemoteError])
                     (calls w ++ [CallSummarize outline]))
        end).
Proof.
  intros Huser day ns ms local_time outline.
  assert (Houtline : SummaryService.compile (zone env) ns ms = outline).
  { unfold outline, SummaryService.compile, outline_section.
    assert (Hline : forall m,
      SummaryService.meeting_line (zone env) m
      = ("- " ++ m_title m ++ " at "
         ++ SummaryService.two_digits ((local_time m / 3600000) mod 24)%Z
         ++ ":"
         ++ SummaryService.two_digits ((local_time m / 60000) mod 60)%Z
         ++ ": "
         ++ match m_notes m with
            | Some (String c s) => String c s
            | _ => match m_description m with
                   | Some d => d
                   | None => "undefined"
                   end
            end)%string).
    { intro m.
      unfold SummaryService.meeting_line, SummaryService.format_HHmm,
        SummaryService.notes_or_description, JsDate.getHours,
        JsDate.getMinutes, JsDate.LocalTime, JsDate.msPerHour,
        JsDate.msPerMinute, local_time.
      rewrite <- !string_app_assoc.
      destruct (m_notes m) as [[| c s] |]; reflexivity. }
    rewrite (map_ext _ _ Hline).
    destruct ns as [| n ns']; destruct ms as [| m ms']; cbn [map];
      cbn [String.append]; try reflexivity.
    rewrite string_app_nil_r. reflexivity. }
  split; [exact Houtline |].
  rewrite <- Houtline.
  assert (Hrun :
    SummaryService.generateDailySummary env userId date w
    = try_catch
        (if String.eqb (SummaryService.compile (zone env) ns ms) ""
         then ret SummaryService.no_activity
         else
           summary <- AIService.generateDailySummary env
                        (SummaryService.compile (zone env) ns ms) ;;
           logger.info ("Generated daily summary for user " ++ userId) ;;
           ret summary)
        (fun e => logger.error "Error generating daily summary:" e ;; throw e)
        w).
  { unfold SummaryService.generateDailySummary, try_catch.
    unfold ns, ms, notes_of_day, meetings_of_day, day.
    destruct date as [d |]; cbv zeta.
    - unfold bind at 1. unfold ret at 1.
      unfold bind at 1. unfold Db.newObjectId. rewrite Huser. unfold ret at 1.
      unfold bind at 1. unfold Db.Note_find_between, bind at 1, get_store,
        ret at 1.
      unfold bind at 1. unfold Db.Meeting_find_between, bind at 1, ret at 1.
      reflexivity.
    - unfold bind at 1. unfold new_Date at 1.
      unfold bind at 1. unfold Db.newObjectId. rewrite Huser. unfold ret at 1.
      unfold bind at 1. unfold Db.Note_find_between, bind at 1, get_store,
        ret at 1.
      unfold bind at 1. unfold Db.Meeting_find_between, bind at 1, ret at 1.
      reflexivity. }
  rewrite Hrun. clear Hrun. split.
  - intro Hempty. apply (compile_empty (zone env)) in Hempty.
    rewrite Hempty. reflexivity.
  - intro Hsome.
    destruct (String.eqb (SummaryService.compile (zone env) ns ms) "") eqn:E.
    + apply compile_empty in E. contradiction.
    + unfold try_catch, bind, AIService.generateDailySummary, try_catch, bind,
        record_call, of_reply, logger.info, logger.error, ret, throw.
      destruct (remote_summarize env
                  (SummaryService.compile (zone env) ns ms));
        cbn; [reflexivity |].
      rewrite <- app_assoc. reflexivity.
Qed.

(** The theorem in the scenario, where the host keeps UTC: nothing was
    written on the tenth day, and the first day holds three notes and a
    meeting at half past nine.  On a host five and a half hours ahead the
    same meeting is at three in the afternoon, and the last hours of the
    first UTC day already belong to the second day, which is empty. *)
Lemma dailySummary_sentinel_or_forward_witness :
  SummaryService.generateDailySummary Scenario.env0 Scenario.owner
    (Some 864000000%Z) Scenario.world0
  = (Ok "No activity recorded for today.", Scenario.world0)
  /\ SummaryService.generateDailySummary Scenario.env0 Scenario.owner
       (Some 70000000%Z) Scenario.world0
     = (Ok "A quiet day.",
        mkWorld Scenario.store0
                [LogInfo "Generated daily summary for user 64b0000000000000000000aa"]
                [CallSummarize
                   "## Notes from today
- Sync: Met with John about budget
- Budget: Budget review with john
- Shopping: Buy milk

## Meetings
- Budget sync with John at 09:30: Send the proposal by Friday. Review budget.

"])
  /\ SummaryService.generateDailySummary Hosts.env_kolkata Scenario.owner
       (Some 5000%Z) Scenario.world0
     = (Ok "A quiet day.",
        mkWorld Scenario.store0
                [LogInfo "Generated daily summary for user 64b0000000000000000000aa"]
                [CallSummarize
                   "## Notes from today
- Sync: Met with John about budget
- Budget: Budget review with john
- Shopping: Buy milk

## Meetings
- Budget sync with John at 15:00: Send the proposal by Friday. Review budget.

"])
  /\ SummaryService.generateDailySummary Hosts.env_kolkata Scenario.owner
       (Some 70000000%Z) Scenario.world0
     = (Ok "No activity recorded for today.", Scenario.world0).
Proof.
  split; [| split; [| split]].
  - apply (proj1 (proj2 (dailySummary_sentinel_or_forward Scenario.env0
                    Scenario.owner (Some 864000000%Z) Scenario.world0
                    eq_refl))).
    split; reflexivity.
  - apply (proj2 (proj2 (dailySummary_sentinel_or_forward Scenario.env0
                    Scenario.owner (Some 70000000%Z) Scenario.world0
                    eq_refl))).
    intros [Hnotes _]. discriminate Hnotes.
  - apply (proj2 (proj2 (dailySummary_sentinel_or_forward Hosts.env_kolkata
                    Scenario.owner (Some 5000%Z) Scenario.world0
                    eq_refl))).
    intros [Hnotes _]. discriminate Hnotes.
  - apply (proj1 (proj2 (dailySummary_sentinel_or_forward Hosts.env_kolkata
                    Scenario.owner (Some 70000000%Z) Scenario.world0
                    eq_refl))).
    split; reflexivity.
Defined.

(** ** Linking a person to what mentions it *)

Lemma id_includes_In (arr : list ObjectId) (id : ObjectId) :
  id_includes arr id = true <-> In id arr.
Proof.
  unfold id_includes. rewrite existsb_exists. split.
  - intros [x [Hin Heq]]. apply String.eqb_eq in Heq. subst x. exact Hin.
  - intro Hin. exists id. split; [exact Hin | apply String.eqb_refl].
Qed.

Lemma add_absent_NoDup (arr : list ObjectId) (id : ObjectId) :
  NoDup arr -> NoDup (add_absent arr id).
Proof.
  intro H. unfold add_absent.
  destruct (id_includes arr id) eqn:E; [exact H |].
  apply NoDup_app; [exact H | repeat constructor; intros [] |].
  intros x Hx [Hid | []]. subst x.
  apply id_includes_In in Hx. congruence.
Qed.

Lemma add_absent_incl (arr : list ObjectId) (id x : ObjectId) :
  In x arr -> In x (add_absent arr id).
Proof.
  intro H. unfold add_absent. destruct (id_includes arr id); [exact H |].
  apply in_or_app. left. exact H.
Qed.

Lemma add_absent_In (arr : list ObjectId) (id : ObjectId) :
  In id (add_absent arr id).
Proof.
  unfold add_absent. destruct (id_includes arr id) eqn:E.
  - apply id_includes_In. exact E.
  - apply in_or_app. right. left. reflexivity.
Qed.

Lemma add_all_NoDup (ids : list ObjectId) :
  forall arr, NoDup arr -> NoDup (add_all ids arr).
Proof.
  induction ids as [| id ids IH]; intros arr H; [exact H |].
  cbn. apply IH. apply add_absent_NoDup. exact H.
Qed.

Lemma add_all_incl (ids : list ObjectId) :
  forall arr x, In x arr -> In x (add_all ids arr).
Proof.
  induction ids as [| id ids IH]; intros arr x H; [exact H |].
  cbn. apply IH. apply add_absent_incl. exact H.
Qed.

Lemma add_all_In (ids : list ObjectId) :
  forall arr x, In x ids -> In x (add_all ids arr).
Proof.
  induction ids as [| id ids IH]; intros arr x H; [destruct H |].
  cbn. destruct H as [H | H].
  - subst x. apply add_all_incl. apply add_absent_In.
  - apply IH. exact H.
Qed.

Lemma add_all_present (ids : list ObjectId) :
  forall arr, (forall x, In x ids -> In x arr) -> add_all ids arr = arr.
Proof.
  induction ids as [| id ids IH]; intros arr H; [reflexivity |].
  change (add_all (id :: ids) arr) with (add_all ids (add_absent arr id)).
  unfold add_absent.
  assert (Hid : id_includes arr id = true)
    by (apply id_includes_In; apply H; left; reflexivity).
  rewrite Hid. apply IH. intros x Hx. apply H. right. exact Hx.
Qed.

Lemma add_all_idempotent (ids arr : list ObjectId) :
  add_all ids (add_all ids arr) = add_all ids arr.
Proof.
  apply add_all_present. intros x Hx. apply add_all_In. exact Hx.
Qed.

Lemma mention_notes_eq (env : Env) (personName : string) (allNotes : list Note) :
  forall person,
    mention_notes env personName allNotes person
    = mkPerson (p_id person) (p_userId person) (p_name person)
               (add_all (mentioning_notes env personName allNotes)
                        (p_linkedNotes person))
               (p_meetings person).
Proof.
  unfold mention_notes, mentioning_notes, add_all.
  induction allNotes as [| note allNotes IH]; intro person.
  - destruct person; reflexivity.
  - cbn [fold_left filter].
    destruct (includes (lower_case env (n_content note)) (lower_case env personName)).
    + cbn [map fold_left]. unfold add_absent at 2.
      destruct (id_includes (p_linkedNotes person) (n_id note));
        cbn [negb]; rewrite IH; reflexivity.
    + apply IH.
Qed.

Lemma mention_meetings_eq (env : Env) (personName : string) (allMeetings : list Meeting) :
  forall person,
    mention_meetings env personName allMeetings person
    = mkPerson (p_id person) (p_userId person) (p_name person)
               (p_linkedNotes person)
               (add_all (mentioning_meetings env personName allMeetings)
                        (p_meetings person)).
Proof.
  unfold mention_meetings, mentioning_meetings, add_all.
  induction allMeetings as [| meeting allMeetings IH]; intro person.
  - destruct person; reflexivity.
  - cbn [fold_left filter].
    destruct (includes (lower_case env (m_title meeting))
                       (lower_case env personName)).
    + cbn [map fold_left]. unfold add_absent at 2.
      destruct (id_includes (p_meetings person) (m_id meeting));
        cbn [negb]; rewrite IH; reflexivity.
    + apply IH.
Qed.

Lemma linked_person_eq (env : Env) (personName : string) (s : Store) (userId : ObjectId)
  (person : Person) :
  linked_person env personName s userId person
  = mkPerson (p_id person) (p_userId person) (p_name person)
      (add_all
         (mentioning_notes env personName
            (firstn 100 (filter (fun x => String.eqb (n_userId x) userId)
                                (notes s))))
         (p_linkedNotes person))
      (add_all
         (mentioning_meetings env personName
            (firstn 100 (filter (fun x => String.eqb (m_userId x) userId)
                                (meetings s))))
         (p_meetings person)).
Proof.
  unfold linked_person. rewrite mention_meetings_eq, mention_notes_eq.
  reflexivity.
Qed.

(** The database after one call of linkPersonToRelevantData. *)
Lemma linkPerson_store (env : Env) (userId personId personName : string)
  (w : World) :
  store (snd (linkPersonToRelevantData env userId personId personName w))
  = if oid_valid env userId && oid_valid env personId then
      match find (fun p => String.eqb (p_id p) personId) (people (store w)) with
      | Some person =>
          if persist_ok env
               (DPerson (linked_person env personName (store w) userId person))
          then mkStore (notes (store w))
                       (Db.replace_by p_id
                          (linked_person env personName (store w) userId person)
                          (people (store w)))
                       (meetings (store w)) (reminders (store w))
          else store w
      | None => store w
      end
    else store w.
Proof.
  unfold linkPersonToRelevantData, try_catch.
  unfold bind at 1. unfold Db.newObjectId at 1.
  destruct (oid_valid env userId) eqn:Huser; [| reflexivity].
  unfold ret at 1. unfold bind at 1. unfold Db.Note_find at 1.
  unfold bind at 1. unfold get_store at 1. unfold ret at 1.
  unfold bind at 1. unfold Db.newObjectId at 1. rewrite Huser.
  unfold ret at 1. unfold bind at 1. unfold Db.Meeting_find at 1.
  unfold bind at 1. unfold get_store at 1. unfold ret at 1.
  unfold bind at 1. unfold Db.Person_findById, Db.castObjectId.
  destruct (oid_valid env personId) eqn:Hperson; [| reflexivity].
  unfold bind at 1. unfold ret at 1. unfold bind at 1.
  unfold get_store at 1. unfold ret at 1.
  cbn [andb].
  destruct (find (fun p => String.eqb (p_id p) personId) (people (store w)))
    as [person |]; [| reflexivity].
  fold (linked_person env personName (store w) userId person).
  unfold bind at 1. unfold Db.Person_save.
  destruct (persist_ok env
              (DPerson (linked_person env personName (store w) userId person)));
    reflexivity.
Qed.

Lemma replace_by_twice {A} (key : A -> ObjectId) (d : A) (l : list A) :
  Db.replace_by key d (Db.replace_by key d l) = Db.replace_by key d l.
Proof.
  unfold Db.replace_by. rewrite map_map. apply map_ext. intro x.
  destruct (String.eqb (key x) (key d)) eqn:E.
  - rewrite String.eqb_refl. reflexivity.
  - rewrite E. reflexivity.
Qed.

(** C10: linkPersonToRelevantData is idempotent on the database, in every
    environment: a second call with the same arguments leaves the store as
    the first call left it.  A call pushes an id only when the list does not
    hold it: link lists without duplicates stay without duplicates, the
    former links stay in front, and what is appended was absent before. *)
Theorem linkPerson_idempotent
  (env : Env) (userId personId personName : string) (w : World) :
  let run := linkPersonToRelevantData env userId personId personName in
  let once := snd (run w) in
  let twice := snd (run once) in
  store twice = store once
  /\ forall before after,
       find (fun p => String.eqb (p_id p) personId) (people (store w))
       = Some before ->
       find (fun p => String.eqb (p_id p) personId) (people (store once))
       = Some after ->
       (NoDup (p_linkedNotes before) -> NoDup (p_linkedNotes after))
       /\ (NoDup (p_meetings before) -> NoDup (p_meetings after))
       /\ (forall id, In id (p_linkedNotes before) -> In id (p_linkedNotes after))
       /\ (forall id, In id (p_meetings before) -> In id (p_meetings after)).
Proof.
  intros run once twice. split.
  - unfold twice, once, run.
    rewrite (linkPerson_store env userId personId personName
               (snd (linkPersonToRelevantData env userId personId personName w))).
    rewrite !(linkPerson_store env userId personId personName w).
    destruct (oid_valid env userId && oid_valid env personId); [| reflexivity].
    destruct (find (fun p => String.eqb (p_id p) personId) (people (store w)))
      as [person |] eqn:Hfind; [| rewrite Hfind; reflexivity].
    destruct (persist_ok env
                (DPerson (linked_person env personName (store w) userId person)))
      eqn:Hpersist.
    + cbn [people notes meetings reminders].
      assert (Hid : p_id (linked_person env personName (store w) userId person)
                    = personId).
      { rewrite linked_person_eq. cbn. apply find_some in Hfind.
        apply String.eqb_eq. exact (proj2 Hfind). }
      rewrite (find_replace_by p_id personId
                 (linked_person env personName (store w) userId person) person)
        by assumption.
      assert (Hsame :
        linked_person env personName
          (mkStore (notes (store w))
             (Db.replace_by p_id
                (linked_person env personName (store w) userId person)
                (people (store w)))
             (meetings (store w)) (reminders (store w)))
          userId (linked_person env personName (store w) userId person)
        = linked_person env personName (store w) userId person).
      { rewrite (linked_person_eq env personName (mkStore _ _ _ _)).
        rewrite (linked_person_eq env personName (store w)).
        cbn [notes meetings p_id p_userId p_name p_linkedNotes p_meetings].
        rewrite !add_all_idempotent. reflexivity. }
      rewrite Hsame, Hpersist, replace_by_twice. reflexivity.
    + rewrite Hfind, Hpersist. reflexivity.
  - intros before after Hbefore Hafter.
    unfold once, run in Hafter.
    rewrite linkPerson_store in Hafter.
    assert (Hcases : after = before
                     \/ after = linked_person env personName (store w) userId before).
    { destruct (oid_valid env userId && oid_valid env personId).
      - rewrite Hbefore in Hafter.
        destruct (persist_ok env
                    (DPerson (linked_person env personName (store w) userId before))).
        + right. cbn [people] in Hafter.
          rewrite (find_replace_by p_id personId
                     (linked_person env personName (store w) userId before) before)
            in Hafter.
          * congruence.
          * exact Hbefore.
          * rewrite linked_person_eq. cbn. apply find_some in Hbefore.
            apply String.eqb_eq. exact (proj2 Hbefore).
        + left. congruence.
      - left. congruence. }
    destruct Hcases as [-> | ->]; [tauto |].
    rewrite linked_person_eq. cbn.
    repeat split; try apply add_all_NoDup; try apply add_all_incl.
Qed.

(** ** Empty text *)

(** *** The remote calls only accumulate *)

Lemma calls_grow_refl (w : World) : calls_grow w w.
Proof. exists []. symmetry. apply app_nil_r. Qed.

Lemma calls_grow_trans (w1 w2 w3 : World) :
  calls_grow w1 w2 -> calls_grow w2 w3 -> calls_grow w1 w3.
Proof.
  intros [m1 H1] [m2 H2]. exists (m1 ++ m2).
  rewrite H2, H1. symmetry. apply app_assoc.
Qed.

Lemma calls_grow_record_call (c : RemoteCall) :
  respects calls_grow (record_call c).
Proof. intro w. exists [c]. reflexivity. Qed.

Lemma calls_grow_info (msg : string) : respects calls_grow (logger.info msg).
Proof. intro w. exists []. symmetry. apply app_nil_r. Qed.

Lemma calls_grow_error (msg : string) (e : Exn) :
  respects calls_grow (logger.error msg e).
Proof. intro w. exists []. symmetry. apply app_nil_r. Qed.

Lemma calls_grow_Note_save (env : Env) (n : Note) :
  respects calls_grow (Db.Note_save env n).
Proof.
  intro w. unfold Db.Note_save.
  destruct (persist_ok env (DNote n)); exists []; symmetry; apply app_nil_r.
Qed.

Lemma calls_grow_Person_save (env : Env) (p : Person) :
  respects calls_grow (Db.Person_save env p).
Proof.
  intro w. unfold Db.Person_save.
  destruct (persist_ok env (DPerson p)); exists []; symmetry; apply app_nil_r.
Qed.

Ltac frame_calls :=
  frame calls_grow_refl calls_grow_trans
        ltac:(first [ apply calls_grow_record_call | apply calls_grow_info
                    | apply calls_grow_error | apply calls_grow_Note_save
                    | apply calls_grow_Person_save ]).

Lemma calls_grow_after_extraction (env : Env)
  (userId noteId noteContent : string) (entities : Entities) :
  respects calls_grow
    (link_named_people env userId noteId entities ;;
     link_related_notes env userId noteId noteContent ;;
     logger.info ("Linked note " ++ noteId ++ " to related entities")).
Proof.
  unfold link_named_people, link_related_notes, Db.Person_find_named,
    Db.Note_find_others, Db.Note_findById, AIService.findConnections.
  frame_calls.
Qed.

Lemma extractEntities_calls (env : Env) (text : string) (w : World) :
  calls (snd (AIService.extractEntities env text w))
  = calls w ++ [CallExtract text].
Proof.
  unfold AIService.extractEntities, try_catch, bind, record_call, of_reply.
  destruct (remote_extract env text); reflexivity.
Qed.

(** Whatever the text, the extraction capability is the first one called. *)
Lemma linkNoteToEntities_calls (env : Env)
  (userId noteId noteContent : string) (w : World) :
  exists more,
    calls (snd (linkNoteToEntities env userId noteId noteContent w))
    = calls w ++ CallExtract noteContent :: more.
Proof.
  unfold linkNoteToEntities, try_catch. unfold bind at 1.
  pose proof (extractEntities_calls env noteContent w) as Hfirst.
  destruct (AIService.extractEntities env noteContent w) as [[ents | e] w1].
  - cbn in Hfirst.
    destruct (calls_grow_after_extraction env userId noteId noteContent ents w1)
      as [more Hmore].
    exists more.
    match goal with
    | |- context [bind ?m ?f w1] => destruct (bind m f w1) as [[a | e] w2]
    end; cbn in Hmore |- *; rewrite Hmore, Hfirst, <- app_assoc; reflexivity.
  - cbn in Hfirst |- *. exists []. exact Hfirst.
Qed.

(** *** No link to make, no document changed *)

Lemma replace_by_self {A} (key : A -> ObjectId) (d : A) (l : list A) :
  NoDup (map key l) -> In d l -> Db.replace_by key d l = l.
Proof.
  induction l as [| x l IH]; intros Hnodup Hin; [reflexivity |].
  cbn in Hnodup. inversion Hnodup as [| k ks Hfresh Hrest]; subst.
  destruct Hin as [Hx | Hin].
  - subst x. rewrite replace_by_here by reflexivity.
    rewrite replace_by_absent by exact Hfresh. reflexivity.
  - unfold Db.replace_by. cbn.
    destruct (String.eqb (key x) (key d)) eqn:E.
    + apply String.eqb_eq in E. exfalso. apply Hfresh. rewrite E.
      apply in_map. exact Hin.
    + f_equal. apply IH; assumption.
Qed.

Lemma linked_ids_none (allNotes : list Note) (cs : list Connection) :
  (forall c, In c cs -> above_link_threshold (c_score c) = false) ->
  linked_ids allNotes cs = [].
Proof.
  intro H. unfold linked_ids.
  induction cs as [| c cs IH]; [reflexivity |].
  cbn. unfold pushed_for at 1. rewrite (H c) by (left; reflexivity).
  apply IH. intros c' Hc'. apply H. right. exact Hc'.
Qed.

Lemma store_eta (s : Store) :
  mkStore (notes s) (people s) (meetings s) (reminders s) = s.
Proof. destruct s. reflexivity. Qed.

Lemma link_related_notes_no_link (env : Env)
  (userId noteId noteContent : string) (w : World) :
  NoDup (map n_id (notes (store w))) ->
  (forall targets cs c,
     remote_rank env noteContent targets = Some cs -> In c cs ->
     above_link_threshold (c_score c) = false) ->
  store (snd (link_related_notes env userId noteId noteContent w)) = store w.
Proof.
  intros Hnodup Hquiet.
  unfold link_related_notes.
  unfold bind at 1. unfold Db.newObjectId.
  destruct (oid_valid env userId); [| reflexivity].
  unfold ret at 1. unfold bind at 1.
  unfold Db.Note_find_others, Db.castObjectId.
  destruct (oid_valid env noteId) eqn:Hnote; [| reflexivity].
  unfold bind at 1. unfold ret at 1. unfold bind at 1.
  unfold get_store at 1. unfold ret at 1.
  fold (candidate_window (store w) userId noteId).
  destruct (candidate_window (store w) userId noteId) as [| n0 rest] eqn:Ewin;
    [reflexivity |].
  unfold bind at 1.
  unfold AIService.findConnections, try_catch, bind at 1, record_call,
    of_reply.
  destruct (remote_rank env noteContent (map n_content (n0 :: rest)))
    as [cs |] eqn:Hrank; [| reflexivity].
  unfold ret at 1.
  unfold bind at 1. unfold Db.Note_findById, Db.castObjectId. rewrite Hnote.
  unfold bind at 1. unfold ret at 1. unfold bind at 1, get_store, ret at 1.
  cbn [store notes].
  destruct (find (fun x => String.eqb (n_id x) noteId) (notes (store w)))
    as [cur |] eqn:Hfind; [| reflexivity].
  assert (Hnone : forall c, In c cs -> above_link_threshold (c_score c) = false)
    by (intros c Hc; eapply Hquiet; eassumption).
  erewrite bind_ok.
  2:{ apply push_related_notes_ok. intros c Hc Habove.
      rewrite (Hnone c Hc) in Habove. discriminate Habove. }
  rewrite linked_ids_none by exact Hnone.
  rewrite app_nil_r.
  replace (note_with_links cur (n_linkedEntities cur)) with cur
    by (destruct cur; reflexivity).
  unfold Db.Note_save.
  destruct (persist_ok env (DNote cur)); [| reflexivity].
  cbn. rewrite replace_by_self.
  - apply store_eta.
  - exact Hnodup.
  - apply find_some in Hfind. exact (proj1 Hfind).
Qed.

Lemma link_named_people_no_names (env : Env) (userId noteId : string)
  (entities : Entities) (w : World) :
  extracted_names entities = [] ->
  link_named_people env userId noteId entities w = (Ok tt, w).
Proof.
  unfold extracted_names, link_named_people.
  destruct (e_people entities) as [[| name names] |]; intro H;
    try reflexivity; discriminate H.
Qed.

(** C8, as stated, fails: with the empty text the pipeline runs as with any
    other text; the remote model is asked, and what it answers is linked. *)
Lemma linkNote_empty_text_still_links :
  store (snd (linkNoteToEntities Scenario.env0 Scenario.owner
                Scenario.note1_id "" Scenario.world0))
  <> store Scenario.world0
  /\ calls (snd (linkNoteToEntities Scenario.env0 Scenario.owner
                   Scenario.note1_id "" Scenario.world0))
     <> calls Scenario.world0.
Proof.
  split; intro H; vm_compute in H; discriminate H.
Qed.

(** C8, amended: the empty text takes no shortcut.  linkNoteToEntities
    calls the extraction capability on it, first of all, and returns
    normally; and when the extraction names no person (or fails) and no
    connection of a similarity reply scores above 0.6, no document of the
    database is changed, ids being unique among the notes. *)
Theorem linkNote_empty_text
  (env : Env) (userId noteId : string) (w : World) :
  let outcome := linkNoteToEntities env userId noteId "" w in
  fst outcome = Ok tt
  /\ (exists more, calls (snd outcome) = calls w ++ CallExtract "" :: more)
  /\ (NoDup (map n_id (notes (store w))) ->
      (forall ents, remote_extract env "" = Some ents ->
                    extracted_names ents = []) ->
      (forall targets cs c,
         remote_rank env "" targets = Some cs -> In c cs ->
         (c_score c <= 6 # 10)%Q) ->
      store (snd outcome) = store w).
Proof.
  intro outcome. split; [apply linkNoteToEntities_returns |].
  split; [apply linkNoteToEntities_calls |].
  intros Hnodup Hnames Hscores.
  assert (Hquiet : forall targets cs c,
             remote_rank env "" targets = Some cs -> In c cs ->
             above_link_threshold (c_score c) = false).
  { intros targets cs c Hreply Hin.
    destruct (above_link_threshold (c_score c)) eqn:E; [| reflexivity].
    apply above_link_threshold_spec in E.
    exfalso. exact (Qlt_not_le _ _ E (Hscores targets cs c Hreply Hin)). }
  unfold outcome, linkNoteToEntities, try_catch.
  destruct (remote_extract env "") as [ents |] eqn:Hreply.
  - erewrite bind_ok by (apply extractEntities_ok; exact Hreply).
    erewrite bind_ok
      by (apply link_named_people_no_names; apply Hnames; reflexivity).
    unfold bind at 1.
    match goal with
    | |- context [link_related_notes env userId noteId "" ?w1] =>
        pose proof (link_related_notes_no_link env userId noteId "" w1
                      Hnodup Hquiet) as Hstore;
        destruct (link_related_notes env userId noteId "" w1)
          as [[[] | e] w2]
    end; cbn in Hstore |- *; exact Hstore.
  - unfold bind at 1.
    unfold AIService.extractEntities, try_catch, bind, record_call, of_reply.
    rewrite Hreply. reflexivity.
Qed.

(** The theorem in the scenario with a silent model: nothing is written. *)
Lemma linkNote_empty_text_witness :
  store (snd (linkNoteToEntities Scenario.env_silent Scenario.owner
                Scenario.note1_id "" Scenario.world0))
  = Scenario.store0.
Proof.
  apply (proj2 (proj2 (linkNote_empty_text Scenario.env_silent Scenario.owner
                         Scenario.note1_id Scenario.world0))).
  - repeat constructor; cbn; intuition discriminate.
  - intros ents H. injection H as <-. reflexivity.
  - intros targets cs c H Hin. injection H as <-. destruct Hin.
Defined.

(** The theorem in the scenario: John is mentioned by two notes and by one
    meeting; a second run changes nothing and his links hold no duplicate. *)
Lemma linkPerson_idempotent_witness :
  store (snd (linkPersonToRelevantData Scenario.env0 Scenario.owner
                Scenario.john_id "John"
                (snd (linkPersonToRelevantData Scenario.env0 Scenario.owner
                        Scenario.john_id "John" Scenario.world0))))
  = store (snd (linkPersonToRelevantData Scenario.env0 Scenario.owner
                  Scenario.john_id "John" Scenario.world0))
  /\ NoDup [Scenario.note1_id; Scenario.note2_id].
Proof.
  destruct (linkPerson_idempotent Scenario.env0 Scenario.owner
              Scenario.john_id "John" Scenario.world0) as [Hsame Hlists].
  split; [exact Hsame |].
  destruct (Hlists Scenario.john
              (mkPerson Scenario.john_id Scenario.owner "John"
                        [Scenario.note1_id; Scenario.note2_id]
                        [Scenario.meeting1_id])
              eq_refl eq_refl) as [Hnotes _].
  apply Hnotes. constructor.
Defined.

(** * Further properties *)

(** ** Linking a meeting *)

Lemma push_meeting_notes_ok (allNotes : list Note) (cs : list Connection) :
  forall (meeting : Meeting) (w : World),
    (forall c, In c cs -> above_link_threshold (c_score c) = true ->
               c_index c < List.length allNotes) ->
    push_meeting_notes allNotes cs meeting w
    = (Ok (meeting_with meeting (m_actionItems meeting)
             (m_linkedNotes meeting ++ linked_ids allNotes cs)),
       w).
Proof.
  induction cs as [| c cs IH]; intros meeting w Hidx.
  - cbn. rewrite app_nil_r. destruct meeting; reflexivity.
  - cbn [push_meeting_notes linked_ids flat_map].
    fold (linked_ids allNotes cs). unfold pushed_for.
    destruct (above_link_threshold (c_score c)) eqn:Eabove.
    + assert (Hlt : c_index c < List.length allNotes)
        by (apply Hidx; [left; reflexivity | exact Eabove]).
      destruct (nth_error allNotes (c_index c)) as [related |] eqn:Enth.
      * rewrite IH by (intros c' Hin; apply Hidx; right; exact Hin).
        unfold meeting_with, meeting_push_linkedNotes. cbn.
        rewrite <- app_assoc. reflexivity.
      * apply nth_error_None in Enth. lia.
    + rewrite IH by (intros c' Hin; apply Hidx; right; exact Hin).
      reflexivity.
Qed.

Lemma generateActionItems_ok (env : Env) (text : string)
  (items : list string) (w : World) :
  remote_actions env text = Some items ->
  AIService.generateActionItems env text w
  = (Ok items, mkWorld (store w) (log w) (calls w ++ [CallActions text])).
Proof.
  intro H.
  unfold AIService.generateActionItems, try_catch, bind, record_call, of_reply.
  rewrite H. reflexivity.
Qed.

Lemma findConnections_ok (env : Env) (sourceText : string)
  (targetTexts : list string) (cs : list Connection) (w : World) :
  remote_rank env sourceText targetTexts = Some cs ->
  AIService.findConnections env sourceText targetTexts w
  = (Ok cs,
     mkWorld (store w) (log w) (calls w ++ [CallRank sourceText targetTexts])).
Proof.
  intro H.
  unfold AIService.findConnections, try_catch, bind, record_call, of_reply.
  rewrite H. reflexivity.
Qed.

Lemma findConnections_down (env : Env) (sourceText : string)
  (targetTexts : list string) (w : World) :
  remote_rank env sourceText targetTexts = None ->
  AIService.findConnections env sourceText targetTexts w
  = (Throw RemoteError,
     mkWorld (store w)
             (log w ++ [LogError "Error finding connections:" RemoteError])
             (calls w ++ [CallRank sourceText targetTexts])).
Proof.
  intro H.
  unfold AIService.findConnections, try_catch, bind, record_call, of_reply.
  rewrite H. reflexivity.
Qed.

Lemma replace_by_replace {A} (key : A -> ObjectId) (d1 d2 : A) (l : list A) :
  key d1 = key d2 ->
  Db.replace_by key d2 (Db.replace_by key d1 l) = Db.replace_by key d2 l.
Proof.
  intro Hkey. unfold Db.replace_by. rewrite map_map. apply map_ext. intro x.
  rewrite Hkey.
  destruct (String.eqb (key x) (key d2)) eqn:E; [| rewrite E; reflexivity].
  rewrite Hkey, String.eqb_refl. reflexivity.
Qed.

Lemma find_key {A} (key : A -> ObjectId) (id : ObjectId) (x : A)
  (l : list A) :
  find (fun y => String.eqb (key y) id) l = Some x -> key x = id.
Proof.
  intro H. apply find_some in H. apply String.eqb_eq. exact (proj2 H).
Qed.

(** The database steps, one by one. *)

Lemma newObjectId_ok (env : Env) (id : string) (w : World) :
  oid_valid env id = true -> Db.newObjectId env id w = (Ok id, w).
Proof. intro H. unfold Db.newObjectId. rewrite H. reflexivity. Qed.

Lemma newObjectId_invalid (env : Env) (id : string) (w : World) :
  oid_valid env id = false -> Db.newObjectId env id w = (Throw BSONError, w).
Proof. intro H. unfold Db.newObjectId. rewrite H. reflexivity. Qed.

Lemma Meeting_findById_ok (env : Env) (id : string) (w : World) :
  oid_valid env id = true ->
  Db.Meeting_findById env id w
  = (Ok (find (fun x => String.eqb (m_id x) id) (meetings (store w))), w).
Proof.
  intro H. unfold Db.Meeting_findById, Db.castObjectId, bind.
  rewrite H. reflexivity.
Qed.

Lemma Meeting_findById_invalid (env : Env) (id : string) (w : World) :
  oid_valid env id = false ->
  Db.Meeting_findById env id w = (Throw CastError, w).
Proof.
  intro H. unfold Db.Meeting_findById, Db.castObjectId, bind.
  rewrite H. reflexivity.
Qed.

Lemma Meeting_save_ok (env : Env) (m : Meeting) (w : World) :
  persist_ok env (DMeeting m) = true ->
  Db.Meeting_save env m w
  = (Ok tt,
     mkWorld (mkStore (notes (store w)) (people (store w))
                      (Db.replace_by m_id m (meetings (store w)))
                      (reminders (store w)))
             (log w) (calls w)).
Proof. intro H. unfold Db.Meeting_save. rewrite H. reflexivity. Qed.

Lemma Meeting_save_rejected (env : Env) (m : Meeting) (w : World) :
  persist_ok env (DMeeting m) = false ->
  Db.Meeting_save env m w = (Throw PersistError, w).
Proof. intro H. unfold Db.Meeting_save. rewrite H. reflexivity. Qed.

Lemma Note_find_ok (userId : ObjectId) (n : nat) (w : World) :
  Db.Note_find userId n w = (Ok (owner_notes (store w) userId n), w).
Proof. reflexivity. Qed.

Lemma Meeting_find_ok (userId : ObjectId) (n : nat) (w : World) :
  Db.Meeting_find userId n w = (Ok (owner_meetings (store w) userId n), w).
Proof. reflexivity. Qed.

(** X1.  A run of linkMeetingToData in which nothing fails: the stored
    meeting takes the derived action items in place of its former ones, and
    its links gain, after the former ones and in the order of the reply, the
    candidate of every connection scoring above 0.6; the candidates are the
    first fifty notes of the owner. *)
Theorem linkMeeting_stores_items_and_links
  (env : Env) (userId meetingId meetingNotes : string)
  (items : list string) (cs : list Connection) (meeting : Meeting)
  (w : World) :
  remote_actions env meetingNotes = Some items ->
  oid_valid env userId = true ->
  oid_valid env meetingId = true ->
  (forall d, persist_ok env d = true) ->
  find (fun x => String.eqb (m_id x) meetingId) (meetings (store w))
  = Some meeting ->
  owner_notes (store w) userId 50 <> [] ->
  remote_rank env meetingNotes
    (map n_content (owner_notes (store w) userId 50)) = Some cs ->
  (forall c, In c cs -> above_link_threshold (c_score c) = true ->
     c_index c < List.length (owner_notes (store w) userId 50)) ->
  let linked :=
    meeting_with meeting items
      (m_linkedNotes meeting
       ++ linked_ids (owner_notes (store w) userId 50) cs) in
  linkMeetingToData env userId meetingId meetingNotes w
  = (Ok tt,
     mkWorld
       (mkStore (notes (store w)) (people (store w))
                (Db.replace_by m_id linked (meetings (store w)))
                (reminders (store w)))
       (log w ++ [LogInfo ("Linked meeting " ++ meetingId
                           ++ " to related data")])
       (calls w ++ [CallActions meetingNotes]
                ++ [CallRank meetingNotes
                      (map n_content (owner_notes (store w) userId 50))]))
  /\ find (fun x => String.eqb (m_id x) meetingId)
          (Db.replace_by m_id linked (meetings (store w)))
     = Some linked.
Proof.
  intros Hitems Huser Hmeeting Hpersist Hfind Hne Hrank Hidx linked.
  split.
  - unfold linkMeetingToData, try_catch.
    erewrite bind_ok by (apply generateActionItems_ok; exact Hitems).
    erewrite bind_ok by (apply Meeting_findById_ok; exact Hmeeting).
    cbn [store meetings]. rewrite Hfind. cbv zeta.
    erewrite bind_ok.
    2:{ erewrite bind_ok by (apply Meeting_save_ok; apply Hpersist).
        reflexivity. }
    erewrite bind_ok by (apply newObjectId_ok; exact Huser).
    erewrite bind_ok by apply Note_find_ok.
    cbn [store notes people meetings reminders log calls].
    change (owner_notes
              (mkStore (notes (store w)) (people (store w))
                 (Db.replace_by m_id (meeting_set_actionItems meeting items)
                    (meetings (store w)))
                 (reminders (store w))) userId 50)
      with (owner_notes (store w) userId 50).
    destruct (owner_notes (store w) userId 50) as [| n0 rest] eqn:Ewin;
      [contradiction Hne; reflexivity |].
    erewrite bind_ok.
    2:{ erewrite bind_ok by (apply findConnections_ok; exact Hrank).
        erewrite bind_ok by (apply push_meeting_notes_ok; exact Hidx).
        apply Meeting_save_ok. apply Hpersist. }
    unfold logger.info.
    cbn [store notes people meetings reminders log calls].
    rewrite replace_by_replace by reflexivity.
    rewrite <- app_assoc. reflexivity.
  - apply find_replace_by with (cur := meeting); [exact Hfind |].
    cbn. eapply find_key. exact Hfind.
Qed.

(** The theorem in the scenario: the meeting takes the two action items and
    is linked to the note scored 0.9. *)
Lemma linkMeeting_stores_items_and_links_witness :
  meetings (store (snd (linkMeetingToData Scenario.env0 Scenario.owner
                          Scenario.meeting1_id Scenario.meeting1_text
                          Scenario.world0)))
  = [meeting_with Scenario.meeting1 Scenario.action_items
                  [Scenario.note1_id]].
Proof.
  rewrite (proj1 (linkMeeting_stores_items_and_links Scenario.env0
                    Scenario.owner Scenario.meeting1_id Scenario.meeting1_text
                    Scenario.action_items Scenario.reply_rank
                    Scenario.meeting1 Scenario.world0
                    eq_refl eq_refl eq_refl (fun _ => eq_refl) eq_refl
                    ltac:(discriminate) eq_refl
                    ltac:(intros c [Hc | [Hc | []]] _; subst c;
                          vm_compute; lia))).
  reflexivity.
Defined.

(** X2.  linkMeetingToData keeps what it wrote before a failure and writes
    nothing after it.  When the action items cannot be derived, nothing is
    written and the similarity capability is not called.  When the items
    were stored and the similarity capability then fails, the meeting keeps
    the new action items and its former links. *)
Theorem linkMeeting_failure_keeps_earlier_writes
  (env : Env) (userId meetingId meetingNotes : string) (w : World) :
  (remote_actions env meetingNotes = None ->
   linkMeetingToData env userId meetingId meetingNotes w
   = (Ok tt,
      mkWorld (store w)
        (log w ++ [LogError "Error generating action items:" RemoteError]
               ++ [LogError "Error linking meeting to data:" RemoteError])
        (calls w ++ [CallActions meetingNotes])))
  /\ (forall items meeting,
        remote_actions env meetingNotes = Some items ->
        oid_valid env userId = true ->
        oid_valid env meetingId = true ->
        find (fun x => String.eqb (m_id x) meetingId) (meetings (store w))
        = Some meeting ->
        persist_ok env (DMeeting (meeting_set_actionItems meeting items))
        = true ->
        owner_notes (store w) userId 50 <> [] ->
        remote_rank env meetingNotes
          (map n_content (owner_notes (store w) userId 50)) = None ->
        linkMeetingToData env userId meetingId meetingNotes w
        = (Ok tt,
           mkWorld
             (mkStore (notes (store w)) (people (store w))
                (Db.replace_by m_id
                   (meeting_with meeting items (m_linkedNotes meeting))
                   (meetings (store w)))
                (reminders (store w)))
             (log w ++ [LogError "Error finding connections:" RemoteError]
                    ++ [LogError "Error linking meeting to data:" RemoteError])
             (calls w ++ [CallActions meetingNotes]
                      ++ [CallRank meetingNotes
                            (map n_content
                               (owner_notes (store w) userId 50))]))).
Proof.
  split.
  - intro Hdown.
    unfold linkMeetingToData, AIService.generateActionItems, try_catch, bind,
      record_call, of_reply, throw, logger.error.
    rewrite Hdown. cbn. rewrite <- app_assoc. reflexivity.
  - intros items meeting Hitems Huser Hmeeting Hfind Hpersist Hne Hrank.
    unfold linkMeetingToData, try_catch.
    erewrite bind_ok by (apply generateActionItems_ok; exact Hitems).
    erewrite bind_ok by (apply Meeting_findById_ok; exact Hmeeting).
    cbn [store meetings]. rewrite Hfind. cbv zeta.
    erewrite bind_ok.
    2:{ erewrite bind_ok by (apply Meeting_save_ok; exact Hpersist).
        reflexivity. }
    erewrite bind_ok by (apply newObjectId_ok; exact Huser).
    erewrite bind_ok by apply Note_find_ok.
    cbn [store notes people meetings reminders log calls].
    change (owner_notes
              (mkStore (notes (store w)) (people (store w))
                 (Db.replace_by m_id (meeting_set_actionItems meeting items)
                    (meetings (store w)))
                 (reminders (store w))) userId 50)
      with (owner_notes (store w) userId 50).
    destruct (owner_notes (store w) userId 50) as [| n0 rest] eqn:Ewin;
      [contradiction Hne; reflexivity |].
    erewrite bind_throw.
    2:{ erewrite bind_throw by (apply findConnections_down; exact Hrank).
        reflexivity. }
    unfold logger.error.
    cbn [store notes people meetings reminders log calls].
    rewrite <- !app_assoc. reflexivity.
Qed.

(** The theorem in two variants of the scenario: the action-item
    capability is down, then the similarity capability. *)
Lemma linkMeeting_failure_keeps_earlier_writes_witness :
  store (snd (linkMeetingToData Variants.env_actions_down
                Scenario.owner Scenario.meeting1_id Scenario.meeting1_text
                Scenario.world0))
  = Scenario.store0
  /\ meetings
       (store (snd (linkMeetingToData Variants.env_rank_down
                      Scenario.owner Scenario.meeting1_id
                      Scenario.meeting1_text Scenario.world0)))
     = [meeting_with Scenario.meeting1 Scenario.action_items []].
Proof.
  split.
  - rewrite (proj1 (linkMeeting_failure_keeps_earlier_writes
                      Variants.env_actions_down Scenario.owner
                      Scenario.meeting1_id Scenario.meeting1_text
                      Scenario.world0) eq_refl).
    reflexivity.
  - rewrite (proj2 (linkMeeting_failure_keeps_earlier_writes
                      Variants.env_rank_down Scenario.owner
                      Scenario.meeting1_id Scenario.meeting1_text
                      Scenario.world0)
               Scenario.action_items Scenario.meeting1
               eq_refl eq_refl eq_refl eq_refl eq_refl
               ltac:(discriminate) eq_refl).
    reflexivity.
Defined.

(** ** What each entry point leaves alone *)

Lemma untouched_refl {A} (part : Store -> A) (w : World) :
  untouched part w w.
Proof. reflexivity. Qed.

Lemma untouched_trans {A} (part : Store -> A) (w1 w2 w3 : World) :
  untouched part w1 w2 -> untouched part w2 w3 -> untouched part w1 w3.
Proof. unfold untouched. congruence. Qed.

Lemma appended_to_refl {A} (part : Store -> list A) (w : World) :
  appended_to part w w.
Proof. exists []. symmetry. apply app_nil_r. Qed.

Lemma appended_to_trans {A} (part : Store -> list A) (w1 w2 w3 : World) :
  appended_to part w1 w2 -> appended_to part w2 w3 -> appended_to part w1 w3.
Proof.
  intros [a1 H1] [a2 H2]. exists (a1 ++ a2).
  rewrite H2, H1. symmetry. apply app_assoc.
Qed.

Lemma same_calls_refl (w : World) : same_calls w w.
Proof. reflexivity. Qed.

Lemma same_calls_trans (w1 w2 w3 : World) :
  same_calls w1 w2 -> same_calls w2 w3 -> same_calls w1 w3.
Proof. unfold same_calls. congruence. Qed.

Lemma replace_by_keys {A} (key : A -> ObjectId) (d : A) (l : list A) :
  map key (Db.replace_by key d l) = map key l.
Proof.
  unfold Db.replace_by. rewrite map_map. apply map_ext_in. intros x _.
  destruct (String.eqb (key x) (key d)) eqn:E; [| reflexivity].
  apply String.eqb_eq in E. symmetry. exact E.
Qed.

Lemma silent_push_meeting_notes (allNotes : list Note)
  (cs : list Connection) :
  forall meeting, silent (push_meeting_notes allNotes cs meeting).
Proof.
  induction cs as [| c cs IH]; intros meeting w; cbn.
  - reflexivity.
  - destruct (above_link_threshold (c_score c)); [| apply IH].
    destruct (nth_error allNotes (c_index c)); [apply IH | reflexivity].
Qed.

(** A step that writes one document or one line: settled by running it. *)
Ltac run_step :=
  let w := fresh "w" in
  intro w;
  unfold Db.Note_save, Db.Person_save, Db.Meeting_save, Db.Reminder_save,
    record_call, logger.info, logger.error, get_store, put_store, bind;
  repeat match goal with
         | |- context [persist_ok ?env ?d] => destruct (persist_ok env d)
         end;
  unfold untouched, appended_to, same_calls, note_ids, person_ids,
    meeting_ids, throw;
  cbn [fst snd store log calls notes people meetings reminders];
  first [ reflexivity
        | apply replace_by_keys
        | eexists; reflexivity
        | exists []; symmetry; apply app_nil_r ].

Ltac frame_with refl trans :=
  frame refl trans
        ltac:(first [ apply (respects_silent _ refl);
                        apply silent_push_meeting_notes
                    | run_step ]).

Ltac unfold_services :=
  unfold linkNoteToEntities, link_named_people, link_related_notes,
    linkPersonToRelevantData, linkMeetingToData,
    createRemindersFromActionItems, SummaryService.generateDailySummary,
    AIService.extractEntities, AIService.findConnections,
    AIService.generateActionItems, AIService.generateDailySummary,
    Db.Person_find_named, Db.Person_findById, Db.Note_find_others,
    Db.Note_find, Db.Note_find_between, Db.Note_findById, Db.Meeting_find,
    Db.Meeting_find_between, Db.Meeting_findById;
  cbv zeta.

(** X3.  Whatever the capabilities answer and whichever step fails,
    linkNoteToEntities creates and deletes no note and no person, and leaves
    the meetings and the reminders as they were. *)
Theorem linkNote_frame
  (env : Env) (userId noteId noteContent : string) (w : World) :
  let final := snd (linkNoteToEntities env userId noteId noteContent w) in
  note_ids (store final) = note_ids (store w)
  /\ person_ids (store final) = person_ids (store w)
  /\ meetings (store final) = meetings (store w)
  /\ reminders (store final) = reminders (store w).
Proof.
  assert (Hnotes : respects (untouched note_ids)
                     (linkNoteToEntities env userId noteId noteContent))
    by (unfold_services;
        frame_with (@untouched_refl _ note_ids) (@untouched_trans _ note_ids)).
  assert (Hpeople : respects (untouched person_ids)
                      (linkNoteToEntities env userId noteId noteContent))
    by (unfold_services;
        frame_with (@untouched_refl _ person_ids)
                   (@untouched_trans _ person_ids)).
  assert (Hmeetings : respects (untouched meetings)
                        (linkNoteToEntities env userId noteId noteContent))
    by (unfold_services;
        frame_with (@untouched_refl _ meetings) (@untouched_trans _ meetings)).
  assert (Hreminders : respects (untouched reminders)
                         (linkNoteToEntities env userId noteId noteContent))
    by (unfold_services;
        frame_with (@untouched_refl _ reminders)
                   (@untouched_trans _ reminders)).
  exact (conj (Hnotes w) (conj (Hpeople w) (conj (Hmeetings w) (Hreminders w)))).
Qed.

Ltac frame_untouched part :=
  unfold_services;
  frame_with (@untouched_refl _ part) (@untouched_trans _ part).

(** X4.  Whatever happens, linkMeetingToData creates and deletes no meeting
    and leaves the notes, the people and the reminders as they were. *)
Theorem linkMeeting_frame
  (env : Env) (userId meetingId meetingNotes : string) (w : World) :
  let final := snd (linkMeetingToData env userId meetingId meetingNotes w) in
  meeting_ids (store final) = meeting_ids (store w)
  /\ notes (store final) = notes (store w)
  /\ people (store final) = people (store w)
  /\ reminders (store final) = reminders (store w).
Proof.
  assert (H1 : respects (untouched meeting_ids)
                 (linkMeetingToData env userId meetingId meetingNotes))
    by frame_untouched meeting_ids.
  assert (H2 : respects (untouched notes)
                 (linkMeetingToData env userId meetingId meetingNotes))
    by frame_untouched notes.
  assert (H3 : respects (untouched people)
                 (linkMeetingToData env userId meetingId meetingNotes))
    by frame_untouched people.
  assert (H4 : respects (untouched reminders)
                 (linkMeetingToData env userId meetingId meetingNotes))
    by frame_untouched reminders.
  exact (conj (H1 w) (conj (H2 w) (conj (H3 w) (H4 w)))).
Qed.

(** X5.  Whatever happens, linkPersonToRelevantData calls no remote
    capability, creates and deletes no person, and leaves the notes, the
    meetings and the reminders as they were. *)
Theorem linkPerson_frame
  (env : Env) (userId personId personName : string) (w : World) :
  let final := snd (linkPersonToRelevantData env userId personId personName w) in
  calls final = calls w
  /\ person_ids (store final) = person_ids (store w)
  /\ notes (store final) = notes (store w)
  /\ meetings (store final) = meetings (store w)
  /\ reminders (store final) = reminders (store w).
Proof.
  assert (H0 : respects same_calls
                 (linkPersonToRelevantData env userId personId personName))
    by (unfold_services; frame_with same_calls_refl same_calls_trans).
  assert (H1 : respects (untouched person_ids)
                 (linkPersonToRelevantData env userId personId personName))
    by frame_untouched person_ids.
  assert (H2 : respects (untouched notes)
                 (linkPersonToRelevantData env userId personId personName))
    by frame_untouched notes.
  assert (H3 : respects (untouched meetings)
                 (linkPersonToRelevantData env userId personId personName))
    by frame_untouched meetings.
  assert (H4 : respects (untouched reminders)
                 (linkPersonToRelevantData env userId personId personName))
    by frame_untouched reminders.
  exact (conj (H0 w) (conj (H1 w) (conj (H2 w) (conj (H3 w) (H4 w))))).
Qed.

(** X6.  Whatever happens, createRemindersFromActionItems calls no remote
    capability, leaves the notes, the people and the meetings as they were,
    and keeps every reminder that was there: new ones come after them. *)
Theorem createReminders_frame
  (env : Env) (userId meetingId : string) (w : World) :
  let final := snd (createRemindersFromActionItems env userId meetingId w) in
  calls final = calls w
  /\ notes (store final) = notes (store w)
  /\ people (store final) = people (store w)
  /\ meetings (store final) = meetings (store w)
  /\ exists added, reminders (store final) = reminders (store w) ++ added.
Proof.
  assert (H0 : respects same_calls
                 (createRemindersFromActionItems env userId meetingId))
    by (unfold_services; frame_with same_calls_refl same_calls_trans).
  assert (H1 : respects (untouched notes)
                 (createRemindersFromActionItems env userId meetingId))
    by frame_untouched notes.
  assert (H2 : respects (untouched people)
                 (createRemindersFromActionItems env userId meetingId))
    by frame_untouched people.
  assert (H3 : respects (untouched meetings)
                 (createRemindersFromActionItems env userId meetingId))
    by frame_untouched meetings.
  assert (H4 : respects (appended_to reminders)
                 (createRemindersFromActionItems env userId meetingId))
    by (unfold_services;
        frame_with (@appended_to_refl _ reminders)
                   (@appended_to_trans _ reminders)).
  exact (conj (H0 w) (conj (H1 w) (conj (H2 w) (conj (H3 w) (H4 w))))).
Qed.

(** X7.  generateDailySummary only reads: whatever the day holds and
    whatever the summarization capability does, the database is the same
    afterwards. *)
Theorem dailySummary_reads_only
  (env : Env) (userId : string) (date : option Date) (w : World) :
  store (snd (SummaryService.generateDailySummary env userId date w))
  = store w.
Proof.
  assert (H : respects (untouched (fun s => s))
                (SummaryService.generateDailySummary env userId date))
    by frame_untouched (fun s : Store => s).
  exact (H w).
Qed.

(** ** What linkNoteToEntities can do to the notes *)

Lemma push_related_notes_result (allNotes : list Note)
  (cs : list Connection) :
  forall (cur : Note) (w : World),
    push_related_notes allNotes cs cur w
    = (Ok (note_with_links cur
             (n_linkedEntities cur ++ linked_ids allNotes cs)), w)
    \/ push_related_notes allNotes cs cur w = (Throw TypeError, w).
Proof.
  induction cs as [| c cs IH]; intros cur w.
  - left. cbn. rewrite app_nil_r. destruct cur; reflexivity.
  - cbn [push_related_notes linked_ids flat_map].
    fold (linked_ids allNotes cs). unfold pushed_for.
    destruct (above_link_threshold (c_score c)).
    + destruct (nth_error allNotes (c_index c)) as [related |].
      * destruct (IH (note_push_linkedEntities cur (n_id related)) w)
          as [Hok | Hthrow].
        -- left. rewrite Hok. unfold note_with_links, note_push_linkedEntities.
           cbn. rewrite <- app_assoc. reflexivity.
        -- right. exact Hthrow.
      * right. reflexivity.
    + apply IH.
Qed.

Lemma candidate_window_notes (s s' : Store) (userId noteId : ObjectId) :
  notes s' = notes s ->
  candidate_window s' userId noteId = candidate_window s userId noteId.
Proof. intro H. unfold candidate_window. rewrite H. reflexivity. Qed.

(** The notes after the similarity block: as before, or with the new note
    rewritten. *)
Lemma link_related_notes_notes (env : Env)
  (userId noteId noteContent : string) (w : World) :
  notes (store (snd (link_related_notes env userId noteId noteContent w)))
  = notes (store w)
  \/ exists cur cs,
       find (fun x => String.eqb (n_id x) noteId) (notes (store w)) = Some cur
       /\ notes (store (snd (link_related_notes env userId noteId
                               noteContent w)))
          = Db.replace_by n_id
              (note_with_links cur
                 (n_linkedEntities cur
                  ++ linked_ids (candidate_window (store w) userId noteId) cs))
              (notes (store w)).
Proof.
  remember (link_related_notes env userId noteId noteContent w) as r eqn:Hr.
  unfold link_related_notes in Hr.
  unfold bind at 1 in Hr. unfold Db.newObjectId in Hr.
  destruct (oid_valid env userId); [| subst r; left; reflexivity].
  unfold ret at 1 in Hr. unfold bind at 1 in Hr.
  unfold Db.Note_find_others, Db.castObjectId in Hr.
  destruct (oid_valid env noteId) eqn:Hnote; [| subst r; left; reflexivity].
  unfold bind at 1 in Hr. unfold ret at 1 in Hr. unfold bind at 1 in Hr.
  unfold get_store at 1 in Hr. unfold ret at 1 in Hr.
  fold (candidate_window (store w) userId noteId) in Hr.
  destruct (candidate_window (store w) userId noteId) as [| n0 rest];
    [subst r; left; reflexivity |].
  unfold bind at 1 in Hr.
  unfold AIService.findConnections, try_catch, bind at 1, record_call,
    of_reply in Hr.
  destruct (remote_rank env noteContent (map n_content (n0 :: rest)))
    as [cs |]; [| subst r; left; reflexivity].
  unfold ret at 1 in Hr.
  unfold bind at 1 in Hr. unfold Db.Note_findById, Db.castObjectId in Hr.
  rewrite Hnote in Hr.
  unfold bind at 1 in Hr. unfold ret at 1 in Hr.
  unfold bind at 1, get_store, ret at 1 in Hr.
  cbn [store notes] in Hr.
  destruct (find (fun x => String.eqb (n_id x) noteId) (notes (store w)))
    as [cur |]; [| subst r; left; reflexivity].
  match type of Hr with
  | context [bind (push_related_notes ?a cs cur) _ ?w1] =>
      destruct (push_related_notes_result a cs cur w1) as [Hok | Hthrow]
  end.
  - erewrite bind_ok in Hr by exact Hok.
    unfold Db.Note_save in Hr.
    destruct (persist_ok env _); subst r; [| left; reflexivity].
    right. exists cur, cs. split; reflexivity.
  - erewrite bind_throw in Hr by exact Hthrow. subst r. left. reflexivity.
Qed.

Lemma linkNoteToEntities_notes (env : Env)
  (userId noteId noteContent : string) (w : World) :
  notes (store (snd (linkNoteToEntities env userId noteId noteContent w)))
  = notes (store w)
  \/ exists cur cs,
       find (fun x => String.eqb (n_id x) noteId) (notes (store w)) = Some cur
       /\ notes (store (snd (linkNoteToEntities env userId noteId
                               noteContent w)))
          = Db.replace_by n_id
              (note_with_links cur
                 (n_linkedEntities cur
                  ++ linked_ids (candidate_window (store w) userId noteId) cs))
              (notes (store w)).
Proof.
  remember (linkNoteToEntities env userId noteId noteContent w) as r eqn:Hr.
  unfold linkNoteToEntities, try_catch in Hr. unfold bind at 1 in Hr.
  assert (Hextract : respects (untouched notes)
                       (AIService.extractEntities env noteContent))
    by frame_untouched notes.
  specialize (Hextract w). unfold untouched in Hextract.
  destruct (AIService.extractEntities env noteContent w) as [[ents | e] w1];
    cbn [snd] in Hextract; [| subst r; left; exact Hextract].
  unfold bind at 1 in Hr.
  assert (Hpeople : respects (untouched notes)
                      (link_named_people env userId noteId ents))
    by frame_untouched notes.
  specialize (Hpeople w1). unfold untouched in Hpeople.
  destruct (link_named_people env userId noteId ents w1) as [[[] | e] w2];
    cbn [snd] in Hpeople;
    [| subst r; left; cbn; congruence].
  assert (Hsame : notes (store w2) = notes (store w)) by congruence.
  unfold bind at 1 in Hr.
  pose proof (link_related_notes_notes env userId noteId noteContent w2)
    as Hnotes.
  rewrite (candidate_window_notes (store w) (store w2)) in Hnotes
    by exact Hsame.
  rewrite Hsame in Hnotes.
  destruct (link_related_notes env userId noteId noteContent w2)
    as [[[] | e] w3]; subst r; exact Hnotes.
Qed.

Lemma same_key_same_doc {A} (key : A -> ObjectId) (l : list A) (a b : A) :
  NoDup (map key l) -> In a l -> In b l -> key a = key b -> a = b.
Proof.
  induction l as [| x l IH]; intros Hnodup Ha Hb Hkey; [destruct Ha |].
  cbn in Hnodup. inversion Hnodup as [| k ks Hfresh Hrest]; subst.
  destruct Ha as [Ha | Ha]; destruct Hb as [Hb | Hb].
  - congruence.
  - subst x. exfalso. apply Hfresh. rewrite Hkey. apply in_map. exact Hb.
  - subst x. exfalso. apply Hfresh. rewrite <- Hkey. apply in_map. exact Ha.
  - apply IH; assumption.
Qed.

Lemma In_firstn {A} (n : nat) (l : list A) (x : A) :
  In x (firstn n l) -> In x l.
Proof.
  intro H. rewrite <- (firstn_skipn n l). apply in_or_app. left. exact H.
Qed.

Lemma linked_ids_candidates (s : Store) (userId noteId : ObjectId)
  (cs : list Connection) :
  Forall (fun id =>
            id <> noteId
            /\ exists other, In other (notes s) /\ n_id other = id
                             /\ n_userId other = userId)
         (linked_ids (candidate_window s userId noteId) cs).
Proof.
  apply Forall_forall. intros id Hin.
  apply linked_ids_sound in Hin.
  destruct Hin as [c [n [_ [Hnth [Hid _]]]]].
  apply nth_error_In in Hnth. unfold candidate_window in Hnth.
  apply In_firstn in Hnth. apply filter_In in Hnth.
  destruct Hnth as [Hstored Hfilter].
  apply andb_true_iff in Hfilter. destruct Hfilter as [Howner Hother].
  apply String.eqb_eq in Howner. apply negb_true_iff in Hother.
  apply String.eqb_neq in Hother.
  split; [congruence |]. exists n. auto.
Qed.

Lemma Forall2_map_self {A} (R : A -> A -> Prop) (f : A -> A) (l : list A) :
  (forall x, In x l -> R x (f x)) -> Forall2 R l (map f l).
Proof.
  induction l as [| x l IH]; intro H; cbn; constructor.
  - apply H. left. reflexivity.
  - apply IH. intros y Hy. apply H. right. exact Hy.
Qed.

(** X8.  With ids unique among the notes, linkNoteToEntities, whatever
    happens, changes at most the note it was called for, and only by adding
    links after those the note has: no note is created, deleted or
    reordered, no title, content or owner changes, no link is removed, and
    every added link is the id of another note of the same owner, never the
    note's own id. *)
Theorem linkNote_only_adds_links
  (env : Env) (userId noteId noteContent : string) (w : World) :
  NoDup (map n_id (notes (store w))) ->
  Forall2 (gains_links (store w) userId noteId)
          (notes (store w))
          (notes (store (snd (linkNoteToEntities env userId noteId
                                noteContent w)))).
Proof.
  intro Hnodup.
  destruct (linkNoteToEntities_notes env userId noteId noteContent w)
    as [Hsame | [cur [cs [Hfind Hnotes]]]].
  - rewrite Hsame. rewrite <- (map_id (notes (store w))) at 2.
    apply Forall2_map_self. intros x _. left. reflexivity.
  - rewrite Hnotes.
    pose proof (find_key n_id noteId cur _ Hfind) as Hcur.
    apply find_some in Hfind. destruct Hfind as [Hin _].
    unfold Db.replace_by. apply Forall2_map_self. intros x Hx.
    cbn [n_id note_with_links].
    destruct (String.eqb (n_id x) (n_id cur)) eqn:E; [| left; reflexivity].
    apply String.eqb_eq in E.
    assert (x = cur) by (eapply same_key_same_doc; eassumption).
    subst x. right. split; [exact Hcur |].
    eexists. split; [reflexivity |].
    apply linked_ids_candidates.
Qed.

(** The theorem in the scenario: the first note gains the id of the second,
    the two others stay as they are. *)
Lemma linkNote_only_adds_links_witness :
  Forall2 (gains_links Scenario.store0 Scenario.owner Scenario.note1_id)
          [Scenario.note1; Scenario.note2; Scenario.note3]
          [note_with_links Scenario.note1 [Scenario.note2_id];
           Scenario.note2; Scenario.note3].
Proof.
  apply (linkNote_only_adds_links Scenario.env0 Scenario.owner
           Scenario.note1_id Scenario.note1_text Scenario.world0).
  repeat constructor; cbn; intuition discriminate.
Defined.

(** ** An index outside the candidate window *)

Lemma push_related_notes_out_of_range (allNotes : list Note)
  (cs : list Connection) :
  forall (cur : Note) (w : World),
    (exists c, In c cs /\ above_link_threshold (c_score c) = true
               /\ List.length allNotes <= c_index c) ->
    push_related_notes allNotes cs cur w = (Throw TypeError, w).
Proof.
  induction cs as [| c0 cs IH]; intros cur w [c [Hin [Habove Hout]]];
    [destruct Hin |].
  cbn [push_related_notes].
  destruct Hin as [Hc | Hin].
  - subst c0. rewrite Habove.
    apply nth_error_None in Hout. rewrite Hout. reflexivity.
  - destruct (above_link_threshold (c_score c0)).
    + destruct (nth_error allNotes (c_index c0)); [| reflexivity].
      apply IH. exists c. auto.
    + apply IH. exists c. auto.
Qed.

Lemma Note_find_others_ok (env : Env) (userId : ObjectId) (noteId : string)
  (w : World) :
  oid_valid env noteId = true ->
  Db.Note_find_others env userId noteId 50 w
  = (Ok (candidate_window (store w) userId noteId), w).
Proof.
  intro H. unfold Db.Note_find_others, Db.castObjectId, bind.
  rewrite H. reflexivity.
Qed.

Lemma Note_findById_ok (env : Env) (noteId : string) (w : World) :
  oid_valid env noteId = true ->
  Db.Note_findById env noteId w
  = (Ok (find (fun x => String.eqb (n_id x) noteId) (notes (store w))), w).
Proof.
  intro H. unfold Db.Note_findById, Db.castObjectId, bind.
  rewrite H. reflexivity.
Qed.

(** X9.  One connection that passes the threshold with an index outside the
    candidate window loses the whole reply: the loop throws on it, the note
    is not saved, and none of the links of the reply is stored, the valid
    ones included.  The error is logged and the call returns normally. *)
Theorem linkNote_index_out_of_window
  (env : Env) (userId noteId noteContent : string)
  (ents : Entities) (cs : list Connection) (cur : Note) (w : World) :
  remote_extract env noteContent = Some ents ->
  oid_valid env userId = true ->
  oid_valid env noteId = true ->
  (forall p, persist_ok env (DPerson p) = true) ->
  candidate_window (store w) userId noteId <> [] ->
  remote_rank env noteContent
    (map n_content (candidate_window (store w) userId noteId)) = Some cs ->
  find (fun x => String.eqb (n_id x) noteId) (notes (store w)) = Some cur ->
  (exists c, In c cs /\ (6 # 10 < c_score c)%Q
             /\ List.length (candidate_window (store w) userId noteId)
                <= c_index c) ->
  let outcome := linkNoteToEntities env userId noteId noteContent w in
  fst outcome = Ok tt
  /\ notes (store (snd outcome)) = notes (store w)
  /\ log (snd outcome)
     = log w ++ [LogError "Error linking note to entities:" TypeError].
Proof.
  intros Hext Huser Hnote Hpersist Hne Hrank Hfind [c [Hin [Hscore Hout]]]
    outcome.
  apply above_link_threshold_spec in Hscore.
  assert (Hrun :
    outcome
    = (Ok tt,
       mkWorld
         (mkStore (notes (store w))
            (save_people noteId
               (matched_people (store w) userId (extracted_names ents))
               (people (store w)))
            (meetings (store w)) (reminders (store w)))
         (log w ++ [LogError "Error linking note to entities:" TypeError])
         ((calls w ++ [CallExtract noteContent])
          ++ [CallRank noteContent
                (map n_content (candidate_window (store w) userId noteId))]))).
  { unfold outcome, linkNoteToEntities, try_catch.
    erewrite bind_ok by (apply extractEntities_ok; exact Hext).
    erewrite bind_ok
      by (apply link_named_people_ok;
          [exact Huser | exact Hnote | exact Hpersist]).
    destruct (candidate_window (store w) userId noteId)
      as [| n0 rest] eqn:Ewin; [contradiction Hne; reflexivity |].
    erewrite bind_throw.
    2:{ unfold link_related_notes.
        erewrite bind_ok by (apply newObjectId_ok; exact Huser).
        erewrite bind_ok by (apply Note_find_others_ok; exact Hnote).
        cbn [store notes].
        change (candidate_window (mkStore _ _ _ _) userId noteId)
          with (candidate_window (store w) userId noteId).
        rewrite Ewin.
        erewrite bind_ok by (apply findConnections_ok; exact Hrank).
        erewrite bind_ok by (apply Note_findById_ok; exact Hnote).
        cbn [store notes]. rewrite Hfind.
        erewrite bind_throw; [reflexivity |].
        apply push_related_notes_out_of_range. exists c. auto. }
    reflexivity. }
  rewrite Hrun. repeat split.
Qed.

(** The theorem in the scenario: the reply links candidate 0 and a candidate
    7 that does not exist; note1 is left without any link. *)
Lemma linkNote_index_out_of_window_witness :
  notes (store (snd (linkNoteToEntities Variants.env_wild_index
                       Scenario.owner Scenario.note1_id Scenario.note1_text
                       Scenario.world0)))
  = [Scenario.note1; Scenario.note2; Scenario.note3].
Proof.
  apply (linkNote_index_out_of_window Variants.env_wild_index
           Scenario.owner Scenario.note1_id Scenario.note1_text
           (mkEntities (Some ["John"]))
           [mkConnection 0 (9 # 10)%Q; mkConnection 7 (8 # 10)%Q]
           Scenario.note1 Scenario.world0
           eq_refl eq_refl eq_refl (fun _ => eq_refl)
           ltac:(discriminate) eq_refl eq_refl).
  exists (mkConnection 7 (8 # 10)%Q). split; [right; left; reflexivity |].
  split; [reflexivity | cbn; lia].
Defined.

(** ** The remote calls of one run *)

Lemma link_related_notes_calls (env : Env)
  (userId noteId noteContent : string) (w : World) :
  calls (snd (link_related_notes env userId noteId noteContent w)) = calls w
  \/ (candidate_window (store w) userId noteId <> []
      /\ calls (snd (link_related_notes env userId noteId noteContent w))
         = calls w
           ++ [CallRank noteContent
                 (map n_content (candidate_window (store w) userId noteId))]).
Proof.
  remember (link_related_notes env userId noteId noteContent w) as r eqn:Hr.
  unfold link_related_notes in Hr.
  unfold bind at 1 in Hr. unfold Db.newObjectId in Hr.
  destruct (oid_valid env userId); [| subst r; left; reflexivity].
  unfold ret at 1 in Hr. unfold bind at 1 in Hr.
  unfold Db.Note_find_others, Db.castObjectId in Hr.
  destruct (oid_valid env noteId) eqn:Hnote; [| subst r; left; reflexivity].
  unfold bind at 1 in Hr. unfold ret at 1 in Hr. unfold bind at 1 in Hr.
  unfold get_store at 1 in Hr. unfold ret at 1 in Hr.
  fold (candidate_window (store w) userId noteId) in Hr.
  destruct (candidate_window (store w) userId noteId) as [| n0 rest];
    [subst r; left; reflexivity |].
  right. split; [discriminate |].
  unfold bind at 1 in Hr.
  unfold AIService.findConnections, try_catch, bind at 1, record_call,
    of_reply in Hr.
  destruct (remote_rank env noteContent (map n_content (n0 :: rest)))
    as [cs |]; [| subst r; reflexivity].
  unfold ret at 1 in Hr.
  unfold bind at 1 in Hr. unfold Db.Note_findById, Db.castObjectId in Hr.
  rewrite Hnote in Hr.
  unfold bind at 1 in Hr. unfold ret at 1 in Hr.
  unfold bind at 1, get_store, ret at 1 in Hr.
  cbn [store notes] in Hr.
  destruct (find (fun x => String.eqb (n_id x) noteId) (notes (store w)))
    as [cur |]; [| subst r; reflexivity].
  match type of Hr with
  | context [bind (push_related_notes ?a cs cur) _ ?w1] =>
      destruct (push_related_notes_result a cs cur w1) as [Hok | Hthrow]
  end.
  - erewrite bind_ok in Hr by exact Hok.
    unfold Db.Note_save in Hr.
    destruct (persist_ok env _); subst r; reflexivity.
  - erewrite bind_throw in Hr by exact Hthrow. subst r. reflexivity.
Qed.

(** X10.  Whatever happens, one run of linkNoteToEntities issues the
    extraction call and then at most one similarity call; the similarity
    call is made only for a non-empty candidate window and carries the
    contents of its notes, fifty at most. *)
Theorem linkNote_call_budget
  (env : Env) (userId noteId noteContent : string) (w : World) :
  let window := candidate_window (store w) userId noteId in
  List.length window <= 50
  /\ exists more,
       calls (snd (linkNoteToEntities env userId noteId noteContent w))
       = calls w ++ CallExtract noteContent :: more
       /\ (more = []
           \/ (window <> []
               /\ more = [CallRank noteContent (map n_content window)])).
Proof.
  intro window. split.
  - unfold window, candidate_window. apply firstn_le_length.
  - remember (linkNoteToEntities env userId noteId noteContent w) as r eqn:Hr.
    unfold linkNoteToEntities, try_catch in Hr. unfold bind at 1 in Hr.
    pose proof (extractEntities_calls env noteContent w) as Hfirst.
    assert (Hextract : respects (untouched notes)
                         (AIService.extractEntities env noteContent))
      by frame_untouched notes.
    specialize (Hextract w). unfold untouched in Hextract.
    destruct (AIService.extractEntities env noteContent w) as [[ents | e] w1];
      cbn [snd] in Hfirst, Hextract.
    2:{ subst r. exists []. split; [exact Hfirst | left; reflexivity]. }
    unfold bind at 1 in Hr.
    assert (Hpeople : respects (untouched notes)
                        (link_named_people env userId noteId ents))
      by frame_untouched notes.
    assert (Hquiet : respects same_calls
                       (link_named_people env userId noteId ents))
      by (unfold_services; frame_with same_calls_refl same_calls_trans).
    specialize (Hpeople w1). specialize (Hquiet w1).
    unfold untouched in Hpeople. unfold same_calls in Hquiet.
    destruct (link_named_people env userId noteId ents w1) as [[[] | e] w2];
      cbn [snd] in Hpeople, Hquiet.
    2:{ subst r. exists []. split; [| left; reflexivity].
        cbn. rewrite Hquiet. exact Hfirst. }
    unfold bind at 1 in Hr.
    pose proof (link_related_notes_calls env userId noteId noteContent w2)
      as Hcalls.
    rewrite (candidate_window_notes (store w) (store w2)) in Hcalls
      by congruence.
    fold window in Hcalls.
    destruct (link_related_notes env userId noteId noteContent w2)
      as [[[] | e] w3]; subst r; cbn [snd] in Hcalls;
      unfold logger.info, logger.error; cbn [snd calls];
      (destruct Hcalls as [Hsame | [Hne Hrank]];
       [ exists []; split; [| left; reflexivity];
         rewrite Hsame, Hquiet; exact Hfirst
       | exists [CallRank noteContent (map n_content window)];
         split; [| right; split; [exact Hne | reflexivity]];
         rewrite Hrank, Hquiet, Hfirst, <- app_assoc; reflexivity ]).
Qed.

(** ** Who gets linked to a person *)

Lemma prefix_spec (p : string) :
  forall s, String.prefix p s = true <-> exists rest, s = (p ++ rest)%string.
Proof.
  induction p as [| a p IH]; intro s.
  - destruct s; cbn; split; intros _; try reflexivity; eexists; reflexivity.
  - destruct s as [| b s]; cbn.
    + split; [discriminate | intros [rest H]; discriminate H].
    + destruct (ascii_dec a b) as [-> | Hneq].
      * rewrite IH. split; intros [rest H]; exists rest; congruence.
      * split; [discriminate | intros [rest H]; congruence].
Qed.

Lemma includes_spec (s pat : string) :
  includes s pat = true
  <-> exists before behind, s = (before ++ pat ++ behind)%string.
Proof.
  induction s as [| c s IH].
  - cbn [includes]. rewrite orb_false_r, prefix_spec. split.
    + intros [rest H]. exists EmptyString, rest. exact H.
    + intros [before [behind H]].
      destruct before; [exists behind; exact H | discriminate H].
  - cbn [includes]. rewrite orb_true_iff, prefix_spec, IH. split.
    + intros [[rest H] | [before [behind H]]].
      * exists EmptyString, rest. exact H.
      * exists (String c before), behind. cbn. rewrite H. reflexivity.
    + intros [before [behind H]]. destruct before as [| c' before].
      * left. exists behind. exact H.
      * right. exists before, behind. cbn in H. congruence.
Qed.

Lemma add_all_In_iff (ids : list ObjectId) :
  forall arr x, In x (add_all ids arr) <-> In x arr \/ In x ids.
Proof.
  intros arr x. split.
  - revert arr. induction ids as [| id ids IH]; intros arr H; [left; exact H |].
    change (add_all (id :: ids) arr) with (add_all ids (add_absent arr id))
      in H.
    apply IH in H. destruct H as [H | H]; [| right; right; exact H].
    unfold add_absent in H. destruct (id_includes arr id); [left; exact H |].
    apply in_app_or in H. destruct H as [H | [H | []]];
      [left; exact H | right; left; exact H].
  - intros [H | H]; [apply add_all_incl | apply add_all_In]; exact H.
Qed.

Lemma mentioning_notes_In (env : Env) (personName : string) (allNotes : list Note)
  (id : ObjectId) :
  In id (mentioning_notes env personName allNotes)
  <-> exists n, In n allNotes /\ n_id n = id
                /\ mentions env (n_content n) personName.
Proof.
  unfold mentioning_notes, mentions. rewrite in_map_iff. split.
  - intros [n [Hid Hin]]. apply filter_In in Hin. destruct Hin as [Hin Hinc].
    exists n. repeat split; try assumption. apply includes_spec. exact Hinc.
  - intros [n [Hin [Hid Hm]]]. exists n. split; [exact Hid |].
    apply filter_In. split; [exact Hin | apply includes_spec; exact Hm].
Qed.

Lemma mentioning_meetings_In (env : Env) (personName : string)
  (allMeetings : list Meeting) (id : ObjectId) :
  In id (mentioning_meetings env personName allMeetings)
  <-> exists m, In m allMeetings /\ m_id m = id
                /\ mentions env (m_title m) personName.
Proof.
  unfold mentioning_meetings, mentions. rewrite in_map_iff. split.
  - intros [m [Hid Hin]]. apply filter_In in Hin. destruct Hin as [Hin Hinc].
    exists m. repeat split; try assumption. apply includes_spec. exact Hinc.
  - intros [m [Hin [Hid Hm]]]. exists m. split; [exact Hid |].
    apply filter_In. split; [exact Hin | apply includes_spec; exact Hm].
Qed.

(** The person found after a run in which nothing fails. *)
Lemma linkPerson_saved (env : Env) (userId personId personName : string)
  (person : Person) (w : World) :
  oid_valid env userId = true ->
  oid_valid env personId = true ->
  find (fun p => String.eqb (p_id p) personId) (people (store w))
  = Some person ->
  persist_ok env (DPerson (linked_person env personName (store w) userId person))
  = true ->
  find (fun p => String.eqb (p_id p) personId)
       (people (store (snd (linkPersonToRelevantData env userId personId
                              personName w))))
  = Some (linked_person env personName (store w) userId person).
Proof.
  intros Huser Hperson Hfind Hpersist.
  rewrite linkPerson_store, Huser, Hperson, Hfind, Hpersist.
  cbn [andb people].
  apply find_replace_by with (cur := person); [exact Hfind |].
  rewrite linked_person_eq. cbn. eapply find_key. exact Hfind.
Qed.

(** X11.  After a run of linkPersonToRelevantData in which nothing fails,
    the person holds exactly its former links and the ids of the notes,
    among the first hundred of the owner, whose content mentions the name:
    the content put in lower case by the runtime holds the name put in lower
    case by the runtime.  Likewise its meetings are the former ones and
    those, among the first hundred of the owner, whose title mentions the
    name.  Name, owner and id of the person are unchanged. *)
Theorem linkPerson_links_what_mentions
  (env : Env) (userId personId personName : string)
  (person : Person) (w : World) :
  oid_valid env userId = true ->
  oid_valid env personId = true ->
  find (fun p => String.eqb (p_id p) personId) (people (store w))
  = Some person ->
  persist_ok env (DPerson (linked_person env personName (store w) userId person))
  = true ->
  exists saved,
    find (fun p => String.eqb (p_id p) personId)
         (people (store (snd (linkPersonToRelevantData env userId personId
                                personName w))))
    = Some saved
    /\ p_id saved = p_id person
    /\ p_userId saved = p_userId person
    /\ p_name saved = p_name person
    /\ (forall id,
          In id (p_linkedNotes saved)
          <-> In id (p_linkedNotes person)
              \/ exists n, In n (owner_notes (store w) userId 100)
                           /\ n_id n = id
                           /\ mentions env (n_content n) personName)
    /\ (forall id,
          In id (p_meetings saved)
          <-> In id (p_meetings person)
              \/ exists m, In m (owner_meetings (store w) userId 100)
                           /\ m_id m = id
                           /\ mentions env (m_title m) personName).
Proof.
  intros Huser Hperson Hfind Hpersist.
  exists (linked_person env personName (store w) userId person).
  split; [apply linkPerson_saved; assumption |].
  rewrite linked_person_eq. cbn.
  repeat split; try reflexivity.
  - intro H. apply add_all_In_iff in H.
    destruct H as [H | H]; [left; exact H | right].
    apply mentioning_notes_In. exact H.
  - intro H. apply add_all_In_iff.
    destruct H as [H | H]; [left; exact H | right].
    apply mentioning_notes_In. exact H.
  - intro H. apply add_all_In_iff in H.
    destruct H as [H | H]; [left; exact H | right].
    apply mentioning_meetings_In. exact H.
  - intro H. apply add_all_In_iff.
    destruct H as [H | H]; [left; exact H | right].
    apply mentioning_meetings_In. exact H.
Qed.

(** The theorem in the scenario: John is mentioned by the first two notes
    and by the meeting; the second note spells the name in lower case. *)
Lemma linkPerson_links_what_mentions_witness :
  exists saved,
    find (fun p => String.eqb (p_id p) Scenario.john_id)
         (people (store (snd (linkPersonToRelevantData Scenario.env0
                                Scenario.owner Scenario.john_id "John"
                                Scenario.world0))))
    = Some saved
    /\ p_name saved = "John"
    /\ In Scenario.note2_id (p_linkedNotes saved)
    /\ ~ In Scenario.note3_id (p_linkedNotes saved).
Proof.
  destruct (linkPerson_links_what_mentions Scenario.env0 Scenario.owner
              Scenario.john_id "John" Scenario.john Scenario.world0
              eq_refl eq_refl eq_refl eq_refl)
    as [saved [Hfound [_ [_ [Hname [Hnotes _]]]]]].
  exists saved. split; [exact Hfound | split; [exact Hname | split]].
  - apply Hnotes. right. exists Scenario.note2.
    split; [right; left; reflexivity | split; [reflexivity |]].
    exists "budget review with "%string, EmptyString. reflexivity.
  - intro Hin. apply Hnotes in Hin.
    destruct Hin as [[] | [n [Hn [Hid [before [behind Hm]]]]]].
    destruct Hn as [<- | [<- | [<- | []]]]; try discriminate Hid.
    assert (Hinc : includes (lower_case Scenario.env0
                               (n_content Scenario.note3))
                            (lower_case Scenario.env0 "John") = true)
      by (apply includes_spec; exists before, behind; exact Hm).
    discriminate Hinc.
Defined.

(** X12.  A person with the empty name is mentioned by every text: after a
    run in which nothing fails it is linked to each of the first hundred
    notes and each of the first hundred meetings of the owner. *)
Theorem linkPerson_empty_name_links_all
  (env : Env) (userId personId : string) (person : Person) (w : World) :
  oid_valid env userId = true ->
  oid_valid env personId = true ->
  find (fun p => String.eqb (p_id p) personId) (people (store w))
  = Some person ->
  persist_ok env (DPerson (linked_person env "" (store w) userId person)) = true ->
  exists saved,
    find (fun p => String.eqb (p_id p) personId)
         (people (store (snd (linkPersonToRelevantData env userId personId
                                "" w))))
    = Some saved
    /\ (forall n, In n (owner_notes (store w) userId 100) ->
                  In (n_id n) (p_linkedNotes saved))
    /\ (forall m, In m (owner_meetings (store w) userId 100) ->
                  In (m_id m) (p_meetings saved)).
Proof.
  intros Huser Hperson Hfind Hpersist.
  exists (linked_person env "" (store w) userId person).
  split; [apply linkPerson_saved; assumption |].
  rewrite linked_person_eq. cbn [p_linkedNotes p_meetings].
  split.
  - intros n Hn. apply add_all_In. apply mentioning_notes_In.
    exists n. repeat split; [exact Hn |].
    exists EmptyString, (lower_case env (n_content n)).
    rewrite (lower_case_empty env). reflexivity.
  - intros m Hm. apply add_all_In. apply mentioning_meetings_In.
    exists m. repeat split; [exact Hm |].
    exists EmptyString, (lower_case env (m_title m)).
    rewrite (lower_case_empty env). reflexivity.
Qed.

(** The theorem in the scenario, John's name taken away. *)
Lemma linkPerson_empty_name_links_all_witness :
  exists saved,
    find (fun p => String.eqb (p_id p) Scenario.john_id)
         (people (store (snd (linkPersonToRelevantData Scenario.env0
                                Scenario.owner Scenario.john_id ""
                                Scenario.world0))))
    = Some saved
    /\ In Scenario.note3_id (p_linkedNotes saved).
Proof.
  destruct (linkPerson_empty_name_links_all Scenario.env0 Scenario.owner
              Scenario.john_id Scenario.john Scenario.world0
              eq_refl eq_refl eq_refl eq_refl)
    as [saved [Hfound [Hnotes _]]].
  exists saved. split; [exact Hfound |].
  apply (Hnotes Scenario.note3). right. right. left. reflexivity.
Defined.

(** ** Reminders: rejection, repetition, nothing to do *)

Lemma save_reminders_prefix (env : Env) (userId meetingId : string)
  (due : Date) (items : list string) :
  forall w : World,
    oid_valid env userId = true ->
    reminders (store (snd (forEach items (fun actionItem =>
      uid <- Db.newObjectId env userId ;;
      Db.Reminder_save env (action_reminder uid meetingId due actionItem)) w)))
    = reminders (store w)
      ++ map (action_reminder userId meetingId due)
             (accepted_items env (action_reminder userId meetingId due) items).
Proof.
  induction items as [| item items IH]; intros w Huser.
  - cbn. symmetry. apply app_nil_r.
  - cbn [forEach accepted_items].
    destruct (persist_ok env
                (DReminder (action_reminder userId meetingId due item)))
      eqn:Hpersist.
    + erewrite bind_ok.
      2:{ erewrite bind_ok by (apply newObjectId_ok; exact Huser).
          unfold Db.Reminder_save. rewrite Hpersist. reflexivity. }
      rewrite IH by exact Huser.
      cbn [store reminders map]. rewrite <- app_assoc. reflexivity.
    + erewrite bind_throw.
      2:{ erewrite bind_ok by (apply newObjectId_ok; exact Huser).
          unfold Db.Reminder_save. rewrite Hpersist. reflexivity. }
      cbn. symmetry. apply app_nil_r.
Qed.

(** X13.  createRemindersFromActionItems stops at the first reminder the
    database rejects and keeps those written before it: for a stored
    meeting and a valid owner, the reminders added are those of the action
    items that come before the first rejected one, in their order, all due
    three calendar days after the reading of the clock at the start of the
    run. *)
Theorem createReminders_stops_at_first_rejection
  (env : Env) (userId meetingId : string) (meeting : Meeting) (w : World) :
  oid_valid env userId = true ->
  oid_valid env meetingId = true ->
  find (fun x => String.eqb (m_id x) meetingId) (meetings (store w))
  = Some meeting ->
  let build :=
    action_reminder userId meetingId
      (JsDate.addToDate (zone env) (clock env w) 3) in
  reminders (store (snd (createRemindersFromActionItems env userId
                           meetingId w)))
  = reminders (store w)
    ++ map build (accepted_items env build (m_actionItems meeting)).
Proof.
  intros Huser Hmeeting Hfind build.
  unfold createRemindersFromActionItems, try_catch.
  erewrite bind_ok by (apply Meeting_findById_ok; exact Hmeeting).
  rewrite Hfind.
  destruct (m_actionItems meeting) as [| item items] eqn:Eitems.
  - cbn. symmetry. apply app_nil_r.
  - cbn [List.length Nat.eqb]. cbv zeta.
    unfold bind at 1. unfold new_Date at 1.
    pose proof (save_reminders_prefix env userId meetingId
                  (JsDate.addToDate (zone env) (clock env w) 3)
                  (item :: items) w Huser) as Hsaved.
    unfold bind at 1.
    match type of Hsaved with
    | context [snd ?run] => destruct run as [[[] | e] w1]
    end; cbn [snd] in Hsaved; unfold logger.info, logger.error;
      cbn [snd store reminders]; exact Hsaved.
Qed.

(** The theorem with a database that rejects the second of three
    reminders: the first is kept, the third is never tried. *)
Lemma createReminders_stops_at_first_rejection_witness :
  reminders
    (store (snd (createRemindersFromActionItems Variants.env_rejects_review
                   Scenario.owner Scenario.meeting1_id
                   Variants.world_three_items)))
  = [action_reminder Scenario.owner Scenario.meeting1_id 259200000%Z
                     "Call John"].
Proof.
  apply (createReminders_stops_at_first_rejection Variants.env_rejects_review
           Scenario.owner Scenario.meeting1_id Variants.meeting_three_items
           Variants.world_three_items eq_refl eq_refl eq_refl).
Defined.

(** A run of createRemindersFromActionItems in which nothing fails. *)
Lemma createReminders_ok (env : Env) (userId meetingId : string)
  (meeting : Meeting) (w : World) :
  oid_valid env userId = true ->
  oid_valid env meetingId = true ->
  find (fun x => String.eqb (m_id x) meetingId) (meetings (store w))
  = Some meeting ->
  (forall r, persist_ok env (DReminder r) = true) ->
  m_actionItems meeting <> [] ->
  createRemindersFromActionItems env userId meetingId w
  = (Ok tt,
     mkWorld
       (mkStore (notes (store w)) (people (store w)) (meetings (store w))
          (reminders (store w)
           ++ map (action_reminder userId meetingId
                     (JsDate.addToDate (zone env) (clock env w) 3))
                  (m_actionItems meeting)))
       (log w ++ [LogInfo ("Created reminders from meeting " ++ meetingId)])
       (calls w)).
Proof.
  intros Huser Hmeeting Hfind Hpersist Hsome.
  unfold createRemindersFromActionItems, try_catch.
  erewrite bind_ok by (apply Meeting_findById_ok; exact Hmeeting).
  rewrite Hfind.
  destruct (m_actionItems meeting) as [| item items] eqn:Eitems;
    [contradiction Hsome; reflexivity |].
  cbn [List.length Nat.eqb]. cbv zeta.
  unfold bind at 1. unfold new_Date at 1.
  erewrite bind_ok by (apply save_reminders_ok; assumption).
  reflexivity.
Qed.

(** X14.  createRemindersFromActionItems is not idempotent: a second run on
    the same meeting, nothing failing, writes a reminder for every action
    item once more, after those of the first run.  Each run dates its
    reminders from its own reading of the clock. *)
Theorem createReminders_twice_doubles
  (env : Env) (userId meetingId : string) (meeting : Meeting) (w : World) :
  oid_valid env userId = true ->
  oid_valid env meetingId = true ->
  find (fun x => String.eqb (m_id x) meetingId) (meetings (store w))
  = Some meeting ->
  (forall r, persist_ok env (DReminder r) = true) ->
  let run := createRemindersFromActionItems env userId meetingId in
  let once := snd (run w) in
  let added := fun at_world : World =>
    map (action_reminder userId meetingId
           (JsDate.addToDate (zone env) (clock env at_world) 3))
        (m_actionItems meeting) in
  reminders (store (snd (run once)))
  = reminders (store w) ++ added w ++ added once.
Proof.
  intros Huser Hmeeting Hfind Hpersist run once added.
  destruct (m_actionItems meeting) as [| item items] eqn:Eitems.
  - assert (Hnone : forall w0,
              find (fun x => String.eqb (m_id x) meetingId)
                   (meetings (store w0)) = Some meeting ->
              run w0 = (Ok tt, w0)).
    { intros w0 Hfind0. unfold run, createRemindersFromActionItems, try_catch.
      erewrite bind_ok by (apply Meeting_findById_ok; exact Hmeeting).
      rewrite Hfind0. cbv beta iota. rewrite Eitems. reflexivity. }
    unfold once. rewrite (Hnone w Hfind). cbn [snd]. rewrite (Hnone w Hfind).
    unfold added. cbn. symmetry. apply app_nil_r.
  - assert (Hsome : m_actionItems meeting <> [])
      by (rewrite Eitems; discriminate).
    assert (Honce : run w
                    = (Ok tt,
                       mkWorld
                         (mkStore (notes (store w)) (people (store w))
                            (meetings (store w))
                            (reminders (store w) ++ added w))
                         (log w ++ [LogInfo ("Created reminders from meeting "
                                             ++ meetingId)])
                         (calls w))).
    { unfold run, added. rewrite <- Eitems.
      apply (createReminders_ok env userId meetingId meeting w);
        assumption. }
    unfold once. rewrite Honce. cbn [snd]. unfold run.
    rewrite (createReminders_ok env userId meetingId meeting)
      by assumption.
    cbn [snd store reminders]. unfold added. rewrite Eitems.
    rewrite <- app_assoc. reflexivity.
Qed.

(** The theorem on a host whose clock moves on between the runs: four
    reminders after two runs, those of the second run due two seconds after
    those of the first. *)
Lemma createReminders_twice_doubles_witness :
  map r_dueDate
    (reminders
       (store (snd (createRemindersFromActionItems Hosts.env_ticking
                      Scenario.owner Scenario.meeting1_id
                      (snd (createRemindersFromActionItems Hosts.env_ticking
                              Scenario.owner Scenario.meeting1_id
                              Variants.world_two_items))))))
  = [345600000; 345600000; 345602000; 345602000]%Z.
Proof.
  rewrite (createReminders_twice_doubles Hosts.env_ticking Scenario.owner
             Scenario.meeting1_id Variants.meeting_two_items
             Variants.world_two_items
             eq_refl eq_refl eq_refl (fun _ => eq_refl)).
  reflexivity.
Defined.

(** X15.  With nothing to do, createRemindersFromActionItems does nothing
    at all: for a meeting that is not stored, or one without action items,
    the world is left as it was, without a log line. *)
Theorem createReminders_nothing_to_do
  (env : Env) (userId meetingId : string) (w : World) :
  oid_valid env meetingId = true ->
  match find (fun x => String.eqb (m_id x) meetingId) (meetings (store w))
  with
  | Some meeting => m_actionItems meeting = []
  | None => True
  end ->
  createRemindersFromActionItems env userId meetingId w = (Ok tt, w).
Proof.
  intros Hmeeting Hnothing.
  unfold createRemindersFromActionItems, try_catch.
  erewrite bind_ok by (apply Meeting_findById_ok; exact Hmeeting).
  destruct (find (fun x => String.eqb (m_id x) meetingId)
                 (meetings (store w))) as [meeting |]; [| reflexivity].
  cbv beta iota. rewrite Hnothing. reflexivity.
Qed.

(** The theorem in the scenario: the meeting has no action item yet. *)
Lemma createReminders_nothing_to_do_witness :
  createRemindersFromActionItems Scenario.env0 Scenario.owner
    Scenario.meeting1_id Scenario.world0
  = (Ok tt, Scenario.world0).
Proof.
  apply (createReminders_nothing_to_do Scenario.env0 Scenario.owner
           Scenario.meeting1_id Scenario.world0 eq_refl).
  reflexivity.
Defined.

(** ** The summaries *)

(** X16.  The daily summary depends on the local calendar day only: two
    dates that fall on the same day of the host's zone give the same run of
    generateDailySummary, remote call and result included.  On a host whose
    offset from UTC never changes, the window of a date holds the date. *)
Theorem dailySummary_same_day
  (env : Env) (userId : string) (d d' : Date) (w : World) :
  (JsDate.Day (JsDate.LocalTime (zone env) d')
   = JsDate.Day (JsDate.LocalTime (zone env) d) ->
   SummaryService.generateDailySummary env userId (Some d') w
   = SummaryService.generateDailySummary env userId (Some d) w)
  /\ ((forall t, JsDate.tza_local (zone env) t
                 = JsDate.tza_utc (zone env) d) ->
      (JsDate.setHours (zone env) d 0 0 0 0 <= d
       <= JsDate.setHours (zone env) d 23 59 59 999)%Z).
Proof.
  split.
  - intro H.
    unfold SummaryService.generateDailySummary. cbv zeta.
    unfold bind at 1 3. unfold ret at 1 4.
    unfold JsDate.setHours. rewrite H. reflexivity.
  - intro Hfixed.
    unfold JsDate.setHours, JsDate.UTC, JsDate.Day, JsDate.LocalTime,
      JsDate.msPerDay, JsDate.msPerHour, JsDate.msPerMinute.
    rewrite !Hfixed.
    pose proof (Z.div_mod (d + JsDate.tza_utc (zone env) d) 86400000
                  ltac:(lia)) as Hd.
    pose proof (Z.mod_pos_bound (d + JsDate.tza_utc (zone env) d) 86400000
                  ltac:(lia)) as Hr.
    lia.
Qed.

(** The theorem on a host five and a half hours ahead of UTC: 19:26 of the
    first UTC day and 03:46 of the second are the same local day. *)
Lemma dailySummary_same_day_witness :
  SummaryService.generateDailySummary Hosts.env_kolkata Scenario.owner
    (Some 100000000%Z) Scenario.world0
  = SummaryService.generateDailySummary Hosts.env_kolkata Scenario.owner
      (Some 70000000%Z) Scenario.world0
  /\ (66600000 <= 70000000 <= 152999999)%Z.
Proof.
  split.
  - apply (proj1 (dailySummary_same_day Hosts.env_kolkata Scenario.owner
                    70000000%Z 100000000%Z Scenario.world0)).
    reflexivity.
  - exact (proj2 (dailySummary_same_day Hosts.env_kolkata
                    Scenario.owner 70000000%Z 70000000%Z
                    Scenario.world0) (fun _ => eq_refl)).
Defined.

(** X17.  Unlike the linking entry points, generateDailySummary raises to
    its caller: with an owner id that is no ObjectId it throws before any
    query, logs the error once and calls no capability. *)
Theorem dailySummary_invalid_owner_raises
  (env : Env) (userId : string) (date : option Date) (w : World) :
  oid_valid env userId = false ->
  SummaryService.generateDailySummary env userId date w
  = (Throw BSONError,
     mkWorld (store w)
             (log w ++ [LogError "Error generating daily summary:" BSONError])
             (calls w)).
Proof.
  intro H.
  unfold SummaryService.generateDailySummary, try_catch. cbv zeta.
  destruct date as [d |].
  - erewrite bind_ok by reflexivity.
    erewrite bind_throw by (apply newObjectId_invalid; exact H).
    reflexivity.
  - erewrite bind_ok by reflexivity.
    erewrite bind_throw by (apply newObjectId_invalid; exact H).
    reflexivity.
Qed.

(** The theorem in the scenario: the owner id is missing. *)
Lemma dailySummary_invalid_owner_raises_witness :
  fst (SummaryService.generateDailySummary Scenario.env0 "" None
         Scenario.world0)
  = Throw BSONError.
Proof.
  rewrite (dailySummary_invalid_owner_raises Scenario.env0 "" None
             Scenario.world0 eq_refl).
  reflexivity.
Defined.

(** *** The weekly summary *)

Section WeeklyProperties.

Variable env : Env.
Variable n_tags : Note -> list string.
Variable format_MMMdd : Date -> string.


(** X19.  generateWeeklySummary only reads: the database is the same
    afterwards, whatever happens. *)
Theorem weeklySummary_reads_only (userId : string) (w : World) :
  store (snd (SummaryService.generateWeeklySummary env n_tags format_MMMdd
                userId w))
  = store w.
Proof.
  assert (H : respects (untouched (fun s => s))
                (SummaryService.generateWeeklySummary env n_tags format_MMMdd
                   userId)).
  { unfold SummaryService.generateWeeklySummary,
      SummaryService.Note_find_since, SummaryService.Meeting_find_since.
    frame_untouched (fun s : Store => s). }
  exact (H w).
Qed.

End WeeklyProperties.


(** X20.  For a week with notes, the weekly outline is the heading of the
    week, the two counts, and under "Key Topics" one line for every tag of
    the week's notes, each tag once. *)
Theorem weekly_topics_once (n_tags : Note -> list string)
  (format_MMMdd : Date -> string) (weekStart : Date)
  (weekNotes : list Note) (weekMeetings : list Meeting) :
  weekNotes <> [] ->
  exists topics : list string,
    SummaryService.compile_week n_tags format_MMMdd weekStart weekNotes
      weekMeetings
    = ("## Week of " ++ format_MMMdd weekStart ++ nl
       ++ nl ++ "Notes created: "
       ++ SummaryService.show_nat (List.length weekNotes) ++ nl
       ++ "Meetings: "
       ++ SummaryService.show_nat (List.length weekMeetings) ++ nl ++ nl
       ++ "### Key Topics" ++ nl
       ++ String.concat nl (map (fun tag => "- " ++ tag) topics))%string
    /\ NoDup topics
    /\ forall tag,
         In tag topics <-> exists n, In n weekNotes /\ In tag (n_tags n).
Proof.
  intro Hsome.
  exists (SummaryService.Set_from (flat_map n_tags weekNotes)).
  split; [| split].
  - unfold SummaryService.compile_week. cbv zeta.
    destruct weekNotes as [| n ns]; [contradiction Hsome; reflexivity |].
    rewrite !string_app_assoc. reflexivity.
  - change (SummaryService.Set_from (flat_map n_tags weekNotes))
      with (add_all (flat_map n_tags weekNotes) []).
    apply add_all_NoDup. constructor.
  - intro tag.
    change (SummaryService.Set_from (flat_map n_tags weekNotes))
      with (add_all (flat_map n_tags weekNotes) []).
    rewrite add_all_In_iff, in_flat_map. split.
    + intros [[] | H]. exact H.
    + intro H. right. exact H.
Qed.

(** The theorem on the three notes of the scenario, the first two tagged
    "budget" and the last one "home" and "budget". *)
Lemma weekly_topics_once_witness :
  (exists topics : list string,
     SummaryService.compile_week Hosts.scenario_tags (fun _ => "Jan 01") 0%Z
       [Scenario.note1; Scenario.note2; Scenario.note3] [Scenario.meeting1]
     = ("## Week of Jan 01

Notes created: 3
Meetings: 1

### Key Topics
" ++ String.concat nl (map (fun tag => "- " ++ tag) topics))%string
     /\ NoDup topics
     /\ In "home" topics)
  /\ SummaryService.compile_week Hosts.scenario_tags (fun _ => "Jan 01") 0%Z
       [Scenario.note1; Scenario.note2; Scenario.note3] [Scenario.meeting1]
     = "## Week of Jan 01

Notes created: 3
Meetings: 1

### Key Topics
- budget
- home".
Proof.
  split; [| reflexivity].
  destruct (weekly_topics_once Hosts.scenario_tags (fun _ => "Jan 01") 0%Z
              [Scenario.note1; Scenario.note2; Scenario.note3]
              [Scenario.meeting1])
    as [topics [Houtline [Hnodup Htags]]]; [discriminate |].
  exists topics. split; [exact Houtline | split; [exact Hnodup |]].
  apply Htags. exists Scenario.note3.
  split; [right; right; left; reflexivity | left; reflexivity].
Defined.

(** ** A meeting that is not stored *)

(** X21.  Called for a meeting that is not in the database,
    linkMeetingToData changes no document, even when the action items are
    derived and the similarity capability answers. *)
Theorem linkMeeting_unknown_meeting
  (env : Env) (userId meetingId meetingNotes : string) (w : World) :
  find (fun x => String.eqb (m_id x) meetingId) (meetings (store w)) = None ->
  store (snd (linkMeetingToData env userId meetingId meetingNotes w))
  = store w.
Proof.
  intro Hfind.
  unfold linkMeetingToData, try_catch.
  destruct (remote_actions env meetingNotes) as [items |] eqn:Hitems.
  2:{ unfold AIService.generateActionItems, try_catch, bind, record_call,
        of_reply.
      rewrite Hitems. reflexivity. }
  erewrite bind_ok by (apply generateActionItems_ok; exact Hitems).
  destruct (oid_valid env meetingId) eqn:Hmeeting.
  2:{ erewrite bind_throw by (apply Meeting_findById_invalid; exact Hmeeting).
      reflexivity. }
  erewrite bind_ok by (apply Meeting_findById_ok; exact Hmeeting).
  cbn [store meetings]. rewrite Hfind. cbv beta iota.
  erewrite bind_ok by reflexivity.
  match goal with
  | |- context [bind ?m ?f ?w1] =>
      assert (Hrest : respects (untouched (fun s => s)) (bind m f))
        by (cbv beta iota; frame_untouched (fun s : Store => s));
      specialize (Hrest w1); unfold untouched in Hrest;
      destruct (bind m f w1) as [[[] | e] w2]
  end; exact Hrest.
Qed.

(** The theorem in the scenario, for a meeting id that no meeting has. *)
Lemma linkMeeting_unknown_meeting_witness :
  store (snd (linkMeetingToData Scenario.env0 Scenario.owner
                "64b0000000000000000000d9" Scenario.meeting1_text
                Scenario.world0))
  = Scenario.store0.
Proof.
  apply (linkMeeting_unknown_meeting Scenario.env0 Scenario.owner
           "64b0000000000000000000d9" Scenario.meeting1_text
           Scenario.world0).
  reflexivity.
Defined.

(** ** Records that are not stored *)

(** X22.  Called for a note id that no stored note has, linkNoteToEntities
    leaves the notes as they are, whatever the capabilities answer. *)
Theorem linkNote_unknown_note
  (env : Env) (userId noteId noteContent : string) (w : World) :
  find (fun x => String.eqb (n_id x) noteId) (notes (store w)) = None ->
  notes (store (snd (linkNoteToEntities env userId noteId noteContent w)))
  = notes (store w).
Proof.
  intro Hnone.
  destruct (linkNoteToEntities_notes env userId noteId noteContent w)
    as [Hsame | [cur [cs [Hfind _]]]]; [exact Hsame |].
  rewrite Hnone in Hfind. discriminate Hfind.
Qed.

(** The theorem in the scenario, for a note id that no note has. *)
Lemma linkNote_unknown_note_witness :
  notes (store (snd (linkNoteToEntities Scenario.env0 Scenario.owner
                       "64b000000000000000000009" Scenario.note1_text
                       Scenario.world0)))
  = [Scenario.note1; Scenario.note2; Scenario.note3].
Proof.
  apply (linkNote_unknown_note Scenario.env0 Scenario.owner
           "64b000000000000000000009" Scenario.note1_text Scenario.world0).
  reflexivity.
Defined.

Lemma Person_findById_ok (env : Env) (id : string) (w : World) :
  oid_valid env id = true ->
  Db.Person_findById env id w
  = (Ok (find (fun p => String.eqb (p_id p) id) (people (store w))), w).
Proof.
  intro H. unfold Db.Person_findById, Db.castObjectId, bind.
  rewrite H. reflexivity.
Qed.

(** X23.  Called with valid identifiers for a person that is not stored,
    linkPersonToRelevantData does nothing at all: the world is left as it
    was, without a log line. *)
Theorem linkPerson_unknown_person
  (env : Env) (userId personId personName : string) (w : World) :
  oid_valid env userId = true ->
  oid_valid env personId = true ->
  find (fun p => String.eqb (p_id p) personId) (people (store w)) = None ->
  linkPersonToRelevantData env userId personId personName w = (Ok tt, w).
Proof.
  intros Huser Hperson Hnone.
  unfold linkPersonToRelevantData, try_catch.
  erewrite bind_ok by (apply newObjectId_ok; exact Huser).
  erewrite bind_ok by apply Note_find_ok.
  erewrite bind_ok by (apply newObjectId_ok; exact Huser).
  erewrite bind_ok by apply Meeting_find_ok.
  erewrite bind_ok by (apply Person_findById_ok; exact Hperson).
  rewrite Hnone. reflexivity.
Qed.

(** The theorem in the scenario, for a person id that no person has. *)
Lemma linkPerson_unknown_person_witness :
  linkPersonToRelevantData Scenario.env0 Scenario.owner
    "64b0000000000000000000c9" "John" Scenario.world0
  = (Ok tt, Scenario.world0).
Proof.
  apply (linkPerson_unknown_person Scenario.env0 Scenario.owner
           "64b0000000000000000000c9" "John" Scenario.world0);
    reflexivity.
Defined.

(** * Failures and the handler of each entry point *)

(** ** Invalid identifiers *)

Lemma throws_bind_l {A B} (m : M A) (f : A -> M B) :
  throws m -> throws (bind m f).
Proof.
  intros Hm w. destruct (Hm w) as [e He]. exists e.
  unfold bind. destruct (m w) as [[a | e'] w1]; cbn in He |- *;
    [discriminate He | injection He as ->; reflexivity].
Qed.

Lemma throws_bind_r {A B} (m : M A) (f : A -> M B) :
  (forall a, throws (f a)) -> throws (bind m f).
Proof.
  intros Hf w. unfold bind. destruct (m w) as [[a | e] w1].
  - apply Hf.
  - exists e. reflexivity.
Qed.

Lemma throws_newObjectId (env : Env) (s : string) :
  oid_valid env s = false -> throws (Db.newObjectId env s).
Proof.
  intros H w. exists BSONError. unfold Db.newObjectId. rewrite H. reflexivity.
Qed.

Lemma throws_castObjectId (env : Env) (s : string) :
  oid_valid env s = false -> throws (Db.castObjectId env s).
Proof.
  intros H w. exists CastError. unfold Db.castObjectId. rewrite H.
  reflexivity.
Qed.

Lemma log_grows_refl (w : World) : log_grows w w.
Proof. exists []. symmetry. apply app_nil_r. Qed.

Lemma log_grows_trans (w1 w2 w3 : World) :
  log_grows w1 w2 -> log_grows w2 w3 -> log_grows w1 w3.
Proof.
  intros [m1 H1] [m2 H2]. exists (m1 ++ m2).
  rewrite H2, H1. symmetry. apply app_assoc.
Qed.

(** A step that writes one document or one line, for the log. *)
Ltac log_step :=
  let w := fresh "w" in
  intro w;
  unfold Db.Note_save, Db.Person_save, Db.Meeting_save, Db.Reminder_save,
    record_call, logger.info, logger.error, get_store, put_store, bind;
  repeat match goal with
         | |- context [persist_ok ?env ?d] => destruct (persist_ok env d)
         end;
  unfold log_grows, throw;
  cbn [fst snd store log calls];
  first [ eexists; reflexivity
        | exists []; symmetry; apply app_nil_r ].

Ltac frame_log :=
  unfold_services;
  frame log_grows_refl log_grows_trans
        ltac:(first [ apply (respects_silent _ log_grows_refl);
                        apply silent_push_meeting_notes
                    | log_step ]).

(** When the body cannot return, the handler has the last word in the
    log. *)
Lemma handler_logs_last (m : M unit) (msg : string) (w : World) :
  throws m ->
  respects log_grows m ->
  exists e front,
    log (snd (try_catch m (fun e => logger.error msg e) w))
    = log w ++ front ++ [LogError msg e].
Proof.
  intros Hthrows Hlog.
  destruct (Hthrows w) as [e He]. destruct (Hlog w) as [front Hfront].
  exists e, front. unfold try_catch.
  destruct (m w) as [[[] | e'] w1]; cbn in He, Hfront |- *;
    [discriminate He |].
  injection He as ->. rewrite Hfront, <- app_assoc. reflexivity.
Qed.

Lemma linkNote_body_throws (env : Env) (userId noteId noteContent : string) :
  oid_valid env userId = false \/ oid_valid env noteId = false ->
  throws (entities <- AIService.extractEntities env noteContent ;;
          link_named_people env userId noteId entities ;;
          link_related_notes env userId noteId noteContent ;;
          logger.info ("Linked note " ++ noteId ++ " to related entities")).
Proof.
  intro Hinvalid.
  apply throws_bind_r. intro entities.
  apply throws_bind_r. intros [].
  apply throws_bind_l. unfold link_related_notes.
  destruct (oid_valid env userId) eqn:Huser.
  - destruct Hinvalid as [Hu | Hnote]; [discriminate Hu |].
    apply throws_bind_r. intro uid.
    apply throws_bind_l. unfold Db.Note_find_others.
    apply throws_bind_l. apply throws_castObjectId. exact Hnote.
  - apply throws_bind_l. apply throws_newObjectId. exact Huser.
Qed.

Lemma linkPerson_body_throws (env : Env)
  (userId personId personName : string) :
  oid_valid env userId = false \/ oid_valid env personId = false ->
  throws (uid <- Db.newObjectId env userId ;;
          allNotes <- Db.Note_find uid 100 ;;
          uid' <- Db.newObjectId env userId ;;
          allMeetings <- Db.Meeting_find uid' 100 ;;
          person <- Db.Person_findById env personId ;;
          match person with
          | None => ret tt
          | Some person =>
              let person := mention_notes env personName allNotes person in
              let person :=
                mention_meetings env personName allMeetings person in
              Db.Person_save env person ;;
              logger.info ("Linked person " ++ personId
                           ++ " to relevant data")
          end).
Proof.
  intro Hinvalid.
  destruct (oid_valid env userId) eqn:Huser.
  - destruct Hinvalid as [Hu | Hperson]; [discriminate Hu |].
    do 4 (apply throws_bind_r; intro).
    apply throws_bind_l. unfold Db.Person_findById.
    apply throws_bind_l. apply throws_castObjectId. exact Hperson.
  - apply throws_bind_l. apply throws_newObjectId. exact Huser.
Qed.

Lemma linkMeeting_body_throws (env : Env)
  (userId meetingId meetingNotes : string) :
  oid_valid env userId = false \/ oid_valid env meetingId = false ->
  throws (actionItems <- AIService.generateActionItems env meetingNotes ;;
          meeting <- Db.Meeting_findById env meetingId ;;
          meeting <- match meeting with
                     | Some meeting =>
                         let meeting :=
                           meeting_set_actionItems meeting actionItems in
                         Db.Meeting_save env meeting ;;
                         ret (Some meeting)
                     | None => ret None
                     end ;;
          uid <- Db.newObjectId env userId ;;
          allNotes <- Db.Note_find uid 50 ;;
          match allNotes with
          | _ :: _ =>
              connections <- AIService.findConnections env meetingNotes
                               (map n_content allNotes) ;;
              match meeting with
              | Some meeting =>
                  linked <- push_meeting_notes allNotes connections meeting ;;
                  Db.Meeting_save env linked
              | None => ret tt
              end
          | [] => ret tt
          end ;;
          logger.info ("Linked meeting " ++ meetingId ++ " to related data")).
Proof.
  intro Hinvalid.
  apply throws_bind_r. intro actionItems.
  destruct (oid_valid env meetingId) eqn:Hmeeting.
  - destruct Hinvalid as [Huser | Hm]; [| discriminate Hm].
    do 2 (apply throws_bind_r; intro).
    apply throws_bind_l. apply throws_newObjectId. exact Huser.
  - apply throws_bind_l. unfold Db.Meeting_findById.
    apply throws_bind_l. apply throws_castObjectId. exact Hmeeting.
Qed.

(** C3, amended: the three linking entry points return normally on every
    input and in every environment; nothing is ever raised to the caller.
    When the owner id or the record id is not a valid identifier, no run
    reaches its end: the body stops at an exception, and the last line of
    the log is the one written by the handler of the entry point. *)
Theorem linking_entry_points_never_raise
  (env : Env) (userId recordId text : string) (w : World) :
  (fst (linkNoteToEntities env userId recordId text w) = Ok tt
   /\ fst (linkPersonToRelevantData env userId recordId text w) = Ok tt
   /\ fst (linkMeetingToData env userId recordId text w) = Ok tt)
  /\ (oid_valid env userId = false \/ oid_valid env recordId = false ->
      (exists e front,
         log (snd (linkNoteToEntities env userId recordId text w))
         = log w ++ front ++ [LogError "Error linking note to entities:" e])
      /\ (exists e front,
            log (snd (linkPersonToRelevantData env userId recordId text w))
            = log w ++ front
              ++ [LogError "Error linking person to relevant data:" e])
      /\ (exists e front,
            log (snd (linkMeetingToData env userId recordId text w))
            = log w ++ front
              ++ [LogError "Error linking meeting to data:" e])).
Proof.
  split.
  - repeat split; apply try_catch_log_returns.
  - intro Hinvalid. split; [| split].
    + apply handler_logs_last.
      * apply linkNote_body_throws. exact Hinvalid.
      * frame_log.
    + apply handler_logs_last.
      * apply linkPerson_body_throws. exact Hinvalid.
      * frame_log.
    + apply handler_logs_last.
      * apply linkMeeting_body_throws. exact Hinvalid.
      * frame_log.
Qed.

(** The theorem in the scenario with the owner id missing: each entry point
    returns, and its handler has logged the rejected identifier. *)
Lemma linking_entry_points_never_raise_witness :
  (exists e front,
     log (snd (linkNoteToEntities Scenario.env0 "" Scenario.note1_id
                 Scenario.note1_text Scenario.world0))
     = [] ++ front ++ [LogError "Error linking note to entities:" e])
  /\ (exists e front,
        log (snd (linkPersonToRelevantData Scenario.env0 ""
                    Scenario.note1_id Scenario.note1_text Scenario.world0))
        = [] ++ front
          ++ [LogError "Error linking person to relevant data:" e])
  /\ (exists e front,
        log (snd (linkMeetingToData Scenario.env0 "" Scenario.note1_id
                    Scenario.note1_text Scenario.world0))
        = [] ++ front ++ [LogError "Error linking meeting to data:" e]).
Proof.
  apply (proj2 (linking_entry_points_never_raise Scenario.env0 ""
                  Scenario.note1_id Scenario.note1_text Scenario.world0)).
  left. reflexivity.
Defined.

(** ** A failing sub-step *)

Lemma save_loop_rejected (env : Env) (noteId : string)
  (person : Person) (others : list Person) (before : list Person) :
  forall w : World,
    oid_valid env noteId = true ->
    (forall p, In p before ->
       persist_ok env (DPerson (person_push_linkedNotes p noteId)) = true) ->
    persist_ok env (DPerson (person_push_linkedNotes person noteId)) = false ->
    forEach (before ++ person :: others) (fun person =>
      nid <- Db.newObjectId env noteId ;;
      Db.Person_save env (person_push_linkedNotes person nid)) w
    = (Throw PersistError,
       mkWorld (mkStore (notes (store w))
                        (save_people noteId before (people (store w)))
                        (meetings (store w)) (reminders (store w)))
               (log w) (calls w)).
Proof.
  induction before as [| p before IH]; intros w Hnote Haccepted Hrejected.
  - cbn [app forEach].
    erewrite bind_throw.
    2:{ erewrite bind_ok by (apply newObjectId_ok; exact Hnote).
        unfold Db.Person_save. rewrite Hrejected. reflexivity. }
    cbn. rewrite world_eta. reflexivity.
  - cbn [app forEach].
    erewrite bind_ok
      by (apply save_pushed_person_ok;
          [exact Hnote | apply Haccepted; left; reflexivity]).
    rewrite IH; [reflexivity | exact Hnote | | exact Hrejected].
    intros q Hq. apply Haccepted. right. exact Hq.
Qed.

Lemma link_named_people_run (env : Env) (userId noteId : string)
  (entities : Entities) (w : World) :
  oid_valid env userId = true ->
  oid_valid env noteId = true ->
  (forall p,
     In p (matched_people (store w) userId (extracted_names entities)) ->
     persist_ok env (DPerson (person_push_linkedNotes p noteId)) = true) ->
  link_named_people env userId noteId entities w
  = (Ok tt,
     mkWorld (mkStore (notes (store w))
                      (save_people noteId
                         (matched_people (store w) userId
                                         (extracted_names entities))
                         (people (store w)))
                      (meetings (store w)) (reminders (store w)))
             (log w) (calls w)).
Proof.
  intros Huser Hnote Hpersist.
  unfold link_named_people. unfold extracted_names in *.
  destruct (e_people entities) as [[| name names] |].
  - rewrite matched_people_no_names. cbn. unfold ret.
    rewrite world_eta. reflexivity.
  - unfold bind at 1. unfold Db.newObjectId at 1. rewrite Huser.
    unfold ret at 1. unfold bind at 1.
    unfold Db.Person_find_named, bind at 1, get_store, ret.
    apply save_loop_ok; [exact Hnote | exact Hpersist].
  - rewrite matched_people_no_names. cbn. unfold ret.
    rewrite world_eta. reflexivity.
Qed.

Lemma link_named_people_rejected (env : Env) (userId noteId : string)
  (entities : Entities) (before : list Person) (person : Person)
  (others : list Person) (w : World) :
  oid_valid env userId = true ->
  oid_valid env noteId = true ->
  matched_people (store w) userId (extracted_names entities)
  = before ++ person :: others ->
  (forall p, In p before ->
     persist_ok env (DPerson (person_push_linkedNotes p noteId)) = true) ->
  persist_ok env (DPerson (person_push_linkedNotes person noteId)) = false ->
  link_named_people env userId noteId entities w
  = (Throw PersistError,
     mkWorld (mkStore (notes (store w))
                      (save_people noteId before (people (store w)))
                      (meetings (store w)) (reminders (store w)))
             (log w) (calls w)).
Proof.
  intros Huser Hnote Hmatched Haccepted Hrejected.
  unfold link_named_people. unfold extracted_names in Hmatched.
  destruct (e_people entities) as [[| name names] |].
  - rewrite matched_people_no_names in Hmatched.
    destruct before; discriminate Hmatched.
  - unfold bind at 1. unfold Db.newObjectId at 1. rewrite Huser.
    unfold ret at 1. unfold bind at 1.
    unfold Db.Person_find_named, bind at 1, get_store, ret.
    unfold matched_people in Hmatched. rewrite Hmatched.
    apply save_loop_rejected; assumption.
  - rewrite matched_people_no_names in Hmatched.
    destruct before; discriminate Hmatched.
Qed.

Lemma link_related_notes_down (env : Env)
  (userId noteId noteContent : string) (w : World) :
  oid_valid env userId = true ->
  oid_valid env noteId = true ->
  candidate_window (store w) userId noteId <> [] ->
  remote_rank env noteContent
    (map n_content (candidate_window (store w) userId noteId)) = None ->
  link_related_notes env userId noteId noteContent w
  = (Throw RemoteError,
     mkWorld (store w)
             (log w ++ [LogError "Error finding connections:" RemoteError])
             (calls w ++ [CallRank noteContent
                            (map n_content
                               (candidate_window (store w) userId noteId))])).
Proof.
  intros Huser Hnote Hne Hrank.
  unfold link_related_notes.
  unfold bind at 1. unfold Db.newObjectId. rewrite Huser. unfold ret at 1.
  unfold bind at 1. unfold Db.Note_find_others, Db.castObjectId.
  rewrite Hnote. unfold bind at 1. unfold ret at 1.
  unfold bind at 1. unfold get_store at 1. unfold ret at 1.
  fold (candidate_window (store w) userId noteId).
  destruct (candidate_window (store w) userId noteId) as [| n0 rest] eqn:Ewin;
    [contradiction Hne; reflexivity |].
  erewrite bind_throw by (apply findConnections_down; exact Hrank).
  reflexivity.
Qed.

Lemma link_related_notes_rejected (env : Env)
  (userId noteId noteContent : string) (cs : list Connection) (cur : Note)
  (w : World) :
  oid_valid env userId = true ->
  oid_valid env noteId = true ->
  candidate_window (store w) userId noteId <> [] ->
  remote_rank env noteContent
    (map n_content (candidate_window (store w) userId noteId)) = Some cs ->
  find (fun x => String.eqb (n_id x) noteId) (notes (store w)) = Some cur ->
  (forall c, In c cs -> above_link_threshold (c_score c) = true ->
     c_index c < List.length (candidate_window (store w) userId noteId)) ->
  persist_ok env
    (DNote (note_with_links cur
              (n_linkedEntities cur
               ++ linked_ids (candidate_window (store w) userId noteId) cs)))
  = false ->
  link_related_notes env userId noteId noteContent w
  = (Throw PersistError,
     mkWorld (store w) (log w)
             (calls w ++ [CallRank noteContent
                            (map n_content
                               (candidate_window (store w) userId noteId))])).
Proof.
  intros Huser Hnote Hne Hrank Hfind Hidx Hrejected.
  unfold link_related_notes.
  unfold bind at 1. unfold Db.newObjectId. rewrite Huser. unfold ret at 1.
  unfold bind at 1. unfold Db.Note_find_others, Db.castObjectId.
  rewrite Hnote. unfold bind at 1. unfold ret at 1.
  unfold bind at 1. unfold get_store at 1. unfold ret at 1.
  fold (candidate_window (store w) userId noteId).
  destruct (candidate_window (store w) userId noteId) as [| n0 rest] eqn:Ewin;
    [contradiction Hne; reflexivity |].
  unfold bind at 1.
  unfold AIService.findConnections, try_catch, bind at 1, record_call,
    of_reply.
  rewrite Hrank. unfold ret at 1.
  unfold bind at 1. unfold Db.Note_findById, Db.castObjectId. rewrite Hnote.
  unfold bind at 1. unfold ret at 1. unfold bind at 1, get_store, ret at 1.
  cbn [store notes]. rewrite Hfind.
  erewrite bind_ok by (apply push_related_notes_ok; exact Hidx).
  unfold Db.Note_save. rewrite Hrejected.
  reflexivity.
Qed.

(** The world once the people loop has saved [saved]. *)
Lemma linkNote_person_rejected (env : Env)
  (userId noteId noteContent : string) (ents : Entities)
  (before : list Person) (person : Person) (others : list Person)
  (w : World) :
  remote_extract env noteContent = Some ents ->
  oid_valid env userId = true ->
  oid_valid env noteId = true ->
  matched_people (store w) userId (extracted_names ents)
  = before ++ person :: others ->
  (forall p, In p before ->
     persist_ok env (DPerson (person_push_linkedNotes p noteId)) = true) ->
  persist_ok env (DPerson (person_push_linkedNotes person noteId)) = false ->
  linkNoteToEntities env userId noteId noteContent w
  = (Ok tt,
     mkWorld (mkStore (notes (store w))
                      (save_people noteId before (people (store w)))
                      (meetings (store w)) (reminders (store w)))
             (log w ++ [LogError "Error linking note to entities:"
                                 PersistError])
             (calls w ++ [CallExtract noteContent])).
Proof.
  intros Hext Huser Hnote Hmatched Haccepted Hrejected.
  unfold linkNoteToEntities, try_catch.
  erewrite bind_ok by (apply extractEntities_ok; exact Hext).
  erewrite bind_throw
    by (apply link_named_people_rejected with (before := before)
          (person := person) (others := others); assumption).
  reflexivity.
Qed.

Lemma linkNote_rank_down (env : Env)
  (userId noteId noteContent : string) (ents : Entities) (w : World) :
  remote_extract env noteContent = Some ents ->
  oid_valid env userId = true ->
  oid_valid env noteId = true ->
  (forall p,
     In p (matched_people (store w) userId (extracted_names ents)) ->
     persist_ok env (DPerson (person_push_linkedNotes p noteId)) = true) ->
  candidate_window (store w) userId noteId <> [] ->
  remote_rank env noteContent
    (map n_content (candidate_window (store w) userId noteId)) = None ->
  linkNoteToEntities env userId noteId noteContent w
  = (Ok tt,
     mkWorld (mkStore (notes (store w))
                      (save_people noteId
                         (matched_people (store w) userId
                                         (extracted_names ents))
                         (people (store w)))
                      (meetings (store w)) (reminders (store w)))
             (log w ++ [LogError "Error finding connections:" RemoteError]
                    ++ [LogError "Error linking note to entities:"
                                 RemoteError])
             (calls w ++ [CallExtract noteContent]
                      ++ [CallRank noteContent
                            (map n_content
                               (candidate_window (store w) userId noteId))])).
Proof.
  intros Hext Huser Hnote Hpeople Hne Hrank.
  unfold linkNoteToEntities, try_catch.
  erewrite bind_ok by (apply extractEntities_ok; exact Hext).
  erewrite bind_ok
    by (apply link_named_people_run; [exact Huser | exact Hnote | exact Hpeople]).
  erewrite bind_throw
    by (apply link_related_notes_down;
        [exact Huser | exact Hnote | exact Hne | exact Hrank]).
  unfold logger.error.
  cbn [fst snd store log calls notes people meetings reminders].
  rewrite <- !app_assoc. reflexivity.
Qed.

Lemma linkNote_note_rejected (env : Env)
  (userId noteId noteContent : string) (ents : Entities)
  (cs : list Connection) (cur : Note) (w : World) :
  remote_extract env noteContent = Some ents ->
  oid_valid env userId = true ->
  oid_valid env noteId = true ->
  (forall p,
     In p (matched_people (store w) userId (extracted_names ents)) ->
     persist_ok env (DPerson (person_push_linkedNotes p noteId)) = true) ->
  candidate_window (store w) userId noteId <> [] ->
  remote_rank env noteContent
    (map n_content (candidate_window (store w) userId noteId)) = Some cs ->
  find (fun x => String.eqb (n_id x) noteId) (notes (store w)) = Some cur ->
  (forall c, In c cs -> above_link_threshold (c_score c) = true ->
     c_index c < List.length (candidate_window (store w) userId noteId)) ->
  persist_ok env
    (DNote (note_with_links cur
              (n_linkedEntities cur
               ++ linked_ids (candidate_window (store w) userId noteId) cs)))
  = false ->
  linkNoteToEntities env userId noteId noteContent w
  = (Ok tt,
     mkWorld (mkStore (notes (store w))
                      (save_people noteId
                         (matched_people (store w) userId
                                         (extracted_names ents))
                         (people (store w)))
                      (meetings (store w)) (reminders (store w)))
             (log w ++ [LogError "Error linking note to entities:"
                                 PersistError])
             (calls w ++ [CallExtract noteContent]
                      ++ [CallRank noteContent
                            (map n_content
                               (candidate_window (store w) userId noteId))])).
Proof.
  intros Hext Huser Hnote Hpeople Hne Hrank Hfind Hidx Hrejected.
  unfold linkNoteToEntities, try_catch.
  erewrite bind_ok by (apply extractEntities_ok; exact Hext).
  erewrite bind_ok
    by (apply link_named_people_run; [exact Huser | exact Hnote | exact Hpeople]).
  erewrite bind_throw
    by (apply link_related_notes_rejected with (cs := cs) (cur := cur);
        [exact Huser | exact Hnote | exact Hne | exact Hrank | exact Hfind
        | exact Hidx | exact Hrejected]).
  unfold logger.error.
  cbn [fst snd store log calls notes people meetings reminders].
  rewrite <- !app_assoc. reflexivity.
Qed.

Lemma linkPerson_rejected (env : Env) (userId personId personName : string)
  (person : Person) (w : World) :
  oid_valid env userId = true ->
  oid_valid env personId = true ->
  find (fun p => String.eqb (p_id p) personId) (people (store w))
  = Some person ->
  persist_ok env
    (DPerson (linked_person env personName (store w) userId person))
  = false ->
  linkPersonToRelevantData env userId personId personName w
  = (Ok tt,
     mkWorld (store w)
             (log w ++ [LogError "Error linking person to relevant data:"
                                 PersistError])
             (calls w)).
Proof.
  intros Huser Hperson Hfind Hrejected.
  unfold linkPersonToRelevantData, try_catch.
  erewrite bind_ok by (apply newObjectId_ok; exact Huser).
  erewrite bind_ok by apply Note_find_ok.
  erewrite bind_ok by (apply newObjectId_ok; exact Huser).
  erewrite bind_ok by apply Meeting_find_ok.
  erewrite bind_ok.
  2:{ unfold Db.Person_findById.
      erewrite bind_ok.
      2:{ unfold Db.castObjectId. rewrite Hperson. reflexivity. }
      reflexivity. }
  rewrite Hfind. cbv zeta.
  erewrite bind_throw.
  2:{ unfold Db.Person_save, owner_notes, owner_meetings.
      unfold linked_person in Hrejected. rewrite Hrejected. reflexivity. }
  reflexivity.
Qed.

Lemma linkMeeting_actions_down (env : Env)
  (userId meetingId meetingNotes : string) (w : World) :
  remote_actions env meetingNotes = None ->
  linkMeetingToData env userId meetingId meetingNotes w
  = (Ok tt,
     mkWorld (store w)
       (log w ++ [LogError "Error generating action items:" RemoteError]
              ++ [LogError "Error linking meeting to data:" RemoteError])
       (calls w ++ [CallActions meetingNotes])).
Proof.
  intro Hdown.
  unfold linkMeetingToData, AIService.generateActionItems, try_catch, bind,
    record_call, of_reply, throw, logger.error.
  rewrite Hdown. cbn. rewrite <- app_assoc. reflexivity.
Qed.

Lemma linkMeeting_items_rejected (env : Env)
  (userId meetingId meetingNotes : string) (items : list string)
  (meeting : Meeting) (w : World) :
  remote_actions env meetingNotes = Some items ->
  oid_valid env meetingId = true ->
  find (fun x => String.eqb (m_id x) meetingId) (meetings (store w))
  = Some meeting ->
  persist_ok env (DMeeting (meeting_set_actionItems meeting items)) = false ->
  linkMeetingToData env userId meetingId meetingNotes w
  = (Ok tt,
     mkWorld (store w)
       (log w ++ [LogError "Error linking meeting to data:" PersistError])
       (calls w ++ [CallActions meetingNotes])).
Proof.
  intros Hitems Hmeeting Hfind Hrejected.
  unfold linkMeetingToData, try_catch.
  erewrite bind_ok by (apply generateActionItems_ok; exact Hitems).
  erewrite bind_ok by (apply Meeting_findById_ok; exact Hmeeting).
  cbn [store meetings]. rewrite Hfind. cbv zeta.
  erewrite bind_throw.
  2:{ erewrite bind_throw by (apply Meeting_save_rejected; exact Hrejected).
      reflexivity. }
  reflexivity.
Qed.

Lemma linkMeeting_rank_down (env : Env)
  (userId meetingId meetingNotes : string) (items : list string)
  (meeting : Meeting) (w : World) :
  remote_actions env meetingNotes = Some items ->
  oid_valid env userId = true ->
  oid_valid env meetingId = true ->
  find (fun x => String.eqb (m_id x) meetingId) (meetings (store w))
  = Some meeting ->
  persist_ok env (DMeeting (meeting_set_actionItems meeting items)) = true ->
  owner_notes (store w) userId 50 <> [] ->
  remote_rank env meetingNotes
    (map n_content (owner_notes (store w) userId 50)) = None ->
  linkMeetingToData env userId meetingId meetingNotes w
  = (Ok tt,
     mkWorld
       (mkStore (notes (store w)) (people (store w))
          (Db.replace_by m_id
             (meeting_with meeting items (m_linkedNotes meeting))
             (meetings (store w)))
          (reminders (store w)))
       (log w ++ [LogError "Error finding connections:" RemoteError]
              ++ [LogError "Error linking meeting to data:" RemoteError])
       (calls w ++ [CallActions meetingNotes]
                ++ [CallRank meetingNotes
                      (map n_content (owner_notes (store w) userId 50))])).
Proof.
  intros Hitems Huser Hmeeting Hfind Hpersist Hne Hrank.
  unfold linkMeetingToData, try_catch.
  erewrite bind_ok by (apply generateActionItems_ok; exact Hitems).
  erewrite bind_ok by (apply Meeting_findById_ok; exact Hmeeting).
  cbn [store meetings]. rewrite Hfind. cbv zeta.
  erewrite bind_ok.
  2:{ erewrite bind_ok by (apply Meeting_save_ok; exact Hpersist).
      reflexivity. }
  erewrite bind_ok by (apply newObjectId_ok; exact Huser).
  erewrite bind_ok by apply Note_find_ok.
  cbn [store notes people meetings reminders log calls].
  change (owner_notes
            (mkStore (notes (store w)) (people (store w))
               (Db.replace_by m_id (meeting_set_actionItems meeting items)
                  (meetings (store w)))
               (reminders (store w))) userId 50)
    with (owner_notes (store w) userId 50).
  destruct (owner_notes (store w) userId 50) as [| n0 rest] eqn:Ewin;
    [contradiction Hne; reflexivity |].
  erewrite bind_throw.
  2:{ erewrite bind_throw by (apply findConnections_down; exact Hrank).
      reflexivity. }
  unfold logger.error.
  cbn [store notes people meetings reminders log calls].
  rewrite <- !app_assoc. reflexivity.
Qed.

Lemma linkMeeting_links_rejected (env : Env)
  (userId meetingId meetingNotes : string) (items : list string)
  (cs : list Connection) (meeting : Meeting) (w : World) :
  remote_actions env meetingNotes = Some items ->
  oid_valid env userId = true ->
  oid_valid env meetingId = true ->
  find (fun x => String.eqb (m_id x) meetingId) (meetings (store w))
  = Some meeting ->
  persist_ok env (DMeeting (meeting_set_actionItems meeting items)) = true ->
  owner_notes (store w) userId 50 <> [] ->
  remote_rank env meetingNotes
    (map n_content (owner_notes (store w) userId 50)) = Some cs ->
  (forall c, In c cs -> above_link_threshold (c_score c) = true ->
     c_index c < List.length (owner_notes (store w) userId 50)) ->
  persist_ok env
    (DMeeting (meeting_with meeting items
                 (m_linkedNotes meeting
                  ++ linked_ids (owner_notes (store w) userId 50) cs)))
  = false ->
  linkMeetingToData env userId meetingId meetingNotes w
  = (Ok tt,
     mkWorld
       (mkStore (notes (store w)) (people (store w))
          (Db.replace_by m_id
             (meeting_with meeting items (m_linkedNotes meeting))
             (meetings (store w)))
          (reminders (store w)))
       (log w ++ [LogError "Error linking meeting to data:" PersistError])
       (calls w ++ [CallActions meetingNotes]
                ++ [CallRank meetingNotes
                      (map n_content (owner_notes (store w) userId 50))])).
Proof.
  intros Hitems Huser Hmeeting Hfind Hpersist Hne Hrank Hidx Hrejected.
  unfold linkMeetingToData, try_catch.
  erewrite bind_ok by (apply generateActionItems_ok; exact Hitems).
  erewrite bind_ok by (apply Meeting_findById_ok; exact Hmeeting).
  cbn [store meetings]. rewrite Hfind. cbv zeta.
  erewrite bind_ok.
  2:{ erewrite bind_ok by (apply Meeting_save_ok; exact Hpersist).
      reflexivity. }
  erewrite bind_ok by (apply newObjectId_ok; exact Huser).
  erewrite bind_ok by apply Note_find_ok.
  cbn [store notes people meetings reminders log calls].
  change (owner_notes
            (mkStore (notes (store w)) (people (store w))
               (Db.replace_by m_id (meeting_set_actionItems meeting items)
                  (meetings (store w)))
               (reminders (store w))) userId 50)
    with (owner_notes (store w) userId 50).
  destruct (owner_notes (store w) userId 50) as [| n0 rest] eqn:Ewin;
    [contradiction Hne; reflexivity |].
  erewrite bind_throw.
  2:{ erewrite bind_ok by (apply findConnections_ok; exact Hrank).
      erewrite bind_ok by (apply push_meeting_notes_ok; exact Hidx).
      apply Meeting_save_rejected. exact Hrejected. }
  unfold logger.error.
  cbn [store notes people meetings reminders log calls].
  rewrite <- !app_assoc. reflexivity.
Qed.

(** C2, amended: a failure in a sub-step is not recovered locally.  In each
    of the three linking entry points the first failing sub-step ends the
    run: its error reaches the one handler of the entry point, which logs it
    and returns normally (a failing capability has logged it once already);
    no later sub-step runs, and what was written before the failure stays
    written.
    - linkNoteToEntities.  The extraction fails: nothing is written and the
      similarity capability is not called.  The write of a matched person
      is rejected: the people before it keep their new link, the people
      after it and the note are not touched, the similarity capability is
      not called.  The similarity capability fails, or the write of the note
      is rejected: the matched people keep their new link, the note is as
      it was.
    - linkPersonToRelevantData.  The write of the person is rejected:
      nothing is written.
    - linkMeetingToData.  The action items cannot be derived, or the write
      of the meeting with its new action items is rejected: nothing is
      written and the similarity capability is not called.  The similarity
      capability fails, or the write of the meeting with its new links is
      rejected: the meeting keeps the new action items and its former
      links.
    In none of these runs is the closing information line logged. *)
Theorem failing_substep_ends_the_run
  (env : Env) (userId recordId text : string) (w : World) :
  (* linkNoteToEntities: the extraction fails *)
  (remote_extract env text = None ->
   linkNoteToEntities env userId recordId text w
   = (Ok tt,
      mkWorld (store w)
              (log w ++ [LogError "Error extracting entities:" RemoteError]
                     ++ [LogError "Error linking note to entities:" RemoteError])
              (calls w ++ [CallExtract text])))
  (* linkNoteToEntities: the write of a matched person is rejected *)
  /\ (forall ents before person others,
        remote_extract env text = Some ents ->
        oid_valid env userId = true ->
        oid_valid env recordId = true ->
        matched_people (store w) userId (extracted_names ents)
        = before ++ person :: others ->
        (forall p, In p before ->
           persist_ok env (DPerson (person_push_linkedNotes p recordId))
           = true) ->
        persist_ok env (DPerson (person_push_linkedNotes person recordId))
        = false ->
        linkNoteToEntities env userId recordId text w
        = (Ok tt,
           mkWorld (mkStore (notes (store w))
                            (save_people recordId before (people (store w)))
                            (meetings (store w)) (reminders (store w)))
                   (log w ++ [LogError "Error linking note to entities:"
                                       PersistError])
                   (calls w ++ [CallExtract text])))
  (* linkNoteToEntities: the similarity capability fails *)
  /\ (forall ents,
        remote_extract env text = Some ents ->
        oid_valid env userId = true ->
        oid_valid env recordId = true ->
        (forall p,
           In p (matched_people (store w) userId (extracted_names ents)) ->
           persist_ok env (DPerson (person_push_linkedNotes p recordId))
           = true) ->
        candidate_window (store w) userId recordId <> [] ->
        remote_rank env text
          (map n_content (candidate_window (store w) userId recordId))
        = None ->
        linkNoteToEntities env userId recordId text w
        = (Ok tt,
           mkWorld (mkStore (notes (store w))
                            (save_people recordId
                               (matched_people (store w) userId
                                               (extracted_names ents))
                               (people (store w)))
                            (meetings (store w)) (reminders (store w)))
                   (log w
                    ++ [LogError "Error finding connections:" RemoteError]
                    ++ [LogError "Error linking note to entities:"
                                 RemoteError])
                   (calls w ++ [CallExtract text]
                            ++ [CallRank text
                                  (map n_content
                                     (candidate_window (store w) userId
                                                       recordId))])))
  (* linkNoteToEntities: the write of the note is rejected *)
  /\ (forall ents cs cur,
        remote_extract env text = Some ents ->
        oid_valid env userId = true ->
        oid_valid env recordId = true ->
        (forall p,
           In p (matched_people (store w) userId (extracted_names ents)) ->
           persist_ok env (DPerson (person_push_linkedNotes p recordId))
           = true) ->
        candidate_window (store w) userId recordId <> [] ->
        remote_rank env text
          (map n_content (candidate_window (store w) userId recordId))
        = Some cs ->
        find (fun x => String.eqb (n_id x) recordId) (notes (store w))
        = Some cur ->
        (forall c, In c cs -> above_link_threshold (c_score c) = true ->
           c_index c
           < List.length (candidate_window (store w) userId recordId)) ->
        persist_ok env
          (DNote (note_with_links cur
                    (n_linkedEntities cur
                     ++ linked_ids
                          (candidate_window (store w) userId recordId) cs)))
        = false ->
        linkNoteToEntities env userId recordId text w
        = (Ok tt,
           mkWorld (mkStore (notes (store w))
                            (save_people recordId
                               (matched_people (store w) userId
                                               (extracted_names ents))
                               (people (store w)))
                            (meetings (store w)) (reminders (store w)))
                   (log w ++ [LogError "Error linking note to entities:"
                                       PersistError])
                   (calls w ++ [CallExtract text]
                            ++ [CallRank text
                                  (map n_content
                                     (candidate_window (store w) userId
                                                       recordId))])))
  (* linkPersonToRelevantData: the write of the person is rejected *)
  /\ (forall person,
        oid_valid env userId = true ->
        oid_valid env recordId = true ->
        find (fun p => String.eqb (p_id p) recordId) (people (store w))
        = Some person ->
        persist_ok env
          (DPerson (linked_person env text (store w) userId person))
        = false ->
        linkPersonToRelevantData env userId recordId text w
        = (Ok tt,
           mkWorld (store w)
                   (log w
                    ++ [LogError "Error linking person to relevant data:"
                                 PersistError])
                   (calls w)))
  (* linkMeetingToData: the action items cannot be derived *)
  /\ (remote_actions env text = None ->
      linkMeetingToData env userId recordId text w
      = (Ok tt,
         mkWorld (store w)
           (log w ++ [LogError "Error generating action items:" RemoteError]
                  ++ [LogError "Error linking meeting to data:" RemoteError])
           (calls w ++ [CallActions text])))
  (* linkMeetingToData: the write of the action items is rejected *)
  /\ (forall items meeting,
        remote_actions env text = Some items ->
        oid_valid env recordId = true ->
        find (fun x => String.eqb (m_id x) recordId) (meetings (store w))
        = Some meeting ->
        persist_ok env (DMeeting (meeting_set_actionItems meeting items))
        = false ->
        linkMeetingToData env userId recordId text w
        = (Ok tt,
           mkWorld (store w)
             (log w ++ [LogError "Error linking meeting to data:"
                                 PersistError])
             (calls w ++ [CallActions text])))
  (* linkMeetingToData: the similarity capability fails *)
  /\ (forall items meeting,
        remote_actions env text = Some items ->
        oid_valid env userId = true ->
        oid_valid env recordId = true ->
        find (fun x => String.eqb (m_id x) recordId) (meetings (store w))
        = Some meeting ->
        persist_ok env (DMeeting (meeting_set_actionItems meeting items))
        = true ->
        owner_notes (store w) userId 50 <> [] ->
        remote_rank env text
          (map n_content (owner_notes (store w) userId 50)) = None ->
        linkMeetingToData env userId recordId text w
        = (Ok tt,
           mkWorld
             (mkStore (notes (store w)) (people (store w))
                (Db.replace_by m_id
                   (meeting_with meeting items (m_linkedNotes meeting))
                   (meetings (store w)))
                (reminders (store w)))
             (log w ++ [LogError "Error finding connections:" RemoteError]
                    ++ [LogError "Error linking meeting to data:"
                                 RemoteError])
             (calls w ++ [CallActions text]
                      ++ [CallRank text
                            (map n_content
                               (owner_notes (store w) userId 50))])))
  (* linkMeetingToData: the write of the links is rejected *)
  /\ (forall items cs meeting,
        remote_actions env text = Some items ->
        oid_valid env userId = true ->
        oid_valid env recordId = true ->
        find (fun x => String.eqb (m_id x) recordId) (meetings (store w))
        = Some meeting ->
        persist_ok env (DMeeting (meeting_set_actionItems meeting items))
        = true ->
        owner_notes (store w) userId 50 <> [] ->
        remote_rank env text
          (map n_content (owner_notes (store w) userId 50)) = Some cs ->
        (forall c, In c cs -> above_link_threshold (c_score c) = true ->
           c_index c < List.length (owner_notes (store w) userId 50)) ->
        persist_ok env
          (DMeeting (meeting_with meeting items
                       (m_linkedNotes meeting
                        ++ linked_ids (owner_notes (store w) userId 50) cs)))
        = false ->
        linkMeetingToData env userId recordId text w
        = (Ok tt,
           mkWorld
             (mkStore (notes (store w)) (people (store w))
                (Db.replace_by m_id
                   (meeting_with meeting items (m_linkedNotes meeting))
                   (meetings (store w)))
                (reminders (store w)))
             (log w ++ [LogError "Error linking meeting to data:"
                                 PersistError])
             (calls w ++ [CallActions text]
                      ++ [CallRank text
                            (map n_content
                               (owner_notes (store w) userId 50))]))).
Proof.
  repeat apply conj.
  - intro Hdown.
    unfold linkNoteToEntities, AIService.extractEntities, try_catch, bind,
      record_call, of_reply, throw, logger.error.
    rewrite Hdown. cbn. rewrite <- app_assoc. reflexivity.
  - intros ents before person others.
    apply linkNote_person_rejected.
  - intros ents. apply linkNote_rank_down.
  - intros ents cs cur. apply linkNote_note_rejected.
  - intros person. apply linkPerson_rejected.
  - apply linkMeeting_actions_down.
  - intros items meeting. apply linkMeeting_items_rejected.
  - intros items meeting. apply linkMeeting_rank_down.
  - intros items cs meeting. apply linkMeeting_links_rejected.
Qed.

(** The theorem at work on the scenario, one failure at a time: the
    extraction is down; Person documents are read-only; the similarity
    capability is down; Note documents are read-only; then, for the meeting,
    the action-item capability is down; Meeting documents are read-only;
    the similarity capability is down; a meeting with a link is rejected. *)
Lemma failing_substep_ends_the_run_witness :
  linkNoteToEntities Scenario.env_extract_down Scenario.owner
    Scenario.note1_id Scenario.note1_text Scenario.world0
  = (Ok tt,
     mkWorld Scenario.store0
             [LogError "Error extracting entities:" RemoteError;
              LogError "Error linking note to entities:" RemoteError]
             [CallExtract Scenario.note1_text])
  /\ linkNoteToEntities Scenario.env_person_readonly Scenario.owner
       Scenario.note1_id Scenario.note1_text Scenario.world0
     = (Ok tt,
        mkWorld Scenario.store0
                [LogError "Error linking note to entities:" PersistError]
                [CallExtract Scenario.note1_text])
  /\ linkNoteToEntities Variants.env_rank_down Scenario.owner
       Scenario.note1_id Scenario.note1_text Scenario.world0
     = (Ok tt,
        mkWorld (mkStore [Scenario.note1; Scenario.note2; Scenario.note3]
                         [person_push_linkedNotes Scenario.john
                                                  Scenario.note1_id]
                         [Scenario.meeting1] [])
                [LogError "Error finding connections:" RemoteError;
                 LogError "Error linking note to entities:" RemoteError]
                [CallExtract Scenario.note1_text;
                 CallRank Scenario.note1_text
                          ["Budget review with john"; "Buy milk"]])
  /\ linkNoteToEntities Rejecting.env_note_readonly Scenario.owner
       Scenario.note1_id Scenario.note1_text Scenario.world0
     = (Ok tt,
        mkWorld (mkStore [Scenario.note1; Scenario.note2; Scenario.note3]
                         [person_push_linkedNotes Scenario.john
                                                  Scenario.note1_id]
                         [Scenario.meeting1] [])
                [LogError "Error linking note to entities:" PersistError]
                [CallExtract Scenario.note1_text;
                 CallRank Scenario.note1_text
                          ["Budget review with john"; "Buy milk"]])
  /\ linkPersonToRelevantData Scenario.env_person_readonly Scenario.owner
       Scenario.john_id "John" Scenario.world0
     = (Ok tt,
        mkWorld Scenario.store0
                [LogError "Error linking person to relevant data:"
                          PersistError]
                [])
  /\ linkMeetingToData Variants.env_actions_down Scenario.owner
       Scenario.meeting1_id Scenario.meeting1_text Scenario.world0
     = (Ok tt,
        mkWorld Scenario.store0
                [LogError "Error generating action items:" RemoteError;
                 LogError "Error linking meeting to data:" RemoteError]
                [CallActions Scenario.meeting1_text])
  /\ linkMeetingToData Rejecting.env_meeting_readonly Scenario.owner
       Scenario.meeting1_id Scenario.meeting1_text Scenario.world0
     = (Ok tt,
        mkWorld Scenario.store0
                [LogError "Error linking meeting to data:" PersistError]
                [CallActions Scenario.meeting1_text])
  /\ linkMeetingToData Variants.env_rank_down Scenario.owner
       Scenario.meeting1_id Scenario.meeting1_text Scenario.world0
     = (Ok tt,
        mkWorld (mkStore [Scenario.note1; Scenario.note2; Scenario.note3]
                         [Scenario.john]
                         [meeting_with Scenario.meeting1
                                       Scenario.action_items []]
                         [])
                [LogError "Error finding connections:" RemoteError;
                 LogError "Error linking meeting to data:" RemoteError]
                [CallActions Scenario.meeting1_text;
                 CallRank Scenario.meeting1_text
                          [Scenario.note1_text; "Budget review with john";
                           "Buy milk"]])
  /\ linkMeetingToData Rejecting.env_meeting_links_readonly Scenario.owner
       Scenario.meeting1_id Scenario.meeting1_text Scenario.world0
     = (Ok tt,
        mkWorld (mkStore [Scenario.note1; Scenario.note2; Scenario.note3]
                         [Scenario.john]
                         [meeting_with Scenario.meeting1
                                       Scenario.action_items []]
                         [])
                [LogError "Error linking meeting to data:" PersistError]
                [CallActions Scenario.meeting1_text;
                 CallRank Scenario.meeting1_text
                          [Scenario.note1_text; "Budget review with john";
                           "Buy milk"]]).
Proof.
  repeat apply conj.
  - destruct (failing_substep_ends_the_run Scenario.env_extract_down
                Scenario.owner Scenario.note1_id Scenario.note1_text
                Scenario.world0) as (H & _).
    apply H. reflexivity.
  - destruct (failing_substep_ends_the_run Scenario.env_person_readonly
                Scenario.owner Scenario.note1_id Scenario.note1_text
                Scenario.world0) as (_ & H & _).
    apply (H (mkEntities (Some ["John"])) [] Scenario.john []);
      try reflexivity.
    intros p [].
  - destruct (failing_substep_ends_the_run Variants.env_rank_down
                Scenario.owner Scenario.note1_id Scenario.note1_text
                Scenario.world0) as (_ & _ & H & _).
    apply (H (mkEntities (Some ["John"]))); try reflexivity.
    discriminate.
  - destruct (failing_substep_ends_the_run Rejecting.env_note_readonly
                Scenario.owner Scenario.note1_id Scenario.note1_text
                Scenario.world0) as (_ & _ & _ & H & _).
    apply (H (mkEntities (Some ["John"])) Scenario.reply_rank Scenario.note1);
      try reflexivity.
    + discriminate.
    + intros c [Hc | [Hc | []]] _; subst c; vm_compute; lia.
  - destruct (failing_substep_ends_the_run Scenario.env_person_readonly
                Scenario.owner Scenario.john_id "John" Scenario.world0)
      as (_ & _ & _ & _ & H & _).
    apply (H Scenario.john); reflexivity.
  - destruct (failing_substep_ends_the_run Variants.env_actions_down
                Scenario.owner Scenario.meeting1_id Scenario.meeting1_text
                Scenario.world0) as (_ & _ & _ & _ & _ & H & _).
    apply H. reflexivity.
  - destruct (failing_substep_ends_the_run Rejecting.env_meeting_readonly
                Scenario.owner Scenario.meeting1_id Scenario.meeting1_text
                Scenario.world0) as (_ & _ & _ & _ & _ & _ & H & _).
    apply (H Scenario.action_items Scenario.meeting1); reflexivity.
  - destruct (failing_substep_ends_the_run Variants.env_rank_down
                Scenario.owner Scenario.meeting1_id Scenario.meeting1_text
                Scenario.world0) as (_ & _ & _ & _ & _ & _ & _ & H & _).
    apply (H Scenario.action_items Scenario.meeting1); try reflexivity.
    discriminate.
  - destruct (failing_substep_ends_the_run
                Rejecting.env_meeting_links_readonly
                Scenario.owner Scenario.meeting1_id Scenario.meeting1_text
                Scenario.world0) as (_ & _ & _ & _ & _ & _ & _ & _ & H).
    apply (H Scenario.action_items Scenario.reply_rank Scenario.meeting1);
      try reflexivity.
    + discriminate.
    + intros c [Hc | [Hc | []]] _; subst c; vm_compute; lia.
Defined.
